(** * MemOS: the Qdrant multi-collection router, the SearXNG retriever and
      the optional search methods of the graph-store base class

    A shallow embedding of

    - [memos/vec_dbs/qdrant_multi.py]: the item-shape conversions, the
      filter flattening and the router class [QdrantMultiCollectionVecDB];
    - [memos/memories/textual/tree_text_memory/retrieve/searxng_search.py]:
      [SearxngSearchAPI.search] and
      [SearxngSearchRetriever.retrieve_from_internet];
    - [memos/graph_dbs/base.py]: the three non-abstract methods of
      [BaseGraphDB];
    - [memos/graph_dbs/polardb/schema.py]: the methods of [SchemaMixin].

    Python values are a small inductive universe, dictionaries used as
    maps are [gmap string _], the router's [_instances] dictionary (whose
    key order is observable) is an association list, and every call that
    leaves the modelled code (a backend instance, the logger, the
    embedder, HTTP, the clock, the UUID generator, the connection pool
    and the cursor) is an event that a handler answers: of a free monad
    for the straight-line methods, of a function of the handler for the
    methods with [try] blocks. *)

From Stdlib Require Import ZArith String Ascii List PrimFloat DecimalString.
From stdpp Require Import base option list strings gmap fin_maps.

Set Warnings "-register-all".
Local Open Scope Z_scope.
Local Open Scope string_scope.

(** ** Python values *)

(** The values that travel in payloads, filters and JSON documents. *)
Inductive PyVal : Type :=
| PNone
| PBool (b : bool)
| PInt (z : Z)
| PFloat (f : float)
| PStr (s : string)
| PList (l : list PyVal)
| PDict (d : gmap string PyVal).

(** [dict[str, Any]] *)
Abbreviation PyDict := (gmap string PyVal).

(** [bool(d)] for a dictionary: non-empty. *)
Definition dict_truthy (d : PyDict) : bool := negb (bool_decide (size d = 0%nat)).

(** [bool(v)]: Python's truth value testing. *)
Definition py_truthy (v : PyVal) : bool :=
  match v with
  | PNone => false
  | PBool b => b
  | PInt z => negb (Z.eqb z 0)
  | PFloat f => negb (PrimFloat.eqb f 0%float)
  | PStr s => negb (String.eqb s EmptyString)
  | PList l => match l with [] => false | _ :: _ => true end
  | PDict d => dict_truthy d
  end.

(** [d.get(k, dflt)] *)
Definition dict_get_default (d : PyDict) (k : string) (dflt : PyVal) : PyVal :=
  match d !! k with
  | Some v => v
  | None => dflt
  end.

(** [flat.update(part)]: the entries of [part] win. *)
Definition dict_update (flat part : PyDict) : PyDict := part ∪ flat.

(** [p or {}] for an optional dictionary. *)
Definition dict_or_empty (p : option PyDict) : PyDict :=
  match p with
  | Some d => if dict_truthy d then d else ∅
  | None => ∅
  end.

(** ** Strings as Python prints them *)

Module PyStr.

(** Characters are code points below 256. *)
Definition quote1 : ascii := ascii_of_N 39.
Definition quote2 : ascii := ascii_of_N 34.
Definition backslash : ascii := ascii_of_N 92.

Fixpoint contains (c : ascii) (s : string) : bool :=
  match s with
  | EmptyString => false
  | String c' s' => Ascii.eqb c c' || contains c s'
  end.

Definition hex_digit (n : N) : ascii :=
  if (n <? 10)%N then ascii_of_N (48 + n) else ascii_of_N (87 + n).

(** [str.isprintable] on one code point below 256. *)
Definition printable (n : N) : bool :=
  ((32 <=? n) && (n <? 127) || (161 <=? n) && negb (n =? 173))%N.

Definition escape_char (quote c : ascii) : string :=
  let n := N_of_ascii c in
  if Ascii.eqb c quote || Ascii.eqb c backslash then String backslash (String c EmptyString)
  else if (n =? 9)%N then String backslash "t"
  else if (n =? 10)%N then String backslash "n"
  else if (n =? 13)%N then String backslash "r"
  else if printable n then String c EmptyString
  else String backslash
         (String "x" (String (hex_digit (n / 16)) (String (hex_digit (n mod 16)) EmptyString))).

Fixpoint escape (quote : ascii) (s : string) : string :=
  match s with
  | EmptyString => EmptyString
  | String c s' => escape_char quote c +:+ escape quote s'
  end.

(** [repr(s)] for a [str]: single quotes unless the text has a single
    quote and no double quote. *)
Definition repr (s : string) : string :=
  let quote := if contains quote1 s && negb (contains quote2 s) then quote2 else quote1 in
  String quote (escape quote s) +:+ String quote EmptyString.

Fixpoint join (sep : string) (l : list string) : string :=
  match l with
  | [] => EmptyString
  | [x] => x
  | x :: rest => x +:+ sep +:+ join sep rest
  end.

(** [str(l)] for a list of [str]. *)
Definition repr_list (l : list string) : string :=
  "[" +:+ join ", " (map repr l) +:+ "]".

(** [str(n)] for an [int]. *)
Definition of_int (z : Z) : string := NilZero.string_of_int (Z.to_int z).

End PyStr.


(** ** Results and exceptions *)

(** The exceptions the modelled code raises or lets through. The message
    is kept where the code builds it. *)
Inductive PyExn : Type :=
| ValueError (msg : string)
| AttributeError
| TypeError
| BackendError (what : string).

Inductive Result (A : Type) : Type :=
| Ok (a : A)
| Err (e : PyExn).
Arguments Ok {A} a.
Arguments Err {A} e.

(** ** Items ([memos/vec_dbs/item.py]) *)

Module VecDBItem.
(** Modelled from the spec: class [VecDBItem] is declared in
    [memos/vec_dbs/item.py], outside the modelled files. The generic item
    with its free-form payload, as a record of the fields the constructor
    call in [_prepare_for_qdrant] passes; each but [id] may be [None]. *)
Record t : Type := mk {
  id : string;
  vector : option (list float);
  payload : option PyDict;
  score : option float
}.
End VecDBItem.

Module MilvusVecDBItem.
(** Modelled from the spec: class [MilvusVecDBItem] is declared in
    [memos/vec_dbs/item.py], outside the modelled files. The canonical
    item: the generic fields and the [memory] / [original_text] pair, as
    the constructor call in [_to_milvus_item] passes them. *)
Record t : Type := mk {
  id : string;
  vector : option (list float);
  payload : option PyDict;
  score : option float;
  memory : PyVal;
  original_text : PyVal
}.
End MilvusVecDBItem.

(** What callers hand to [add], [update] and [upsert]:
    [VecDBItem | MilvusVecDBItem | dict[str, Any]]. *)
Inductive AnyItem : Type :=
| ItemVec (i : VecDBItem.t)
| ItemMilvus (m : MilvusVecDBItem.t)
| ItemDict (d : PyDict).

(** ** Module-level functions of [qdrant_multi.py] *)

Definition _to_milvus_item (item : VecDBItem.t) : MilvusVecDBItem.t :=
  let payload := dict_or_empty (VecDBItem.payload item) in
  MilvusVecDBItem.mk
    (VecDBItem.id item)
    (VecDBItem.vector item)
    (Some payload)
    (VecDBItem.score item)
    (dict_get_default payload "memory"
       (dict_get_default payload "preference" (PStr EmptyString)))
    (dict_get_default payload "original_text" (PStr EmptyString)).

Definition _prepare_for_qdrant (item : AnyItem) : AnyItem :=
  match item with
  | ItemMilvus m =>
      let payload := dict_or_empty (MilvusVecDBItem.payload m) in
      let payload :=
        if py_truthy (MilvusVecDBItem.memory m)
        then <["memory" := MilvusVecDBItem.memory m]> payload else payload in
      let payload :=
        if py_truthy (MilvusVecDBItem.original_text m)
        then <["original_text" := MilvusVecDBItem.original_text m]> payload else payload in
      ItemVec (VecDBItem.mk
                 (MilvusVecDBItem.id m)
                 (MilvusVecDBItem.vector m)
                 (Some payload)
                 (MilvusVecDBItem.score m))
  | _ => item
  end.

(** The loop of [_flatten_milvus_filter]: one [flat.update(part)] per
    dictionary part, from the left. *)
Definition flatten_step (flat : PyDict) (part : PyVal) : PyDict :=
  match part with
  | PDict d => dict_update flat d
  | _ => flat
  end.

Definition _flatten_milvus_filter (filter : option PyDict) : option PyDict :=
  match filter with
  | None => None
  | Some f =>
      match f !! "and" with
      | Some (PList parts) =>
          let flat := foldl flatten_step ∅ parts in
          if dict_truthy flat then Some flat else None
      | _ => Some f
      end
  end.

(** The merge of a clause list in the words of the specification: the
    dictionary clauses are merged in order, a later clause overriding the
    keys of the earlier ones, and every other clause is dropped. *)
Fixpoint merge_clauses (cs : list PyVal) : PyDict :=
  match cs with
  | [] => ∅
  | PDict d :: rest => merge_clauses rest ∪ d
  | _ :: rest => merge_clauses rest
  end.

(** ** Programs that call out

    A method body is a program: it returns, raises, or issues an external
    call and goes on with the reply. A handler answers the calls; [run]
    threads the handler's world, stops at the first exception and records
    every call with its answer. *)

Section Prog.
Context {E : Type} (Reply : E -> Type).

Inductive Prog (R : Type) : Type :=
| Ret (r : R)
| Raise (e : PyExn)
| Vis (ev : E) (k : Reply ev -> Prog R).

(** One observed call: the event and what came back. *)
Inductive Obs : Type :=
| obs (ev : E) (r : Result (Reply ev)).

Definition obs_event (o : Obs) : E := let 'obs ev _ := o in ev.

Definition Handler (W : Type) : Type := forall ev : E, W -> Result (Reply ev) * W.
End Prog.

Arguments Ret {E Reply R} r.
Arguments Raise {E Reply R} e.
Arguments Vis {E Reply R} ev k.
Arguments obs {E Reply} ev r.
Arguments obs_event {E Reply} o.

Fixpoint prog_bind {E} {Reply : E -> Type} {A B} (f : A -> Prog Reply B) (m : Prog Reply A)
  : Prog Reply B :=
  match m with
  | Ret a => f a
  | Raise e => Raise e
  | Vis ev k => Vis ev (fun x => prog_bind f (k x))
  end.

#[export] Instance Prog_ret {E} {Reply : E -> Type} : MRet (Prog Reply) := fun _ a => Ret a.
#[export] Instance Prog_bind {E} {Reply : E -> Type} : MBind (Prog Reply) := fun _ _ f m => prog_bind f m.

Fixpoint run {E} {Reply : E -> Type} {W R} (hd : Handler Reply W) (p : Prog Reply R) (w : W)
  : list (Obs Reply) * Result R * W :=
  match p with
  | Ret r => ([], Ok r, w)
  | Raise e => ([], Err e, w)
  | Vis ev k =>
      match hd ev w with
      | (Ok x, w') =>
          let '(tr, res, w'') := run hd (k x) w' in (obs ev (Ok x) :: tr, res, w'')
      | (Err e, w') => ([obs ev (Err e)], Err e, w')
      end
  end.

(** [for x in xs: body(x)] *)
Fixpoint for_each {E} {Reply : E -> Type} {A} (body : A -> Prog Reply ()) (xs : list A)
  : Prog Reply () :=
  match xs with
  | [] => Ret ()
  | x :: rest => body x ≫= fun _ => for_each body rest
  end.

(** ** An insertion-ordered dictionary with string keys

    [_instances] is iterated and printed, so the order of its keys
    counts: a first assignment appends, a later one replaces in place. *)

Module OrdDict.
Section OrdDict.
Context {V : Type}.

Fixpoint get (k : string) (d : list (string * V)) : option V :=
  match d with
  | [] => None
  | (k', v) :: rest => if String.eqb k k' then Some v else get k rest
  end.

Fixpoint set (k : string) (v : V) (d : list (string * V)) : list (string * V) :=
  match d with
  | [] => [(k, v)]
  | (k', v') :: rest =>
      if String.eqb k k' then (k', v) :: rest else (k', v') :: set k v rest
  end.

Definition keys (d : list (string * V)) : list string := map fst d.
Definition values (d : list (string * V)) : list V := map snd d.
End OrdDict.
End OrdDict.

(** ** The backend instances ([memos/vec_dbs/qdrant.py]) as events *)

(** Modelled from the spec: class [QdrantVecDBConfig] is declared in
    [memos/configs/vec_db.py], outside the modelled files. The shared
    base configuration specialised by one collection name, with the
    keywords [__init__] passes. *)
Record QdrantVecDBConfig : Type := {
  qc_collection_name : string;
  qc_vector_dimension : Z;
  qc_distance_metric : string;
  qc_host : option string;
  qc_port : option Z;
  qc_path : option string;
  qc_url : option string;
  qc_api_key : option string
}.

(** Modelled from the spec: class [QdrantMultiCollectionConfig] is
    declared in [memos/configs/vec_db.py], outside the modelled files. An
    ordered list of collection names plus the shared dimension, distance
    metric and connection target, with the attributes [__init__] reads. *)
Record QdrantMultiCollectionConfig : Type := {
  collection_name : list string;
  vector_dimension : Z;
  distance_metric : string;
  host : option string;
  port : option Z;
  path : option string;
  url : option string;
  api_key : option string
}.

(** A [QdrantVecDB] object, by identity. *)
Definition Handle : Type := nat.

(** The methods of [QdrantVecDB] the router calls, with the arguments it
    passes. [scroll_limit] of [q_get_by_filter] is [None] where the
    router leaves the argument out. *)
Inductive QdrantCall : Type :=
| q_create_collection
| q_delete_collection (name : string)
| q_collection_exists (name : string)
| q_search (query_vector : list float) (top_k : Z) (filter : option PyDict)
| q_get_by_id (id : string)
| q_get_by_ids (ids : list string)
| q_get_by_filter (filter : PyDict) (scroll_limit : option Z)
| q_get_all (scroll_limit : Z)
| q_count (filter : option PyDict)
| q_add (data : list AnyItem)
| q_update (id : string) (data : AnyItem)
| q_upsert (data : list AnyItem)
| q_delete (ids : list string)
| q_ensure_payload_indexes (fields : list string).

Definition QdrantReply (c : QdrantCall) : Type :=
  match c with
  | q_collection_exists _ => bool
  | q_search _ _ _ | q_get_by_ids _ | q_get_by_filter _ _ | q_get_all _ => list VecDBItem.t
  | q_get_by_id _ => option VecDBItem.t
  | q_count _ => Z
  | _ => ()
  end.

Inductive RouterEvent : Type :=
| ev_new (cfg : QdrantVecDBConfig)
| ev_call (h : Handle) (c : QdrantCall)
| ev_log_info (msg : string).

Definition RouterReply (ev : RouterEvent) : Type :=
  match ev with
  | ev_new _ => Handle
  | ev_call _ c => QdrantReply c
  | ev_log_info _ => ()
  end.

Abbreviation RouterProg := (Prog RouterReply).

(** [QdrantVecDB(cfg)], [inst.method(...)] and [logger.info(msg)]. *)
Definition new_instance (cfg : QdrantVecDBConfig) : RouterProg Handle :=
  Vis (ev_new cfg) Ret.
Definition invoke (inst : Handle) (c : QdrantCall) : RouterProg (QdrantReply c) :=
  Vis (ev_call inst c) Ret.
Definition log_info (msg : string) : RouterProg () :=
  Vis (ev_log_info msg) Ret.

(** ** [class QdrantMultiCollectionVecDB] *)

Module QdrantMultiCollectionVecDB.

Record t : Type := mk {
  config : QdrantMultiCollectionConfig;
  _instances : list (string * Handle)
}.

Definition single_cfg (config : QdrantMultiCollectionConfig) (name : string)
  : QdrantVecDBConfig :=
  {| qc_collection_name := name;
     qc_vector_dimension := vector_dimension config;
     qc_distance_metric := distance_metric config;
     qc_host := host config;
     qc_port := port config;
     qc_path := path config;
     qc_url := url config;
     qc_api_key := api_key config |}.

(** The loop of [__init__], on the dictionary built so far. *)
Fixpoint init_loop (config : QdrantMultiCollectionConfig) (names : list string)
    (instances : list (string * Handle)) : RouterProg (list (string * Handle)) :=
  match names with
  | [] => Ret instances
  | name :: rest =>
      inst ← new_instance (single_cfg config name);
      let instances := OrdDict.set name inst instances in
      _ ← log_info ("[QdrantMulti] Initialized collection '" +:+ name +:+ "'");
      init_loop config rest instances
  end.

Definition __init__ (config : QdrantMultiCollectionConfig) : RouterProg t :=
  instances ← init_loop config (collection_name config) [];
  Ret (mk config instances).

Definition unknown_collection_message (self : t) (collection_name : string) : string :=
  "Unknown collection '" +:+ collection_name +:+ "'. " +:+
  "Available: " +:+ PyStr.repr_list (OrdDict.keys (_instances self)).

Definition _get (self : t) (collection_name : string) : RouterProg Handle :=
  match OrdDict.get collection_name (_instances self) with
  | None => Raise (ValueError (unknown_collection_message self collection_name))
  | Some inst => Ret inst
  end.

(** *** Collection management *)

Definition create_collection (self : t) : RouterProg () :=
  for_each (fun inst => invoke inst q_create_collection)
           (OrdDict.values (_instances self)).

Definition list_collections (self : t) : list string := OrdDict.keys (_instances self).

Definition delete_collection (self : t) (name : string) : RouterProg () :=
  inst ← _get self name;
  invoke inst (q_delete_collection name).

Definition collection_exists (self : t) (name : string) : RouterProg bool :=
  match OrdDict.get name (_instances self) with
  | Some inst => invoke inst (q_collection_exists name)
  | None => Ret false
  end.

(** *** Search *)

Definition search (self : t) (query_vector : list float) (query : string)
    (collection_name : string) (top_k : Z) (filter : option PyDict) (search_type : string)
  : RouterProg (list MilvusVecDBItem.t) :=
  let flat_filter := _flatten_milvus_filter filter in
  inst ← _get self collection_name;
  results ← invoke inst (q_search query_vector top_k flat_filter);
  Ret (map _to_milvus_item results).

(** *** CRUD *)

Definition get_by_id (self : t) (collection_name : string) (id : string)
  : RouterProg (option MilvusVecDBItem.t) :=
  inst ← _get self collection_name;
  result ← invoke inst (q_get_by_id id);
  Ret (match result with
       | Some r => Some (_to_milvus_item r)
       | None => None
       end).

Definition get_by_ids (self : t) (collection_name : string) (ids : list string)
  : RouterProg (list MilvusVecDBItem.t) :=
  inst ← _get self collection_name;
  results ← invoke inst (q_get_by_ids ids);
  Ret (map _to_milvus_item results).


Definition get_by_filter (self : t) (collection_name : string) (filter : option PyDict)
    (scroll_limit : Z) : RouterProg (list MilvusVecDBItem.t) :=
  let flat_filter := dict_or_empty (_flatten_milvus_filter filter) in
  inst ← _get self collection_name;
  results ← invoke inst (q_get_by_filter flat_filter (Some scroll_limit));
  Ret (map _to_milvus_item results).

Definition get_all (self : t) (collection_name : string) (scroll_limit : Z)
  : RouterProg (list MilvusVecDBItem.t) :=
  inst ← _get self collection_name;
  results ← invoke inst (q_get_all scroll_limit);
  Ret (map _to_milvus_item results).

Definition count (self : t) (collection_name : string) (filter : option PyDict)
  : RouterProg Z :=
  inst ← _get self collection_name;
  invoke inst (q_count filter).

Definition add (self : t) (collection_name : string) (data : list AnyItem) : RouterProg () :=
  let prepared := map _prepare_for_qdrant data in
  inst ← _get self collection_name;
  invoke inst (q_add prepared).

Definition update (self : t) (collection_name : string) (id : string) (data : AnyItem)
  : RouterProg () :=
  let prepared := _prepare_for_qdrant data in
  inst ← _get self collection_name;
  invoke inst (q_update id prepared).

Definition upsert (self : t) (collection_name : string) (data : list AnyItem)
  : RouterProg () :=
  let prepared := map _prepare_for_qdrant data in
  inst ← _get self collection_name;
  invoke inst (q_upsert prepared).

Definition delete (self : t) (collection_name : string) (ids : list string)
  : RouterProg () :=
  inst ← _get self collection_name;
  invoke inst (q_delete ids).

Definition deleted_message (n : nat) (collection_name : string) : string :=
  "[QdrantMulti] Deleted " +:+ PyStr.of_int (Z.of_nat n) +:+ " items from '" +:+
  collection_name +:+ "' by filter".

Definition delete_by_filter (self : t) (collection_name : string) (filter : option PyDict)
  : RouterProg () :=
  inst ← _get self collection_name;
  let flat_filter := dict_or_empty (_flatten_milvus_filter filter) in
  items ← invoke inst (q_get_by_filter flat_filter None);
  match items with
  | [] => Ret ()
  | _ :: _ =>
      _ ← invoke inst (q_delete (map VecDBItem.id items));
      log_info (deleted_message (length items) collection_name)
  end.

Definition ensure_payload_indexes (self : t) (fields : list string) : RouterProg () :=
  for_each (fun inst => invoke inst (q_ensure_payload_indexes fields))
           (OrdDict.values (_instances self)).

End QdrantMultiCollectionVecDB.


(** One backend call answered by the handler, the reply passed through
    [f]: what a router method that forwards a single call amounts to. *)
Definition run_invoke {W R} (hd : Handler RouterReply W) (inst : Handle) (c : QdrantCall)
    (f : QdrantReply c -> R) (w : W) : list (Obs RouterReply) * Result R * W :=
  match hd (ev_call inst c) w with
  | (Ok x, w') => ([obs (ev_call inst c) (Ok x)], Ok (f x), w')
  | (Err e, w') => ([obs (ev_call inst c) (Err e)], Err e, w')
  end.

(** Deletion by filter in the words of the specification: scan the
    addressed instance for the records matching the flat filter, delete
    exactly the ids of the scanned records, then report how many there
    were; an empty scan ends the operation. *)
Definition scan_then_delete {W} (hd : Handler RouterReply W) (inst : Handle)
    (flat : PyDict) (name : string) (w : W) : list (Obs RouterReply) * Result () * W :=
  let scan := ev_call inst (q_get_by_filter flat None) in
  match hd scan w with
  | (Err e, w1) => ([obs scan (Err e)], Err e, w1)
  | (Ok items, w1) =>
      match items with
      | [] => ([obs scan (Ok items)], Ok (), w1)
      | _ :: _ =>
          let del := ev_call inst (q_delete (map VecDBItem.id items)) in
          match hd del w1 with
          | (Err e, w2) => ([obs scan (Ok items); obs del (Err e)], Err e, w2)
          | (Ok u, w2) =>
              let report :=
                ev_log_info ("[QdrantMulti] Deleted " +:+ PyStr.of_int (Z.of_nat (length items))
                             +:+ " items from '" +:+ name +:+ "' by filter") in
              match hd report w2 with
              | (r, w3) => ([obs scan (Ok items); obs del (Ok u); obs report r], r, w3)
              end
          end
      end
  end.

(** The item-shape rule in the words of the specification: [memory] is
    the payload's [memory] entry, else its [preference] entry, else the
    empty string; [original_text] is the payload's entry or the empty
    string; the other fields are carried over, a missing payload read as
    the empty mapping. *)
Definition canonical_of (r : VecDBItem.t) (m : MilvusVecDBItem.t) : Prop :=
  let p := default ∅ (VecDBItem.payload r) in
  MilvusVecDBItem.memory m =
    match p !! "memory" with
    | Some v => v
    | None => match p !! "preference" with
              | Some v => v
              | None => PStr EmptyString
              end
    end
  ∧ MilvusVecDBItem.original_text m =
    match p !! "original_text" with
    | Some v => v
    | None => PStr EmptyString
    end
  ∧ MilvusVecDBItem.id m = VecDBItem.id r
  ∧ MilvusVecDBItem.vector m = VecDBItem.vector r
  ∧ MilvusVecDBItem.score m = VecDBItem.score r
  ∧ MilvusVecDBItem.payload m = Some p.

(** ** A reference backend *)

(** Modelled from the spec: class [QdrantVecDB]
    ([memos/vec_dbs/qdrant.py]) is not among the modelled files. The
    reference instance is the single-collection store of the
    specification: records in insertion order, a filtered scan that
    returns the records whose payload equals the flat filter on every key
    of the filter, cut at the scroll limit where the caller passes one;
    the specification names no limit of the scan's own, so a scan asked
    for without a limit returns every matching record. Similarity
    ranking is the vector engine's own and is not modelled: [search]
    returns the matching records in insertion order. Only [VecDBItem]
    values are stored. *)
Module RefBackend.

Fixpoint val_eqb (a b : PyVal) {struct a} : bool :=
  match a, b with
  | PNone, PNone => true
  | PBool x, PBool y => Bool.eqb x y
  | PInt x, PInt y => Z.eqb x y
  | PFloat x, PFloat y => PrimFloat.eqb x y
  | PStr x, PStr y => String.eqb x y
  | PList xs, PList ys =>
      (fix go (xs ys : list PyVal) {struct xs} : bool :=
         match xs, ys with
         | [], [] => true
         | x :: xs', y :: ys' => val_eqb x y && go xs' ys'
         | _, _ => false
         end) xs ys
  | PDict d, PDict e =>
      Nat.eqb (size d) (size e) &&
      map_fold (fun k v acc =>
                  acc && match e !! k with
                         | Some v' => val_eqb v v'
                         | None => false
                         end) true d
  | _, _ => false
  end.

(** Modelled from the spec: the flat equality-clause form of the
    filters of [QdrantVecDB], which is not among the modelled files. A
    record matches a flat filter when its payload has every key of the
    filter with an equal value. *)
Definition matches (filter : PyDict) (item : VecDBItem.t) : bool :=
  let payload := default ∅ (VecDBItem.payload item) in
  map_fold (fun k v acc =>
              acc && match payload !! k with
                     | Some v' => val_eqb v v'
                     | None => false
                     end) true filter.

Definition matches_opt (filter : option PyDict) (item : VecDBItem.t) : bool :=
  match filter with
  | Some f => matches f item
  | None => true
  end.

Definition has_id (ids : list string) (item : VecDBItem.t) : bool :=
  existsb (String.eqb (VecDBItem.id item)) ids.

Record World : Type := mk {
  stores : list (list VecDBItem.t);
  log : list string
}.

Definition empty : World := mk [] [].

Fixpoint as_items (data : list AnyItem) : option (list VecDBItem.t) :=
  match data with
  | [] => Some []
  | ItemVec i :: rest => cons i <$> as_items rest
  | _ :: _ => None
  end.

Fixpoint upsert_one (i : VecDBItem.t) (s : list VecDBItem.t) : list VecDBItem.t :=
  match s with
  | [] => [i]
  | x :: rest =>
      if String.eqb (VecDBItem.id x) (VecDBItem.id i) then i :: rest
      else x :: upsert_one i rest
  end.

(** Modelled from the spec: the methods of [QdrantVecDB], which is not
    among the modelled files, on the records [s] of one collection: the
    reply and the records afterwards. *)
Definition answer (c : QdrantCall) (s : list VecDBItem.t)
  : Result (QdrantReply c) * list VecDBItem.t :=
  match c return Result (QdrantReply c) * list VecDBItem.t with
  | q_create_collection => (Ok (), s)
  | q_delete_collection _ => (Ok (), [])
  | q_collection_exists _ => (Ok true, s)
  | q_search _ top_k filter =>
      (Ok (take (Z.to_nat top_k) (List.filter (matches_opt filter) s)), s)
  | q_get_by_id id => (Ok (List.find (has_id [id]) s), s)
  | q_get_by_ids ids => (Ok (List.filter (has_id ids) s), s)
  | q_get_by_filter filter scroll_limit =>
      let found := List.filter (matches filter) s in
      (Ok match scroll_limit with
          | Some limit => take (Z.to_nat limit) found
          | None => found
          end, s)
  | q_get_all scroll_limit => (Ok (take (Z.to_nat scroll_limit) s), s)
  | q_count filter => (Ok (Z.of_nat (length (List.filter (matches_opt filter) s))), s)
  | q_add data =>
      match as_items data with
      | Some items => (Ok (), (s ++ items)%list)
      | None => (Err TypeError, s)
      end
  | q_update id data =>
      match data with
      | ItemVec i =>
          (Ok (), map (fun x => if String.eqb (VecDBItem.id x) id then i else x) s)
      | _ => (Err TypeError, s)
      end
  | q_upsert data =>
      match as_items data with
      | Some items => (Ok (), foldl (fun acc i => upsert_one i acc) s items)
      | None => (Err TypeError, s)
      end
  | q_delete ids => (Ok (), List.filter (fun x => negb (has_id ids x)) s)
  | q_ensure_payload_indexes _ => (Ok (), s)
  end.

(** Modelled from the spec: the world the router calls into, one
    [QdrantVecDB] store per constructed instance and the logger's lines. *)
Definition handler : Handler RouterReply World :=
  fun ev w =>
    match ev return Result (RouterReply ev) * World with
    | ev_new _ => (Ok (length (stores w)), mk (stores w ++ [[]])%list (log w))
    | ev_log_info msg => (Ok (), mk (stores w) (log w ++ [msg])%list)
    | ev_call h c =>
        match stores w !! h with
        | Some s =>
            let '(r, s') := answer c s in (r, mk (<[h := s']> (stores w)) (log w))
        | None => (Err (BackendError "no such instance"), w)
        end
    end.

End RefBackend.

(** ** The SearXNG retriever ([searxng_search.py]) *)

(** [requests.get(url, params=..., timeout=...)], [raise_for_status()]
    and [json()], the three steps inside the [try]: either one of them
    raised a [RequestException] (carried with its text) or the body
    parsed to a value. Any other exception is the handler's [Err]. *)
Inductive HttpOutcome : Type :=
| RequestFailed (e : string)
| JsonBody (data : PyVal).

(** What [datetime.now()] returned, by the two renderings the code takes:
    [strftime("%Y-%m-%d")] and [isoformat()]. *)
Record DateTime : Type := {
  strftime_ymd : string;
  isoformat : string
}.

Inductive WebEvent : Type :=
| ev_http_get (url : string) (params : list (string * string)) (timeout : Z)
| ev_log_error (msg : string)
| ev_embed (texts : list string)
| ev_now
| ev_uuid4.

Definition WebReply (ev : WebEvent) : Type :=
  match ev with
  | ev_http_get _ _ _ => HttpOutcome
  | ev_log_error _ => ()
  | ev_embed _ => list (list float)
  | ev_now => DateTime
  | ev_uuid4 => string
  end.

Abbreviation WebProg := (Prog WebReply).

Definition http_get (url : string) (params : list (string * string)) (timeout : Z)
  : WebProg HttpOutcome := Vis (ev_http_get url params timeout) Ret.
Definition log_error (msg : string) : WebProg () := Vis (ev_log_error msg) Ret.
Definition embed (texts : list string) : WebProg (list (list float)) := Vis (ev_embed texts) Ret.
Definition datetime_now : WebProg DateTime := Vis ev_now Ret.
(** [str(uuid.uuid4())] *)
Definition uuid4_str : WebProg string := Vis ev_uuid4 Ret.

Definition is_embed (o : Obs WebReply) : bool :=
  match obs_event o with
  | ev_embed _ => true
  | _ => false
  end.

(** [l[:n]] *)
Definition slice_to {A} (n : Z) (l : list A) : list A :=
  if Z.ltb n 0 then take (Z.to_nat (Z.of_nat (length l) + n)) l else take (Z.to_nat n) l.

Fixpoint string_of_list (l : list ascii) : string :=
  match l with
  | [] => EmptyString
  | c :: rest => String c (string_of_list rest)
  end.

Fixpoint drop_leading (c : ascii) (l : list ascii) : list ascii :=
  match l with
  | x :: rest => if Ascii.eqb x c then drop_leading c rest else l
  | [] => []
  end.

(** [s.rstrip("/")] *)
Definition rstrip_slash (s : string) : string :=
  string_of_list (rev (drop_leading "/"%char (rev (list_ascii_of_string s)))).

Module SearxngSearchAPI.

Record t : Type := mk {
  base_url : string;
  max_results : Z
}.

Definition __init__ (base_url : string) (max_results : Z) : t :=
  mk (rstrip_slash base_url) max_results.

(** [data.get("results", [])[:max_results]]; only lists and strings can
    be sliced (a dictionary under ["results"] raises [TypeError] up to
    Python 3.11 and [KeyError] from 3.12 on, modelled as the former). *)
Definition results_of (data : PyVal) (max_results : Z) : Result PyVal :=
  match data with
  | PDict d =>
      match dict_get_default d "results" (PList []) with
      | PList l => Ok (PList (slice_to max_results l))
      | PStr s => Ok (PStr (string_of_list (slice_to max_results (list_ascii_of_string s))))
      | _ => Err TypeError
      end
  | _ => Err AttributeError
  end.

Definition search (self : t) (query : string) (max_results : option Z) : WebProg PyVal :=
  let max_results := default (SearxngSearchAPI.max_results self) max_results in
  let params := [("q", query); ("format", "json"); ("categories", "general")] in
  outcome ← http_get (base_url self +:+ "/search") params 10;
  match outcome with
  | JsonBody data =>
      match results_of data max_results with
      | Ok results => Ret results
      | Err e => Raise e
      end
  | RequestFailed e =>
      _ ← log_error ("SearXNG search request failed: " +:+ e);
      Ret (PList [])
  end.

End SearxngSearchAPI.

(** Modelled from the spec: [SourceMessage],
    [TreeNodeTextualMemoryMetadata] and [TextualMemoryItem] are declared
    in [memos/memories/textual/item.py], outside the modelled files. The
    node shape [{id, memory, metadata}] an ingestion producer builds, as
    records of the keywords the constructor calls pass. *)
Record SourceMessage : Type := {
  sm_type : string;
  sm_url : PyVal
}.

Module TreeNodeTextualMemoryMetadata.
Record t : Type := mk {
  user_id : PyVal;
  session_id : PyVal;
  status : string;
  type : string;
  memory_time : string;
  source : string;
  confidence : float;
  tags : list PyVal;
  visibility : string;
  memory_type : string;
  key : PyVal;
  sources : list SourceMessage;
  embedding : list float;
  created_at : string;
  usage : list PyVal;
  background : string
}.
End TreeNodeTextualMemoryMetadata.

Module TextualMemoryItem.
Record t : Type := mk {
  id : string;
  memory : string;
  metadata : TreeNodeTextualMemoryMetadata.t
}.
End TextualMemoryItem.

(** [parsed_goal]: an object with, possibly, a [topic] and a [concept]
    attribute ([None] where [hasattr] is false). *)
Record ParsedGoal : Type := {
  topic : option PyVal;
  concept : option PyVal
}.

Module SearxngSearchRetriever.
Section WithStr.
(** Python's built-in [str()], which an f-string applies to each
    interpolated value. *)
Variable py_str : PyVal -> string.

Record t : Type := mk {
  searxng_api : SearxngSearchAPI.t
}.

Definition __init__ (base_url : string) (max_results : Z) : t :=
  mk (SearxngSearchAPI.__init__ base_url max_results).

(** One element of [entries]. *)
Record Entry : Type := {
  content : string;
  title : PyVal;
  link : PyVal;
  entry_tags : list PyVal
}.

Definition newline : string := String (ascii_of_N 10) EmptyString.

Definition goal_tags (parsed_goal : option ParsedGoal) : list PyVal :=
  let tags := [PStr "web_search"] in
  match parsed_goal with
  | Some g =>
      let tags :=
        match topic g with
        | Some v => if py_truthy v then (tags ++ [v])%list else tags
        | None => tags
        end in
      match concept g with
      | Some v => if py_truthy v then (tags ++ [v])%list else tags
      | None => tags
      end
  | None => tags
  end.

(** The body of the first loop, for a [result] that is a dictionary. *)
Definition entry_of (parsed_goal : option ParsedGoal) (result : PyDict) : Entry :=
  let title := dict_get_default result "title" (PStr EmptyString) in
  let snippet := dict_get_default result "content" (PStr EmptyString) in
  let link := dict_get_default result "url" (PStr EmptyString) in
  let memory_content :=
    "Title: " +:+ py_str title +:+ newline +:+
    "Summary: " +:+ py_str snippet +:+ newline +:+
    "Source: " +:+ py_str link in
  {| content := memory_content; title := title; link := link;
     entry_tags := goal_tags parsed_goal |}.

(** The first loop; [result.get] exists on dictionaries only. *)
Fixpoint entries_of_list (parsed_goal : option ParsedGoal) (results : list PyVal)
  : Result (list Entry) :=
  match results with
  | [] => Ok []
  | PDict result :: rest =>
      match entries_of_list parsed_goal rest with
      | Ok entries => Ok (entry_of parsed_goal result :: entries)
      | Err e => Err e
      end
  | _ :: _ => Err AttributeError
  end.

(** The first loop on whatever truthy value [search] returned: a
    list, or a string or dictionary (whose elements are strings), or
    something that cannot be iterated. *)
Definition entries_of (parsed_goal : option ParsedGoal) (search_results : PyVal)
  : Result (list Entry) :=
  match search_results with
  | PList l => entries_of_list parsed_goal l
  | PStr _ | PDict _ => Err AttributeError
  | _ => Err TypeError
  end.

Definition metadata_of (user_id session_id : PyVal) (now_str now_iso : string)
    (entry : Entry) (embedding : list float) : TreeNodeTextualMemoryMetadata.t :=
  {| TreeNodeTextualMemoryMetadata.user_id := user_id;
     TreeNodeTextualMemoryMetadata.session_id := session_id;
     TreeNodeTextualMemoryMetadata.status := "activated";
     TreeNodeTextualMemoryMetadata.type := "fact";
     TreeNodeTextualMemoryMetadata.memory_time := now_str;
     TreeNodeTextualMemoryMetadata.source := "web";
     TreeNodeTextualMemoryMetadata.confidence := 85%float;
     TreeNodeTextualMemoryMetadata.tags := entry_tags entry;
     TreeNodeTextualMemoryMetadata.visibility := "public";
     TreeNodeTextualMemoryMetadata.memory_type := "LongTermMemory";
     TreeNodeTextualMemoryMetadata.key := title entry;
     TreeNodeTextualMemoryMetadata.sources :=
       if py_truthy (link entry)
       then [{| sm_type := "web"; sm_url := link entry |}] else [];
     TreeNodeTextualMemoryMetadata.embedding := embedding;
     TreeNodeTextualMemoryMetadata.created_at := now_iso;
     TreeNodeTextualMemoryMetadata.usage := [];
     TreeNodeTextualMemoryMetadata.background := "SearXNG search result" |}.

(** The second loop, over [zip(entries, all_embeddings)]. *)
Fixpoint items_of (user_id session_id : PyVal) (now_str now_iso : string)
    (pairs : list (Entry * list float)) : WebProg (list TextualMemoryItem.t) :=
  match pairs with
  | [] => Ret []
  | (entry, embedding) :: rest =>
      let metadata := metadata_of user_id session_id now_str now_iso entry embedding in
      id ← uuid4_str;
      items ← items_of user_id session_id now_str now_iso rest;
      Ret (TextualMemoryItem.mk id (content entry) metadata :: items)
  end.

Definition default_info : PyDict :=
  {[ "user_id" := PStr EmptyString; "session_id" := PStr EmptyString ]}.

(** What follows the search in [retrieve_from_internet]. *)
Definition after_search (parsed_goal : option ParsedGoal) (info : PyDict)
    (search_results : PyVal) : WebProg (list TextualMemoryItem.t) :=
  if negb (py_truthy search_results) then Ret []
  else
    match entries_of parsed_goal search_results with
    | Err e => Raise e
    | Ok entries =>
        let all_texts := map content entries in
        all_embeddings ← embed all_texts;
        now1 ← datetime_now;
        let now_str := strftime_ymd now1 in
        now2 ← datetime_now;
        let now_iso := isoformat now2 in
        let user_id := dict_get_default info "user_id" (PStr EmptyString) in
        let session_id := dict_get_default info "session_id" (PStr EmptyString) in
        items_of user_id session_id now_str now_iso (zip entries all_embeddings)
    end.

Definition retrieve_from_internet (self : t) (query : string) (top_k : Z)
    (parsed_goal : option ParsedGoal) (info : option PyDict) (mode : string)
  : WebProg (list TextualMemoryItem.t) :=
  let info :=
    match info with
    | Some d => if dict_truthy d then d else default_info
    | None => default_info
    end in
  search_results ← SearxngSearchAPI.search (searxng_api self) query (Some top_k);
  after_search parsed_goal info search_results.

End WithStr.
End SearxngSearchRetriever.

(** ** [class BaseGraphDB]: the methods that are not abstract *)

Module BaseGraphDB.

(** [**kwargs] *)
Definition search_by_fulltext (query_words : list string) (top_k : Z) (kwargs : PyDict)
  : Result (list PyDict) := Ok [].

Definition search_by_keywords_like (query_word : string) (kwargs : PyDict)
  : Result (list PyDict) := Ok [].

Definition search_by_keywords_tfidf (query_words : list string) (kwargs : PyDict)
  : Result (list PyDict) := Ok [].

(** A concrete backend, as far as these three methods go: the
    overriding definitions it brings, if any. *)
Record Subclass : Type := {
  override_search_by_fulltext :
    option (list string -> Z -> PyDict -> Result (list PyDict));
  override_search_by_keywords_like :
    option (string -> PyDict -> Result (list PyDict));
  override_search_by_keywords_tfidf :
    option (list string -> PyDict -> Result (list PyDict))
}.

(** Attribute lookup on an instance of the subclass: the subclass's
    own definition, else the base class's. *)
Definition resolve_search_by_fulltext (c : Subclass) :=
  default search_by_fulltext (override_search_by_fulltext c).
Definition resolve_search_by_keywords_like (c : Subclass) :=
  default search_by_keywords_like (override_search_by_keywords_like c).
Definition resolve_search_by_keywords_tfidf (c : Subclass) :=
  default search_by_keywords_tfidf (override_search_by_keywords_tfidf c).

End BaseGraphDB.

(** ** Sample data *)

Module Sample.

Definition cfg : QdrantMultiCollectionConfig :=
  {| collection_name := ["explicit_preference"; "implicit_preference"];
     vector_dimension := 4;
     distance_metric := "cosine";
     host := Some "localhost";
     port := Some 6333;
     path := None;
     url := None;
     api_key := None |}.

(** The router [__init__] builds from [cfg] on the reference backend. *)
Definition router : QdrantMultiCollectionVecDB.t :=
  QdrantMultiCollectionVecDB.mk cfg [("explicit_preference", 0%nat); ("implicit_preference", 1%nat)].

Definition item (id : string) (payload : option PyDict) : VecDBItem.t :=
  VecDBItem.mk id None payload None.

Definition tea : VecDBItem.t :=
  item "00000000-0000-0000-0000-000000000001"
       (Some {[ "user_id" := PStr "u1"; "memory" := PStr "likes tea" ]}).
Definition jazz : VecDBItem.t :=
  item "00000000-0000-0000-0000-000000000002"
       (Some {[ "user_id" := PStr "u2"; "preference" := PStr "likes jazz" ]}).
Definition bare : VecDBItem.t :=
  item "00000000-0000-0000-0000-000000000003" None.

(** A world in which the first collection holds three records. *)
Definition world : RefBackend.World :=
  RefBackend.mk [[tea; jazz; bare]; []] [].



Definition or_filter : PyDict :=
  {[ "or" := PList [PDict {[ "user_id" := PStr "u1" ]}; PDict {[ "user_id" := PStr "u2" ]}] ]}.

(** [str()] on the values the samples interpolate: strings, [None],
    booleans and integers. *)
Definition str_of (v : PyVal) : string :=
  match v with
  | PStr s => s
  | PNone => "None"
  | PBool true => "True"
  | PBool false => "False"
  | PInt z => PyStr.of_int z
  | _ => EmptyString
  end.

Definition retriever : SearxngSearchRetriever.t :=
  SearxngSearchRetriever.__init__ "http://searxng:8080/" 20.

Definition hit (title content url : string) : PyDict :=
  {[ "title" := PStr title; "content" := PStr content; "url" := PStr url ]}.

Definition hits : list PyDict :=
  [hit "Tea" "About tea" "http://t.example"; hit "Jazz" "About jazz" "http://j.example"].

Definition body : PyVal := PDict {[ "results" := PList (map PDict hits) ]}.

Definition now : DateTime :=
  {| strftime_ymd := "2025-01-02"; isoformat := "2025-01-02T03:04:05.000006" |}.

(** A handler with canned answers: the body above, one vector per
    text, a fixed clock and a counter for the identifiers. *)
Definition web : Handler WebReply nat :=
  fun ev n =>
    match ev return Result (WebReply ev) * nat with
    | ev_http_get _ _ _ => (Ok (JsonBody body), n)
    | ev_log_error _ => (Ok (), n)
    | ev_embed texts => (Ok (map (fun _ => [1%float; 0%float]) texts), n)
    | ev_now => (Ok now, n)
    | ev_uuid4 => (Ok ("id-" +:+ PyStr.of_int (Z.of_nat n)), S n)
    end.

End Sample.

(** ** Further readings of the router *)

(** The names of a configuration in the order of their first appearance:
    what the keys of a dictionary filled by successive assignments are. *)
Definition add_name (acc : list string) (name : string) : list string :=
  if bool_decide (name ∈ acc) then acc else (acc ++ [name])%list.

Definition distinct_names (names : list string) : list string :=
  foldl add_name [] names.

(** [isinstance(item, MilvusVecDBItem)] *)
Definition is_milvus (item : AnyItem) : bool :=
  match item with
  | ItemMilvus _ => true
  | _ => false
  end.

(** The payload an item carries, if it is an item object. *)
Definition item_payload (item : AnyItem) : option PyDict :=
  match item with
  | ItemVec i => VecDBItem.payload i
  | ItemMilvus m => MilvusVecDBItem.payload m
  | ItemDict _ => None
  end.

(** What one pass of the loop of [__init__] sends out. *)
Definition init_events (cfg : QdrantMultiCollectionConfig) (name : string)
  : list RouterEvent :=
  [ev_new (QdrantMultiCollectionVecDB.single_cfg cfg name);
   ev_log_info ("[QdrantMulti] Initialized collection '" +:+ name +:+ "'")].


(** ** More sample data *)

Module Sample2.

(** A configuration that names one collection twice. *)
Definition dup_cfg : QdrantMultiCollectionConfig :=
  {| collection_name := ["explicit_preference"; "implicit_preference"; "explicit_preference"];
     vector_dimension := 4;
     distance_metric := "cosine";
     host := None;
     port := None;
     path := Some "/tmp/qdrant";
     url := None;
     api_key := None |}.

Definition dup_router : QdrantMultiCollectionVecDB.t :=
  QdrantMultiCollectionVecDB.mk dup_cfg
    [("explicit_preference", 2%nat); ("implicit_preference", 1%nat)].

(** A canonical item whose own [memory] is empty while its payload holds
    an older memory text. *)
Definition stale : MilvusVecDBItem.t :=
  MilvusVecDBItem.mk "00000000-0000-0000-0000-000000000009" None
    (Some {[ "memory" := PStr "old text"; "user_id" := PStr "u1" ]}) None
    (PStr EmptyString) PNone.

Definition and_with_sibling : PyDict :=
  {[ "and" := PList [PDict {[ "kind" := PStr "a" ]}]; "user_id" := PStr "u1" ]}.

End Sample2.

(** ** Further readings of the retriever *)

Definition is_now (o : Obs WebReply) : bool :=
  match obs_event o with
  | ev_now => true
  | _ => false
  end.

Definition is_uuid4 (o : Obs WebReply) : bool :=
  match obs_event o with
  | ev_uuid4 => true
  | _ => false
  end.

(** The request [SearxngSearchAPI.search] sends. *)
Definition search_request (api : SearxngSearchAPI.t) (query : string) : WebEvent :=
  ev_http_get (SearxngSearchAPI.base_url api +:+ "/search")
    [("q", query); ("format", "json"); ("categories", "general")] 10.

(** [info or {"user_id": "", "session_id": ""}], as
    [retrieve_from_internet] reads it. *)
Definition effective_info (info : option PyDict) : PyDict :=
  match info with
  | Some d => if dict_truthy d then d else SearxngSearchRetriever.default_info
  | None => SearxngSearchRetriever.default_info
  end.

(** ** Code with exception handlers

    [try] / [except] / [finally] and [with] need the exception of a call
    as a value, so the methods below are written directly as what a
    program of calls is run to: a function of the handler, the method's
    local variables and the world, giving the calls made with their
    answers, the result, the local variables and the world afterwards. *)

Section Exec.
Context {E : Type} {Reply : E -> Type} {W L : Type}.

Definition Exec (A : Type) : Type :=
  Handler Reply W -> L -> W -> list (Obs Reply) * Result A * L * W.

Definition x_ret {A} (a : A) : Exec A := fun _ l w => ([], Ok a, l, w).

(** [raise e] *)
Definition x_raise {A} (e : PyExn) : Exec A := fun _ l w => ([], Err e, l, w).

Definition x_bind {A B} (m : Exec A) (f : A -> Exec B) : Exec B :=
  fun hd l w =>
    match m hd l w with
    | (tr, Ok a, l1, w1) =>
        let '(tr2, r, l2, w2) := f a hd l1 w1 in ((tr ++ tr2)%list, r, l2, w2)
    | (tr, Err e, l1, w1) => (tr, Err e, l1, w1)
    end.

(** One external call. *)
Definition x_call (ev : E) : Exec (Reply ev) :=
  fun hd l w => let '(r, w1) := hd ev w in ([obs ev r], r, l, w1).

(** Reading and assigning the local variables. *)
Definition x_get : Exec L := fun _ l w => ([], Ok l, l, w).
Definition x_put (l : L) : Exec () := fun _ _ w => ([], Ok (), l, w).

(** The outcome of a block as a value: nothing escapes. *)
Definition x_catch {A} (m : Exec A) : Exec (Result A) :=
  fun hd l w => let '(tr, r, l1, w1) := m hd l w in (tr, Ok r, l1, w1).
End Exec.

Arguments Exec {E} Reply W L A.

#[export] Instance Exec_ret {E} {Reply : E -> Type} {W L} : MRet (Exec Reply W L) :=
  fun _ a => x_ret a.
#[export] Instance Exec_bind {E} {Reply : E -> Type} {W L} : MBind (Exec Reply W L) :=
  fun _ _ f m => x_bind m f.

Section ExecStatements.
Context {E : Type} {Reply : E -> Type} {W L : Type}.

(** [try: body  except Exception as e: handler(e)] *)
Definition x_try {A} (body : Exec Reply W L A) (handler : PyExn -> Exec Reply W L A)
  : Exec Reply W L A :=
  x_bind (x_catch body) (fun r =>
    match r with
    | Ok a => x_ret a
    | Err e => handler e
    end).

(** [try: body  finally: fin] *)
Definition x_finally {A} (body : Exec Reply W L A) (fin : Exec Reply W L ())
  : Exec Reply W L A :=
  x_bind (x_catch body) (fun r =>
  x_bind fin (fun _ =>
    match r with
    | Ok a => x_ret a
    | Err e => x_raise e
    end)).

(** [with open() as c: body(c)], by the context-manager protocol: the
    manager is made and entered, the body runs, and the manager's exit is
    told of the body's exception, if any, which it swallows by answering
    a truthy value. *)
Definition x_with {M C} (open : Exec Reply W L M) (enter : M -> Exec Reply W L C)
    (exit : M -> option PyExn -> Exec Reply W L bool) (body : C -> Exec Reply W L ())
  : Exec Reply W L () :=
  x_bind open (fun mgr =>
  x_bind (enter mgr) (fun c =>
  x_bind (x_catch (body c)) (fun r =>
    match r with
    | Ok _ => x_bind (exit mgr None) (fun _ => x_ret ())
    | Err e =>
        x_bind (exit mgr (Some e)) (fun swallowed =>
          if swallowed : bool then x_ret () else x_raise e)
    end))).
End ExecStatements.

(** ** [class SchemaMixin] ([memos/graph_dbs/polardb/schema.py]) *)

Definition nl : string := String (ascii_of_N 10) EmptyString.
Definition dq : string := String PyStr.quote2 EmptyString.

(** [needle in hay] for two [str]. *)
Fixpoint starts_with (needle hay : string) : bool :=
  match needle, hay with
  | EmptyString, _ => true
  | String a needle', String b hay' => Ascii.eqb a b && starts_with needle' hay'
  | String _ _, EmptyString => false
  end.

Fixpoint str_contains (needle hay : string) : bool :=
  starts_with needle hay ||
  match hay with
  | EmptyString => false
  | String _ hay' => str_contains needle hay'
  end.

Inductive LogLevel : Type := LDebug | LInfo | LWarning | LError.

(** What the methods call: the connection pool of the class they are
    mixed into ([_get_connection], [_return_connection]), the connection
    and its cursor, and the module's logger. [db_fetchone_0] is
    [cursor.fetchone()[0]], the first column of the row fetched; a
    missing row is the handler's exception. *)
Inductive DbEvent : Type :=
| db_get_connection
| db_return_connection (conn : option nat)
| db_cursor (conn : nat)
| db_enter (mgr : nat)
| db_exit (mgr : nat) (exc : option PyExn)
| db_execute (cursor : nat) (sql : string)
| db_fetchone_0 (cursor : nat)
| db_log (level : LogLevel) (msg : string) (exc_info : bool).

Definition DbReply (ev : DbEvent) : Type :=
  match ev with
  | db_get_connection | db_cursor _ | db_enter _ => nat
  | db_exit _ _ => bool
  | db_fetchone_0 _ => PyVal
  | _ => ()
  end.

(** The SQL texts, as the f-strings of the source spell them. *)

(** [_create_graph]: the schema. *)
Definition sql_create_schema (db : string) : string :=
  "CREATE SCHEMA IF NOT EXISTS " +:+ dq +:+ db +:+ "_graph" +:+ dq +:+ ";".

(** [_create_graph]: the [Memory] table. *)
Definition sql_create_memory_table (db : string) : string :=
  nl +:+
  "                    CREATE TABLE IF NOT EXISTS " +:+ dq +:+ db +:+ "_graph" +:+ dq +:+ "." +:+ dq +:+ "Memory" +:+ dq +:+ " (" +:+ nl +:+
  "                        id TEXT PRIMARY KEY," +:+ nl +:+
  "                        properties JSONB NOT NULL," +:+ nl +:+
  "                        created_at TIMESTAMP DEFAULT CURRENT_TIMESTAMP," +:+ nl +:+
  "                        updated_at TIMESTAMP DEFAULT CURRENT_TIMESTAMP" +:+ nl +:+
  "                    );" +:+ nl +:+
  "                ".

(** [_create_graph]: the [embedding] column. *)
Definition sql_add_embedding_column (db : string) : string :=
  nl +:+
  "                        ALTER TABLE " +:+ dq +:+ db +:+ "_graph" +:+ dq +:+ "." +:+ dq +:+ "Memory" +:+ dq +:+ nl +:+
  "                        ADD COLUMN IF NOT EXISTS embedding JSONB;" +:+ nl +:+
  "                    ".

(** [_create_graph] and [create_index]: the GIN index on [properties] (the two methods send the same text). *)
Definition sql_properties_index (db : string) : string :=
  nl +:+
  "                    CREATE INDEX IF NOT EXISTS idx_memory_properties" +:+ nl +:+
  "                    ON " +:+ dq +:+ db +:+ "_graph" +:+ dq +:+ "." +:+ dq +:+ "Memory" +:+ dq +:+ " USING GIN (properties);" +:+ nl +:+
  "                ".

(** [_create_graph]: the vector index, with its list count. *)
Definition sql_embedding_index_lists (db : string) : string :=
  nl +:+
  "                        CREATE INDEX IF NOT EXISTS idx_memory_embedding" +:+ nl +:+
  "                        ON " +:+ dq +:+ db +:+ "_graph" +:+ dq +:+ "." +:+ dq +:+ "Memory" +:+ dq +:+ " USING ivfflat (embedding vector_cosine_ops)" +:+ nl +:+
  "                        WITH (lists = 100);" +:+ nl +:+
  "                    ".

(** [_create_graph]: the [tsvector] column. *)
Definition sql_add_tsvector_column (db : string) : string :=
  nl +:+
  "                        ALTER TABLE " +:+ dq +:+ db +:+ "_graph" +:+ dq +:+ "." +:+ dq +:+ "Memory" +:+ dq +:+ nl +:+
  "                        ADD COLUMN IF NOT EXISTS properties_tsvector_zh tsvector;" +:+ nl +:+
  "                    ".

(** [_create_graph]: the trigger function. *)
Definition sql_tsvector_function (db : string) : string :=
  nl +:+
  "                        CREATE OR REPLACE FUNCTION " +:+ dq +:+ db +:+ "_graph" +:+ dq +:+ ".update_tsvector_zh()" +:+ nl +:+
  "                        RETURNS trigger AS $$" +:+ nl +:+
  "                        BEGIN" +:+ nl +:+
  "                            NEW.properties_tsvector_zh :=" +:+ nl +:+
  "                                to_tsvector('simple', COALESCE(NEW.properties->>'memory', ''));" +:+ nl +:+
  "                            RETURN NEW;" +:+ nl +:+
  "                        END;" +:+ nl +:+
  "                        $$ LANGUAGE plpgsql;" +:+ nl +:+
  "                    ".

(** [_create_graph]: the old trigger, dropped. *)
Definition sql_drop_tsvector_trigger (db : string) : string :=
  nl +:+
  "                        DROP TRIGGER IF EXISTS trg_update_tsvector_zh" +:+ nl +:+
  "                        ON " +:+ dq +:+ db +:+ "_graph" +:+ dq +:+ "." +:+ dq +:+ "Memory" +:+ dq +:+ ";" +:+ nl +:+
  "                    ".

(** [_create_graph]: the trigger. *)
Definition sql_create_tsvector_trigger (db : string) : string :=
  nl +:+
  "                        CREATE TRIGGER trg_update_tsvector_zh" +:+ nl +:+
  "                        BEFORE INSERT OR UPDATE ON " +:+ dq +:+ db +:+ "_graph" +:+ dq +:+ "." +:+ dq +:+ "Memory" +:+ dq +:+ nl +:+
  "                        FOR EACH ROW" +:+ nl +:+
  "                        EXECUTE FUNCTION " +:+ dq +:+ db +:+ "_graph" +:+ dq +:+ ".update_tsvector_zh();" +:+ nl +:+
  "                    ".

(** [_create_graph]: the GIN index on the [tsvector] column. *)
Definition sql_tsvector_index (db : string) : string :=
  nl +:+
  "                        CREATE INDEX IF NOT EXISTS idx_memory_tsvector_zh" +:+ nl +:+
  "                        ON " +:+ dq +:+ db +:+ "_graph" +:+ dq +:+ "." +:+ dq +:+ "Memory" +:+ dq +:+ nl +:+
  "                        USING GIN (properties_tsvector_zh);" +:+ nl +:+
  "                    ".

(** [_create_graph]: the backfill of rows without a [tsvector]. *)
Definition sql_backfill_tsvector (db : string) : string :=
  nl +:+
  "                        UPDATE " +:+ dq +:+ db +:+ "_graph" +:+ dq +:+ "." +:+ dq +:+ "Memory" +:+ dq +:+ nl +:+
  "                        SET properties_tsvector_zh =" +:+ nl +:+
  "                            to_tsvector('simple', COALESCE(properties->>'memory', ''))" +:+ nl +:+
  "                        WHERE properties_tsvector_zh IS NULL;" +:+ nl +:+
  "                    ".

(** [create_index]: the vector index. *)
Definition sql_embedding_index (db : string) : string :=
  nl +:+
  "                        CREATE INDEX IF NOT EXISTS idx_memory_embedding" +:+ nl +:+
  "                        ON " +:+ dq +:+ db +:+ "_graph" +:+ dq +:+ "." +:+ dq +:+ "Memory" +:+ dq +:+ " USING ivfflat (embedding vector_cosine_ops);" +:+ nl +:+
  "                    ".

(** [create_extension]: the database in use. *)
Definition sql_current_database : string :=
  "SELECT current_database();".

(** [create_extension]: one extension. *)
Definition sql_create_extension (ext_name : string) : string :=
  "create extension if not exists " +:+ ext_name +:+ ";".

(** [create_graph]: how many graphs bear the name. *)
Definition sql_count_graph (db : string) : string :=
  nl +:+
  "                    SELECT COUNT(" +:+ "*" +:+ ") FROM ag_catalog.ag_graph" +:+ nl +:+
  "                    WHERE name = '" +:+ db +:+ "_graph';" +:+ nl +:+
  "                ".

(** [create_graph]: the graph. *)
Definition sql_select_create_graph (db : string) : string :=
  "select create_graph('" +:+ db +:+ "_graph');".

Module SchemaMixin.

Record t : Type := {
  db_name : string
}.

Section Methods.
Context {W : Type}.
(** Python's built-in [str()], on an exception and on a value. *)
Variable exn_str : PyExn -> string.
Variable py_str : PyVal -> string.

(** A method body: its one local variable that outlives a [try] block is
    [conn]. *)
Abbreviation DbProg := (Exec DbReply W (option nat)).

Definition call (ev : DbEvent) : DbProg (DbReply ev) := x_call ev.
Definition info (msg : string) : DbProg () := x_call (db_log LInfo msg false).
Definition debug (msg : string) : DbProg () := x_call (db_log LDebug msg false).
Definition warning (msg : string) : DbProg () := x_call (db_log LWarning msg false).
Definition error (msg : string) (exc_info : bool) : DbProg () :=
  x_call (db_log LError msg exc_info).
Definition execute (cursor : nat) (sql : string) : DbProg () :=
  x_call (db_execute cursor sql).

(** [with conn.cursor() as cursor: body] *)
Definition with_cursor (conn : nat) (body : nat -> DbProg ()) : DbProg () :=
  x_with (call (db_cursor conn)) (fun mgr => call (db_enter mgr))
         (fun mgr exc => call (db_exit mgr exc)) body.

(** [finally: self._return_connection(conn)] *)
Definition return_conn : DbProg () :=
  conn ← x_get; call (db_return_connection conn).

(** [conn = self._get_connection()] *)
Definition get_conn : DbProg nat :=
  conn ← call db_get_connection; _ ← x_put (Some conn); mret conn.

Definition _ensure_database_exists (self : t) : DbProg () :=
  x_try (info ("Using database '" +:+ db_name self +:+ "'"))
        (fun e =>
           _ ← error ("Failed to access database '" +:+ db_name self +:+ "': " +:+ exn_str e)
                     false;
           x_raise e).

(** The body of [_create_graph]. The decorator [timed] ([memos.utils],
    outside the modelled files) wraps it; what the decorator does around
    the call is not part of the model. *)
Definition _create_graph (self : t) : DbProg () :=
  let db := db_name self in
  _ ← x_put None;
  x_finally
    (x_try
       (conn ← get_conn;
        with_cursor conn (fun cursor =>
          _ ← execute cursor (sql_create_schema db);
          _ ← info ("Schema '" +:+ db +:+ "_graph' ensured.");
          _ ← execute cursor (sql_create_memory_table db);
          _ ← info ("Memory table created in schema '" +:+ db +:+ "_graph'.");
          _ ← x_try
                (_ ← execute cursor (sql_add_embedding_column db);
                 info "Embedding column added to Memory table.")
                (fun e => warning ("Failed to add embedding column: " +:+ exn_str e));
          _ ← execute cursor (sql_properties_index db);
          _ ← x_try
                (_ ← execute cursor (sql_embedding_index_lists db);
                 info "Vector index created for Memory table.")
                (fun e =>
                   warning ("Vector index creation failed (might not be supported): "
                            +:+ exn_str e));
          _ ← x_try
                (_ ← execute cursor (sql_add_tsvector_column db);
                 _ ← execute cursor (sql_tsvector_function db);
                 _ ← execute cursor (sql_drop_tsvector_trigger db);
                 _ ← execute cursor (sql_create_tsvector_trigger db);
                 _ ← execute cursor (sql_tsvector_index db);
                 _ ← execute cursor (sql_backfill_tsvector db);
                 info "Fulltext search (tsvector + GIN index) created for Memory table.")
                (fun e =>
                   warning ("Fulltext search setup failed (non-fatal): " +:+ exn_str e));
          info "Indexes created for Memory table."))
       (fun e =>
          _ ← error ("Failed to create graph schema: " +:+ exn_str e) false;
          x_raise e))
    return_conn.

(** [create_index]; its four parameters are not used by its body. *)
Definition create_index (self : t) (label vector_property : string) (dimensions : Z)
    (index_name : string) : DbProg () :=
  let db := db_name self in
  _ ← x_put None;
  x_finally
    (x_try
       (conn ← get_conn;
        with_cursor conn (fun cursor =>
          _ ← execute cursor (sql_properties_index db);
          _ ← x_try
                (execute cursor (sql_embedding_index db))
                (fun ve =>
                   warning ("Vector index creation failed (might not be supported): "
                            +:+ exn_str ve));
          debug "Indexes created successfully."))
       (fun e => warning ("Failed to create indexes: " +:+ exn_str e)))
    return_conn.

Definition extensions : list (string * string) :=
  [("polar_age", "Graph engine"); ("vector", "Vector engine")].

(** The body of the loop of [create_extension]. *)
Definition ensure_extension (cursor : nat) (ext : string * string) : DbProg () :=
  let '(ext_name, ext_desc) := ext in
  x_try
    (_ ← execute cursor (sql_create_extension ext_name);
     info ("Extension '" +:+ ext_name +:+ "' (" +:+ ext_desc +:+ ") ensured."))
    (fun e =>
       if str_contains "already exists" (exn_str e)
       then info ("Extension '" +:+ ext_name +:+ "' (" +:+ ext_desc +:+ ") already exists.")
       else
         _ ← warning ("Failed to create extension '" +:+ ext_name +:+ "' (" +:+ ext_desc
                      +:+ "): " +:+ exn_str e);
         error ("Failed to create extension '" +:+ ext_name +:+ "': " +:+ exn_str e) true).

Fixpoint x_for_each {A} (body : A -> DbProg ()) (xs : list A) : DbProg () :=
  match xs with
  | [] => x_ret ()
  | x :: rest => _ ← body x; x_for_each body rest
  end.

(** The body of [create_extension], under [timed] like [_create_graph]. *)
Definition create_extension (self : t) : DbProg () :=
  _ ← x_put None;
  x_finally
    (x_try
       (conn ← get_conn;
        with_cursor conn (fun cursor =>
          _ ← execute cursor sql_current_database;
          current_db ← call (db_fetchone_0 cursor);
          _ ← info ("Current database context: " +:+ py_str current_db);
          x_for_each (ensure_extension cursor) extensions))
       (fun e =>
          _ ← warning ("Failed to access database context: " +:+ exn_str e);
          error ("Failed to access database context: " +:+ exn_str e) true))
    return_conn.

(** [v > 0] *)
Definition greater_than_zero (v : PyVal) : Result bool :=
  match v with
  | PInt z => Ok (Z.ltb 0 z)
  | PBool b => Ok b
  | PFloat f => Ok (PrimFloat.ltb 0%float f)
  | _ => Err TypeError
  end.

(** The body of [create_graph], under [timed] like [_create_graph]. *)
Definition create_graph (self : t) : DbProg () :=
  let db := db_name self in
  _ ← x_put None;
  x_finally
    (x_try
       (conn ← get_conn;
        with_cursor conn (fun cursor =>
          _ ← execute cursor (sql_count_graph db);
          count ← call (db_fetchone_0 cursor);
          match greater_than_zero count with
          | Err e => x_raise e
          | Ok graph_exists =>
              if graph_exists : bool
              then info ("Graph '" +:+ db +:+ "_graph' already exists.")
              else
                _ ← execute cursor (sql_select_create_graph db);
                info ("Graph database '" +:+ db +:+ "_graph' created.")
          end))
       (fun e =>
          _ ← warning ("Failed to create graph '" +:+ db +:+ "_graph': " +:+ exn_str e);
          error ("Failed to create graph '" +:+ db +:+ "_graph': " +:+ exn_str e) true))
    return_conn.

End Methods.
End SchemaMixin.

(** ** What a run of a method shows *)

Section Outcome.
Context {E : Type} {Reply : E -> Type} {W L A : Type}.

Definition x_trace (out : list (Obs Reply) * Result A * L * W) : list (Obs Reply) :=
  out.1.1.1.
Definition x_result (out : list (Obs Reply) * Result A * L * W) : Result A :=
  out.1.1.2.
Definition x_local (out : list (Obs Reply) * Result A * L * W) : L :=
  out.1.2.
End Outcome.

(** A block that raises nothing under the handler [hd], wherever it is
    started. *)
Definition succeeds {E : Type} {Reply : E -> Type} {W L A : Type}
    (hd : Handler Reply W) (m : Exec Reply W L A) : Prop :=
  forall (l : L) (w : W), exists a : A, x_result (m hd l w) = Ok a.

(** A call of the connection pool. *)
Definition is_pool_call (o : Obs DbReply) : bool :=
  match obs_event o with
  | db_get_connection | db_return_connection _ => true
  | _ => false
  end.

(** The value of [conn] after [conn = self._get_connection()] was tried. *)
Definition conn_of (got : Result nat) : option nat :=
  match got with
  | Ok conn => Some conn
  | Err _ => None
  end.

(** One [_get_connection] first, one [_return_connection] last, with the
    connection obtained ([None] when none was), and no call of the pool
    in between. *)
Definition pool_discipline {W} (m : Exec DbReply W (option nat) ()) : Prop :=
  forall (hd : Handler DbReply W) (l : option nat) (w : W),
    exists (got : Result nat) (inner : list (Obs DbReply)) (back : Result ()),
      x_trace (m hd l w)
        = (obs db_get_connection got :: inner
             ++ [obs (db_return_connection (conn_of got)) back])%list
      /\ Forall (fun o => is_pool_call o = false) inner.

(** A block that calls the pool nowhere and assigns [conn] nowhere. *)
Definition pool_free {W A} (m : Exec DbReply W (option nat) A) : Prop :=
  forall (hd : Handler DbReply W) (l : option nat) (w : W),
    Forall (fun o => is_pool_call o = false) (x_trace (m hd l w))
    /\ x_local (m hd l w) = l.

(** The logger raises nothing. *)
Definition logger_ok {W} (hd : Handler DbReply W) : Prop :=
  forall lvl msg exc_info w, (hd (db_log lvl msg exc_info) w).1 = Ok ().

(** Handing a connection back raises nothing. *)
Definition return_ok {W} (hd : Handler DbReply W) : Prop :=
  forall conn w, (hd (db_return_connection conn) w).1 = Ok ().

(** The cursor's [__exit__] swallows no exception. *)
Definition exit_keeps_exception {W} (hd : Handler DbReply W) : Prop :=
  forall mgr e w, (hd (db_exit mgr (Some e)) w).1 <> Ok true.

(** The statements of [_create_graph] that sit in a [try] of their own. *)
Definition optional_statements (db : string) : list string :=
  [sql_add_embedding_column db; sql_embedding_index_lists db;
   sql_add_tsvector_column db; sql_tsvector_function db;
   sql_drop_tsvector_trigger db; sql_create_tsvector_trigger db;
   sql_tsvector_index db; sql_backfill_tsvector db].

Definition is_optional (db : string) (ev : DbEvent) : bool :=
  match ev with
  | db_execute _ sql => bool_decide (sql ∈ optional_statements db)
  | _ => false
  end.

(** The statements of [_create_graph] outside its inner [try] blocks. *)
Definition required_statements (db : string) : list string :=
  [sql_create_schema db; sql_create_memory_table db; sql_properties_index db].

(** A [create extension] statement. *)
Definition is_create_extension (ev : DbEvent) : bool :=
  match ev with
  | db_execute _ sql =>
      bool_decide (sql ∈ map (fun ext => sql_create_extension ext.1) SchemaMixin.extensions)
  | _ => false
  end.

(** A log line at [warning] or [error]. *)
Definition is_alarm (o : Obs DbReply) : bool :=
  match obs_event o with
  | db_log LWarning _ _ | db_log LError _ _ => true
  | _ => false
  end.

Module Sample3.
Definition self : SchemaMixin.t := {| SchemaMixin.db_name := "memos" |}.

Definition exn_str (e : PyExn) : string :=
  match e with
  | ValueError msg => msg
  | BackendError what => what
  | _ => EmptyString
  end.

(** A database that refuses every statement. *)
Definition refusing : Handler DbReply () := fun ev w =>
  match ev with
  | db_get_connection => (Ok 7%nat, w)
  | db_return_connection _ => (Ok (), w)
  | db_cursor conn => (Ok (S conn), w)
  | db_enter mgr => (Ok mgr, w)
  | db_exit _ _ => (Ok false, w)
  | db_execute _ _ => (Err (BackendError "permission denied"), w)
  | db_fetchone_0 _ => (Ok (PInt 0), w)
  | db_log _ _ _ => (Ok (), w)
  end.

(** A database without vector and full-text support: the optional
    statements of [_create_graph] fail, everything else works. *)
Definition plain : Handler DbReply () := fun ev w =>
  match ev with
  | db_get_connection => (Ok 7%nat, w)
  | db_return_connection _ => (Ok (), w)
  | db_cursor conn => (Ok (S conn), w)
  | db_enter mgr => (Ok mgr, w)
  | db_exit _ _ => (Ok false, w)
  | db_execute _ sql =>
      (if bool_decide (sql ∈ optional_statements "memos")
       then Err (BackendError "type vector does not exist") else Ok (), w)
  | db_fetchone_0 _ => (Ok (PInt 0), w)
  | db_log _ _ _ => (Ok (), w)
  end.

(** A database where both extensions are installed already and the graph
    is there. *)
Definition installed : Handler DbReply () := fun ev w =>
  match ev with
  | db_get_connection => (Ok 7%nat, w)
  | db_return_connection _ => (Ok (), w)
  | db_cursor conn => (Ok (S conn), w)
  | db_enter mgr => (Ok mgr, w)
  | db_exit _ _ => (Ok false, w)
  | db_execute _ sql =>
      (if bool_decide (sql ∈ map (fun ext => sql_create_extension ext.1) SchemaMixin.extensions)
       then Err (BackendError "extension already exists") else Ok (), w)
  | db_fetchone_0 _ => (Ok (PInt 1), w)
  | db_log _ _ _ => (Ok (), w)
  end.
(** A database without the graph engine: [create extension] fails for
    [polar_age], everything else works. *)
Definition no_age : Handler DbReply () := fun ev w =>
  match ev with
  | db_get_connection => (Ok 7%nat, w)
  | db_return_connection _ => (Ok (), w)
  | db_cursor conn => (Ok (S conn), w)
  | db_enter mgr => (Ok mgr, w)
  | db_exit _ _ => (Ok false, w)
  | db_execute _ sql =>
      (if String.eqb sql (sql_create_extension "polar_age")
       then Err (BackendError "extension polar_age is not available") else Ok (), w)
  | db_fetchone_0 _ => (Ok (PStr "memos"), w)
  | db_log _ _ _ => (Ok (), w)
  end.
End Sample3.

(** * Properties *)

(** ** Printing *)

Example repr_plain : PyStr.repr "pref_explicit" = "'pref_explicit'".
Proof. reflexivity. Qed.

Example repr_with_quote :
  PyStr.repr "it's" = String PyStr.quote2 ("it's" +:+ String PyStr.quote2 EmptyString).
Proof. reflexivity. Qed.

Example repr_list_two : PyStr.repr_list ["a"; "b"] = "['a', 'b']".
Proof. reflexivity. Qed.

Example of_int_neg : PyStr.of_int (-12) = "-12".
Proof. reflexivity. Qed.

(** ** Dictionaries *)

Lemma dict_truthy_false (d : PyDict) : dict_truthy d = false ↔ d = ∅.
Proof.
  unfold dict_truthy. rewrite negb_false_iff, bool_decide_eq_true.
  apply map_size_empty_iff.
Qed.

Lemma dict_truthy_true (d : PyDict) : dict_truthy d = true ↔ d ≠ ∅.
Proof.
  rewrite <- dict_truthy_false. destruct (dict_truthy d); split; congruence.
Qed.

Lemma dict_or_empty_default (p : option PyDict) : dict_or_empty p = default ∅ p.
Proof.
  destruct p as [d|]; simpl; [|done].
  destruct (dict_truthy d) eqn:Hd; [done|].
  symmetry. by apply dict_truthy_false.
Qed.

Lemma dict_truthy_insert (d : PyDict) k v : dict_truthy (<[k:=v]> d) = true.
Proof. apply dict_truthy_true, insert_non_empty. Qed.

(** ** Filter flattening *)

Lemma foldl_flatten_step (cs : list PyVal) (acc : PyDict) :
  foldl flatten_step acc cs = merge_clauses cs ∪ acc.
Proof.
  revert acc. induction cs as [|c cs IH]; intros acc; simpl.
  - by rewrite (left_id_L ∅ (∪)).
  - destruct c; simpl; rewrite IH; try done.
    unfold dict_update. by rewrite (assoc_L (∪)).
Qed.

Lemma flatten_and (f : PyDict) (cs : list PyVal) :
  f !! "and" = Some (PList cs) →
  _flatten_milvus_filter (Some f) =
    if dict_truthy (merge_clauses cs) then Some (merge_clauses cs) else None.
Proof.
  intros Hf. unfold _flatten_milvus_filter. rewrite Hf.
  by rewrite foldl_flatten_step, (right_id_L ∅ (∪)).
Qed.

Lemma flatten_not_and (f : PyDict) :
  (∀ cs, f !! "and" ≠ Some (PList cs)) → _flatten_milvus_filter (Some f) = Some f.
Proof.
  intros Hf. unfold _flatten_milvus_filter.
  destruct (f !! "and") as [[]|] eqn:E; try done.
  by destruct (Hf l).
Qed.

Lemma merge_clauses_lookup_None (cs : list PyVal) (k : string) :
  merge_clauses cs !! k = None ↔
  ∀ (j : nat) (d' : PyDict), cs !! j = Some (PDict d') → d' !! k = None.
Proof.
  induction cs as [|c cs IH].
  - simpl. rewrite lookup_empty. split; [|done]. by intros _ j d'.
  - assert (Hskip : merge_clauses cs !! k = None ↔
              ∀ j d', (c :: cs) !! S j = Some (PDict d') → d' !! k = None)
      by (by rewrite IH).
    destruct c as [| | | | |l|d0]; simpl.
    all: try (rewrite Hskip; split;
              [intros H [|j] d' Hj; [done|by apply (H j d')]
              |intros H j d' Hj; by apply (H (S j) d')]).
    rewrite lookup_union_None, Hskip. split.
    + intros [H Hd0] [|j] d' Hj; [|by apply (H j d')].
      simpl in Hj. by injection Hj as <-.
    + intros H. split; [|by apply (H 0%nat d0)].
      intros j d' Hj. by apply (H (S j) d').
Qed.

(** The value a key has in the merge is the one of the last dictionary
    clause that binds the key. *)
Lemma merge_clauses_lookup (cs : list PyVal) (k : string) (v : PyVal) :
  merge_clauses cs !! k = Some v ↔
  ∃ (i : nat) (d : PyDict),
    cs !! i = Some (PDict d) ∧ d !! k = Some v ∧
    ∀ (j : nat) (d' : PyDict), (i < j)%nat → cs !! j = Some (PDict d') → d' !! k = None.
Proof.
  induction cs as [|c cs IH].
  - simpl. rewrite lookup_empty. split; [done|]. by intros (i & d & Hi & _).
  - assert (Hrest : merge_clauses cs !! k = Some v ↔
              ∃ i d, (c :: cs) !! S i = Some (PDict d) ∧ d !! k = Some v ∧
                ∀ j d', (S i < j)%nat → (c :: cs) !! j = Some (PDict d') → d' !! k = None).
    { rewrite IH. split; intros (i & d & Hi & Hd & Hlast); exists i, d; simpl in *;
        (split; [done|split; [done|]]).
      - intros [|j] d' Hlt Hj; [lia|]. apply (Hlast j d'); [lia|done].
      - intros j d' Hlt Hj. apply (Hlast (S j) d'); [lia|done]. }
    pose proof (merge_clauses_lookup_None cs k) as Hnone.
    destruct c as [| | | | |l|d0]; simpl.
    all: try (rewrite Hrest; split;
              [intros (i & d & Hi & Hrem); by exists (S i), d
              |intros ([|i] & d & Hi & Hrem); [done|by exists i, d]]).
    rewrite lookup_union_Some_raw, Hrest, Hnone. split.
    + intros [(i & d & H)|[Hall Hd0]]; [by exists (S i), d|].
      exists 0%nat, d0. split; [done|split; [done|]].
      intros [|j] d' Hlt Hj; [lia|]. by apply (Hall j d').
    + intros ([|i] & d & Hi & Hd & Hlast).
      * right. simpl in Hi. injection Hi as <-. split; [|done].
        intros j d' Hj. apply (Hlast (S j) d'); [lia|done].
      * left. by exists i, d.
Qed.

Lemma merge_clauses_no_dict (cs : list PyVal) :
  Forall (λ c, ∀ d, c ≠ PDict d) cs → merge_clauses cs = ∅.
Proof.
  induction 1 as [|c cs Hc _ IH]; [done|].
  destruct c; simpl; try done. by destruct (Hc d).
Qed.

Example flatten_two_clauses :
  _flatten_milvus_filter
    (Some {[ "and" := PList [PDict {[ "user_id" := PStr "u1"; "kind" := PStr "a" ]};
                             PNone;
                             PDict {[ "kind" := PStr "b" ]}] ]})
  = Some {[ "user_id" := PStr "u1"; "kind" := PStr "b" ]}.
Proof. vm_compute. reflexivity. Qed.

Example flatten_only_none :
  _flatten_milvus_filter (Some {[ "and" := PList [PNone; PNone] ]}) = None.
Proof. vm_compute. reflexivity. Qed.

Example flatten_or_clause :
  _flatten_milvus_filter (Some {[ "or" := PList [PDict {[ "a" := PInt 1 ]}] ]})
  = Some {[ "or" := PList [PDict {[ "a" := PInt 1 ]}] ]}.
Proof. vm_compute. reflexivity. Qed.

(** C3. For a filter whose ["and"] entry is the list [cs], the flattening
    returns the merge of the dictionary clauses of [cs] (a key takes the
    value of the last dictionary clause that binds it, every other clause
    is dropped), or [None] when the merge is empty, as it is for the
    empty list and for a list with no dictionary clause; [None] maps to
    [None]; a filter without an ["and"] list comes back unchanged. *)
Theorem flatten_milvus_filter_merges :
  _flatten_milvus_filter None = None
  ∧ (∀ (f : PyDict) (cs : list PyVal), f !! "and" = Some (PList cs) →
       (merge_clauses cs ≠ ∅ → _flatten_milvus_filter (Some f) = Some (merge_clauses cs))
       ∧ (merge_clauses cs = ∅ → _flatten_milvus_filter (Some f) = None))
  ∧ (∀ (cs : list PyVal) (k : string) (v : PyVal),
       merge_clauses cs !! k = Some v ↔
       ∃ (i : nat) (d : PyDict),
         cs !! i = Some (PDict d) ∧ d !! k = Some v ∧
         ∀ (j : nat) (d' : PyDict), (i < j)%nat → cs !! j = Some (PDict d') → d' !! k = None)
  ∧ merge_clauses [] = ∅
  ∧ (∀ cs : list PyVal, Forall (λ c, ∀ d, c ≠ PDict d) cs → merge_clauses cs = ∅)
  ∧ (∀ f : PyDict, (∀ cs, f !! "and" ≠ Some (PList cs)) →
       _flatten_milvus_filter (Some f) = Some f).
Proof.
  split; [done|]. split; [|split; [|split; [done|split]]].
  - intros f cs Hf. rewrite (flatten_and f cs Hf). split; intros Hm.
    + apply dict_truthy_true in Hm. by rewrite Hm.
    + apply dict_truthy_false in Hm. by rewrite Hm.
  - apply merge_clauses_lookup.
  - apply merge_clauses_no_dict.
  - apply flatten_not_and.
Qed.

(** ** Item shapes *)

Lemma to_milvus_item_canonical (r : VecDBItem.t) : canonical_of r (_to_milvus_item r).
Proof.
  unfold canonical_of, _to_milvus_item, dict_get_default; simpl.
  rewrite dict_or_empty_default. done.
Qed.

Lemma map_to_milvus_item_canonical (rs : list VecDBItem.t) :
  Forall2 canonical_of rs (map _to_milvus_item rs).
Proof.
  induction rs as [|r rs IH]; simpl; constructor; [apply to_milvus_item_canonical|done].
Qed.

(** C8. A Milvus-shaped item whose [memory] and [original_text] are
    non-empty strings goes through [_prepare_for_qdrant] to a [VecDBItem]
    that [_to_milvus_item] takes back to an item with the same [id],
    [vector], [score], [memory] and [original_text]. *)
Theorem prepare_then_to_milvus_roundtrip (m : MilvusVecDBItem.t) (mem txt : string) :
  MilvusVecDBItem.memory m = PStr mem → mem ≠ EmptyString →
  MilvusVecDBItem.original_text m = PStr txt → txt ≠ EmptyString →
  ∃ v : VecDBItem.t,
    _prepare_for_qdrant (ItemMilvus m) = ItemVec v
    ∧ MilvusVecDBItem.id (_to_milvus_item v) = MilvusVecDBItem.id m
    ∧ MilvusVecDBItem.vector (_to_milvus_item v) = MilvusVecDBItem.vector m
    ∧ MilvusVecDBItem.score (_to_milvus_item v) = MilvusVecDBItem.score m
    ∧ MilvusVecDBItem.memory (_to_milvus_item v) = MilvusVecDBItem.memory m
    ∧ MilvusVecDBItem.original_text (_to_milvus_item v) = MilvusVecDBItem.original_text m.
Proof.
  intros Hmem Hne Htxt Hne'.
  assert (Ht1 : py_truthy (MilvusVecDBItem.memory m) = true).
  { rewrite Hmem. simpl. apply negb_true_iff, String.eqb_neq. done. }
  assert (Ht2 : py_truthy (MilvusVecDBItem.original_text m) = true).
  { rewrite Htxt. simpl. apply negb_true_iff, String.eqb_neq. done. }
  eexists. split.
  { unfold _prepare_for_qdrant. rewrite Ht1, Ht2. reflexivity. }
  unfold _to_milvus_item, dict_get_default; cbn [VecDBItem.id VecDBItem.vector
    VecDBItem.score VecDBItem.payload MilvusVecDBItem.id MilvusVecDBItem.vector
    MilvusVecDBItem.score MilvusVecDBItem.memory MilvusVecDBItem.original_text].
  rewrite dict_or_empty_default; simpl.
  repeat split.
  - rewrite lookup_insert_ne by done. by rewrite lookup_insert_eq.
  - by rewrite lookup_insert_eq.
Qed.

Lemma prepare_then_to_milvus_roundtrip_witness :
  ∃ v : VecDBItem.t,
    _prepare_for_qdrant
      (ItemMilvus (MilvusVecDBItem.mk "id-1" None (Some {[ "user_id" := PStr "u1" ]}) None
                     (PStr "likes tea") (PStr "I like tea"))) = ItemVec v
    ∧ MilvusVecDBItem.id (_to_milvus_item v) = "id-1"
    ∧ MilvusVecDBItem.vector (_to_milvus_item v) = None
    ∧ MilvusVecDBItem.score (_to_milvus_item v) = None
    ∧ MilvusVecDBItem.memory (_to_milvus_item v) = PStr "likes tea"
    ∧ MilvusVecDBItem.original_text (_to_milvus_item v) = PStr "I like tea".
Proof.
  apply (prepare_then_to_milvus_roundtrip
           (MilvusVecDBItem.mk "id-1" None (Some {[ "user_id" := PStr "u1" ]}) None
              (PStr "likes tea") (PStr "I like tea")) "likes tea" "I like tea");
    [reflexivity | discriminate | reflexivity | discriminate].
Defined.

(** ** The ordered dictionary *)

Lemma OrdDict_get_set {V} (k n : string) (v : V) (d : list (string * V)) :
  OrdDict.get n (OrdDict.set k v d) = if String.eqb n k then Some v else OrdDict.get n d.
Proof.
  induction d as [|[k' v'] d IH]; simpl.
  - done.
  - destruct (String.eqb k k') eqn:Hk; simpl.
    + apply String.eqb_eq in Hk as ->. by destruct (String.eqb n k').
    + destruct (String.eqb n k') eqn:Hn; [|done].
      apply String.eqb_eq in Hn as ->.
      rewrite String.eqb_sym in Hk. by rewrite Hk.
Qed.

Lemma OrdDict_get_None {V} (n : string) (d : list (string * V)) :
  OrdDict.get n d = None ↔ n ∉ OrdDict.keys d.
Proof.
  induction d as [|[k v] d IH]; simpl.
  - split; [intros _; apply not_elem_of_nil|done].
  - rewrite not_elem_of_cons. destruct (String.eqb n k) eqn:Hn.
    + apply String.eqb_eq in Hn. split; [done|]. by intros [? _].
    + apply String.eqb_neq in Hn. rewrite IH. split; [by intros ?|by intros [_ ?]].
Qed.

(** ** Running programs *)

Lemma run_bind {E} {Reply : E → Type} {W A B} (hd : Handler Reply W)
    (m : Prog Reply A) (f : A → Prog Reply B) (w : W) :
  run hd (m ≫= f) w =
    match run hd m w with
    | (tr, Ok a, w1) => let '(tr2, r, w2) := run hd (f a) w1 in ((tr ++ tr2)%list, r, w2)
    | (tr, Err e, w1) => (tr, Err e, w1)
    end.
Proof.
  unfold mbind, Prog_bind.
  revert w. induction m as [a|e|ev k IH]; intros w; cbn [run prog_bind].
  - by destruct (run hd (f a) w) as [[tr2 r] w2].
  - done.
  - destruct (hd ev w) as [[x|e] w1]; [|done].
    rewrite IH.
    destruct (run hd (k x) w1) as [[tr [a|e]] w2]; [|done].
    by destruct (run hd (f a) w2) as [[tr2 r] w3].
Qed.

(** ** Running router methods *)

Section RouterRuns.
Import QdrantMultiCollectionVecDB.
Context {W : Type} (hd : Handler RouterReply W).

Lemma get_known (self : t) (name : string) (inst : Handle) :
  OrdDict.get name (_instances self) = Some inst → _get self name = Ret inst.
Proof. intros H. unfold _get. by rewrite H. Qed.

Lemma get_unknown (self : t) (name : string) :
  OrdDict.get name (_instances self) = None →
  _get self name = Raise (ValueError (unknown_collection_message self name)).
Proof. intros H. unfold _get. by rewrite H. Qed.

Lemma run_invoke_then {R} (inst : Handle) (c : QdrantCall) (f : QdrantReply c → R) (w : W) :
  run hd (invoke inst c ≫= λ x, Ret (f x)) w = run_invoke hd inst c f w.
Proof.
  unfold run_invoke. simpl. by destruct (hd (ev_call inst c) w) as [[x|e] w'].
Qed.

Lemma run_invoke_id (inst : Handle) (c : QdrantCall) (w : W) :
  run hd (invoke inst c) w = run_invoke hd inst c id w.
Proof.
  unfold run_invoke. simpl. by destruct (hd (ev_call inst c) w) as [[x|e] w'].
Qed.
End RouterRuns.

Section InitLoop.
Import QdrantMultiCollectionVecDB.
Context {W : Type} (hd : Handler RouterReply W).

Lemma init_loop_get (cfg : QdrantMultiCollectionConfig) (names : list string) :
  ∀ (acc : list (string * Handle)) (w : W) tr insts w',
    run hd (init_loop cfg names acc) w = (tr, Ok insts, w') →
    ∀ n, OrdDict.get n insts = None ↔ ((n ∉ names) ∧ OrdDict.get n acc = None).
Proof.
  induction names as [|name names IH]; intros acc w tr insts w' Hrun n.
  - simpl in Hrun. injection Hrun as _ <- _. split; [|by intros [_ ?]].
    intros ?. split; [apply not_elem_of_nil|done].
  - simpl in Hrun.
    destruct (hd (ev_new (single_cfg cfg name)) w) as [[h|e] w1]; [|done].
    destruct (hd (ev_log_info _) w1) as [[u|e] w2]; [|done].
    destruct (run hd _ w2) as [[tr2 res2] w3] eqn:Hrest.
    injection Hrun as _ -> _.
    rewrite (IH _ _ _ _ _ Hrest n), OrdDict_get_set, not_elem_of_cons.
    destruct (String.eqb n name) eqn:Hn.
    + apply String.eqb_eq in Hn. split; [by intros [_ ?]|by intros [[? _] _]].
    + apply String.eqb_neq in Hn. split; [by intros [? ?]|by intros [[_ ?] ?]].
Qed.

(** The router [__init__] builds knows exactly the configured names. *)
Lemma init_names (cfg : QdrantMultiCollectionConfig) (w : W) tr self w' :
  run hd (__init__ cfg) w = (tr, Ok self, w') →
  ∀ n, n ∈ list_collections self ↔ n ∈ collection_name cfg.
Proof.
  unfold __init__. intros Hrun n.
  rewrite run_bind in Hrun.
  destruct (run hd (init_loop cfg (collection_name cfg) []) w)
    as [[tr0 [insts|e]] w0] eqn:Hloop; [|done].
  simpl in Hrun. injection Hrun as _ <- _.
  pose proof (init_loop_get cfg _ _ _ _ _ _ Hloop n) as Hget.
  unfold list_collections. cbn [_instances]. rewrite OrdDict_get_None in Hget.
  destruct (decide (n ∈ OrdDict.keys insts)) as [Hin|Hin];
    destruct (decide (n ∈ collection_name cfg)) as [Hc|Hc]; try done.
  - destruct (proj2 Hget (conj Hc eq_refl) Hin).
  - destruct (proj1 Hget Hin) as [Hn _]. destruct (Hn Hc).
Qed.
End InitLoop.

Example sample_router_built :
  ∃ tr, run RefBackend.handler (QdrantMultiCollectionVecDB.__init__ Sample.cfg) RefBackend.empty
        = (tr, Ok Sample.router,
           RefBackend.mk [[]; []]
             ["[QdrantMulti] Initialized collection 'explicit_preference'";
              "[QdrantMulti] Initialized collection 'implicit_preference'"]).
Proof. eexists. vm_compute. reflexivity. Qed.

(** ** Unknown collections *)

Section UnknownCollection.
Import QdrantMultiCollectionVecDB.

Lemma unknown_message_text (self : t) (name : string) :
  unknown_collection_message self name =
  "Unknown collection '" +:+ name +:+ "'. Available: " +:+
  PyStr.repr_list (list_collections self).
Proof. reflexivity. Qed.

(** C2. On a router built by [__init__] from a configuration, each of
    the eleven operations routed by [collection_name], called with a
    name that is not among the configured ones, raises [ValueError]
    with the message [Unknown collection '<name>'. Available: <list of
    the known names>], whatever the other arguments; no call reaches a
    backend instance or the logger, and the world is left as it was. *)
Theorem unknown_collection_raises {W0 W : Type}
    (hd0 : Handler RouterReply W0) (w0 w1 : W0) (cfg : QdrantMultiCollectionConfig)
    (tr0 : list (Obs RouterReply)) (self : t) (name : string)
    (hd : Handler RouterReply W) (w : W) :
  run hd0 (__init__ cfg) w0 = (tr0, Ok self, w1) →
  name ∉ collection_name cfg →
  let msg := "Unknown collection '" +:+ name +:+ "'. Available: " +:+
             PyStr.repr_list (list_collections self) in
  (∀ n, n ∈ list_collections self ↔ n ∈ collection_name cfg)
  ∧ (∀ qv q k f st, run hd (search self qv q name k f st) w = ([], Err (ValueError msg), w))
  ∧ (∀ id, run hd (get_by_id self name id) w = ([], Err (ValueError msg), w))
  ∧ (∀ ids, run hd (get_by_ids self name ids) w = ([], Err (ValueError msg), w))
  ∧ (∀ f lim, run hd (get_by_filter self name f lim) w = ([], Err (ValueError msg), w))
  ∧ (∀ lim, run hd (get_all self name lim) w = ([], Err (ValueError msg), w))
  ∧ (∀ f, run hd (count self name f) w = ([], Err (ValueError msg), w))
  ∧ (∀ data, run hd (add self name data) w = ([], Err (ValueError msg), w))
  ∧ (∀ id data, run hd (update self name id data) w = ([], Err (ValueError msg), w))
  ∧ (∀ data, run hd (upsert self name data) w = ([], Err (ValueError msg), w))
  ∧ (∀ ids, run hd (delete self name ids) w = ([], Err (ValueError msg), w))
  ∧ (∀ f, run hd (delete_by_filter self name f) w = ([], Err (ValueError msg), w)).
Proof.
  intros Hinit Hname msg.
  pose proof (init_names hd0 cfg w0 tr0 self w1 Hinit) as Hnames.
  assert (Hget : OrdDict.get name (_instances self) = None).
  { apply OrdDict_get_None. intros Hin. by apply Hname, Hnames. }
  split; [done|].
  repeat split; intros;
    unfold search, get_by_id, get_by_ids, get_by_filter, get_all, count, add, update,
      upsert, delete, delete_by_filter;
    by rewrite (get_unknown self name Hget).
Qed.
End UnknownCollection.

Lemma unknown_collection_raises_witness :
  let msg := "Unknown collection 'unknown_collection'. Available: ['explicit_preference', 'implicit_preference']" in
  let self := Sample.router in
  let name := "unknown_collection" in
  let w := Sample.world in
  (∀ n, n ∈ QdrantMultiCollectionVecDB.list_collections self ↔ n ∈ collection_name Sample.cfg)
  ∧ (∀ qv q k f st,
       run RefBackend.handler (QdrantMultiCollectionVecDB.search self qv q name k f st) w
       = ([], Err (ValueError msg), w))
  ∧ (∀ id, run RefBackend.handler (QdrantMultiCollectionVecDB.get_by_id self name id) w
           = ([], Err (ValueError msg), w))
  ∧ (∀ ids, run RefBackend.handler (QdrantMultiCollectionVecDB.get_by_ids self name ids) w
            = ([], Err (ValueError msg), w))
  ∧ (∀ f lim, run RefBackend.handler (QdrantMultiCollectionVecDB.get_by_filter self name f lim) w
              = ([], Err (ValueError msg), w))
  ∧ (∀ lim, run RefBackend.handler (QdrantMultiCollectionVecDB.get_all self name lim) w
            = ([], Err (ValueError msg), w))
  ∧ (∀ f, run RefBackend.handler (QdrantMultiCollectionVecDB.count self name f) w
          = ([], Err (ValueError msg), w))
  ∧ (∀ data, run RefBackend.handler (QdrantMultiCollectionVecDB.add self name data) w
             = ([], Err (ValueError msg), w))
  ∧ (∀ id data, run RefBackend.handler (QdrantMultiCollectionVecDB.update self name id data) w
                = ([], Err (ValueError msg), w))
  ∧ (∀ data, run RefBackend.handler (QdrantMultiCollectionVecDB.upsert self name data) w
             = ([], Err (ValueError msg), w))
  ∧ (∀ ids, run RefBackend.handler (QdrantMultiCollectionVecDB.delete self name ids) w
            = ([], Err (ValueError msg), w))
  ∧ (∀ f, run RefBackend.handler (QdrantMultiCollectionVecDB.delete_by_filter self name f) w
          = ([], Err (ValueError msg), w)).
Proof.
  eapply (unknown_collection_raises RefBackend.handler RefBackend.empty _ Sample.cfg _
            Sample.router "unknown_collection" RefBackend.handler Sample.world).
  - vm_compute. reflexivity.
  - apply (bool_decide_unpack _). vm_compute. reflexivity.
Defined.

(** ** Known collections: what each method sends to the instance *)

Section KnownCollection.
Import QdrantMultiCollectionVecDB.
Context {W : Type} (hd : Handler RouterReply W).
Context (self : t) (name : string) (inst : Handle).
Hypothesis Hknown : OrdDict.get name (_instances self) = Some inst.

Lemma run_search qv q k f st (w : W) :
  run hd (search self qv q name k f st) w =
  run_invoke hd inst (q_search qv k (_flatten_milvus_filter f)) (map _to_milvus_item) w.
Proof. unfold search. rewrite (get_known self name inst Hknown). apply run_invoke_then. Qed.

Lemma run_get_by_id id (w : W) :
  run hd (get_by_id self name id) w =
  run_invoke hd inst (q_get_by_id id) (fmap (M:=option) _to_milvus_item) w.
Proof.
  unfold get_by_id. rewrite (get_known self name inst Hknown).
  unfold run_invoke. simpl. by destruct (hd _ w) as [[[x|]|e] w'].
Qed.

Lemma run_get_by_ids ids (w : W) :
  run hd (get_by_ids self name ids) w =
  run_invoke hd inst (q_get_by_ids ids) (map _to_milvus_item) w.
Proof. unfold get_by_ids. rewrite (get_known self name inst Hknown). apply run_invoke_then. Qed.

Lemma run_get_by_filter f lim (w : W) :
  run hd (get_by_filter self name f lim) w =
  run_invoke hd inst (q_get_by_filter (dict_or_empty (_flatten_milvus_filter f)) (Some lim))
    (map _to_milvus_item) w.
Proof.
  unfold get_by_filter. rewrite (get_known self name inst Hknown). apply run_invoke_then.
Qed.

Lemma run_get_all lim (w : W) :
  run hd (get_all self name lim) w =
  run_invoke hd inst (q_get_all lim) (map _to_milvus_item) w.
Proof. unfold get_all. rewrite (get_known self name inst Hknown). apply run_invoke_then. Qed.

Lemma run_count f (w : W) :
  run hd (count self name f) w = run_invoke hd inst (q_count f) id w.
Proof.
  unfold count. rewrite (get_known self name inst Hknown).
  exact (run_invoke_id hd inst (q_count f) w).
Qed.

Lemma run_delete_by_filter f (w : W) :
  run hd (delete_by_filter self name f) w =
  scan_then_delete hd inst (dict_or_empty (_flatten_milvus_filter f)) name w.
Proof.
  unfold delete_by_filter, scan_then_delete.
  rewrite (get_known self name inst Hknown). simpl.
  destruct (hd _ w) as [[[|x items]|e] w1]; try done. simpl.
  destruct (hd (ev_call inst (q_delete _)) w1) as [[u|e] w2]; [|done].
  unfold deleted_message.
  by destruct (hd (ev_log_info _) w2) as [[[]|e] w3].
Qed.
End KnownCollection.

Section RouterClaims.
Import QdrantMultiCollectionVecDB.

(** C4 (amended). For a known collection, each of the five read
    operations forwards one call to the addressed instance and maps
    [_to_milvus_item] over what comes back, and every item so produced
    has [memory] equal to the payload's [memory] entry if present, else
    its [preference] entry if present, else the empty string,
    [original_text] equal to the payload's entry or the empty string,
    and the record's [id], [vector] and [score]; its [payload] is the
    record's payload, the empty mapping when the record has none. *)
Theorem read_items_follow_payload {W : Type} (hd : Handler RouterReply W)
    (self : t) (name : string) (inst : Handle) (w : W) :
  OrdDict.get name (_instances self) = Some inst →
  (∀ r : VecDBItem.t, canonical_of r (_to_milvus_item r))
  ∧ (∀ rs : list VecDBItem.t, Forall2 canonical_of rs (map _to_milvus_item rs))
  ∧ (∀ qv q k f st,
       run hd (search self qv q name k f st) w =
       run_invoke hd inst (q_search qv k (_flatten_milvus_filter f)) (map _to_milvus_item) w)
  ∧ (∀ id,
       run hd (get_by_id self name id) w =
       run_invoke hd inst (q_get_by_id id) (fmap (M:=option) _to_milvus_item) w)
  ∧ (∀ ids,
       run hd (get_by_ids self name ids) w =
       run_invoke hd inst (q_get_by_ids ids) (map _to_milvus_item) w)
  ∧ (∀ f lim,
       run hd (get_by_filter self name f lim) w =
       run_invoke hd inst
         (q_get_by_filter (dict_or_empty (_flatten_milvus_filter f)) (Some lim))
         (map _to_milvus_item) w)
  ∧ (∀ lim,
       run hd (get_all self name lim) w =
       run_invoke hd inst (q_get_all lim) (map _to_milvus_item) w).
Proof.
  intros Hknown.
  split; [apply to_milvus_item_canonical|].
  split; [apply map_to_milvus_item_canonical|].
  split; [intros; by apply run_search|].
  split; [intros; by apply run_get_by_id|].
  split; [intros; by apply run_get_by_ids|].
  split; [intros; by apply run_get_by_filter|].
  intros; by apply run_get_all.
Qed.

(** C1 (amended). The router has no filter check of its own: for a
    known collection, [search] and [get_by_filter] send the flattened
    filter to the instance, [delete_by_filter] scans with it, [count]
    sends the filter as given, and each fails only if a call it makes
    fails; a filter without an ["and"] list, such as an OR clause or a
    range clause, is flattened to itself and reaches the instance
    unchanged. *)
Theorem filters_reach_backend_unchecked {W : Type} (hd : Handler RouterReply W)
    (self : t) (name : string) (inst : Handle) (w : W) :
  OrdDict.get name (_instances self) = Some inst →
  (∀ qv q k f st,
     run hd (search self qv q name k f st) w =
     run_invoke hd inst (q_search qv k (_flatten_milvus_filter f)) (map _to_milvus_item) w)
  ∧ (∀ f lim,
       run hd (get_by_filter self name f lim) w =
       run_invoke hd inst
         (q_get_by_filter (dict_or_empty (_flatten_milvus_filter f)) (Some lim))
         (map _to_milvus_item) w)
  ∧ (∀ f, run hd (count self name f) w = run_invoke hd inst (q_count f) id w)
  ∧ (∀ f,
       run hd (delete_by_filter self name f) w =
       scan_then_delete hd inst (dict_or_empty (_flatten_milvus_filter f)) name w)
  ∧ (∀ f : PyDict, (∀ cs, f !! "and" ≠ Some (PList cs)) → f ≠ ∅ →
       _flatten_milvus_filter (Some f) = Some f
       ∧ dict_or_empty (_flatten_milvus_filter (Some f)) = f).
Proof.
  intros Hknown.
  split; [intros; by apply run_search|].
  split; [intros; by apply run_get_by_filter|].
  split; [intros; by apply run_count|].
  split; [intros; by apply run_delete_by_filter|].
  intros f Hf Hne. rewrite (flatten_not_and f Hf). split; [done|].
  simpl. apply dict_truthy_true in Hne. by rewrite Hne.
Qed.

(** C5. For a known collection and any filter, [delete_by_filter] is
    the composition the specification asks for: one scan of the
    addressed instance with the flattened filter (the empty mapping
    when the flattening leaves nothing), then, when the scan returned
    records, one delete of exactly their ids followed by a log line
    carrying their number; when the scan returned nothing, the scan is
    the only call made. *)
Theorem delete_by_filter_scans_then_deletes {W : Type} (hd : Handler RouterReply W)
    (self : t) (name : string) (inst : Handle) (f : option PyDict) (w : W) :
  OrdDict.get name (_instances self) = Some inst →
  run hd (delete_by_filter self name f) w =
  scan_then_delete hd inst (dict_or_empty (_flatten_milvus_filter f)) name w.
Proof. intros Hknown. by apply run_delete_by_filter. Qed.
End RouterClaims.

Section RouterWitnesses.
Import QdrantMultiCollectionVecDB.

Lemma read_items_follow_payload_witness :
  OrdDict.get "explicit_preference" (_instances Sample.router) = Some 0%nat
  ∧ canonical_of Sample.jazz (_to_milvus_item Sample.jazz)
  ∧ run RefBackend.handler (get_all Sample.router "explicit_preference" 100) Sample.world
    = run_invoke RefBackend.handler 0%nat (q_get_all 100) (map _to_milvus_item) Sample.world.
Proof.
  pose proof (read_items_follow_payload RefBackend.handler Sample.router
                "explicit_preference" 0%nat Sample.world eq_refl)
    as (Hone & _ & _ & _ & _ & _ & Hall).
  split; [reflexivity|]. split; [apply Hone|apply Hall].
Defined.

Example get_all_sample :
  ∃ tr w,
    run RefBackend.handler (get_all Sample.router "explicit_preference" 100) Sample.world
    = (tr, Ok [MilvusVecDBItem.mk "00000000-0000-0000-0000-000000000001" None
                 (Some {[ "user_id" := PStr "u1"; "memory" := PStr "likes tea" ]}) None
                 (PStr "likes tea") (PStr EmptyString);
               MilvusVecDBItem.mk "00000000-0000-0000-0000-000000000002" None
                 (Some {[ "user_id" := PStr "u2"; "preference" := PStr "likes jazz" ]}) None
                 (PStr "likes jazz") (PStr EmptyString);
               MilvusVecDBItem.mk "00000000-0000-0000-0000-000000000003" None
                 (Some ∅) None (PStr EmptyString) (PStr EmptyString)], w).
Proof. eexists _, _. vm_compute. reflexivity. Qed.

(** C4, as first stated, fails on a record without a payload: the
    item [get_by_id] returns for it carries the empty mapping. *)
Lemma payload_of_bare_record_changes :
  ∃ tr m w,
    run RefBackend.handler
      (get_by_id Sample.router "explicit_preference" (VecDBItem.id Sample.bare)) Sample.world
    = (tr, Ok (Some m), w)
    ∧ tr = [obs (ev_call 0%nat (q_get_by_id (VecDBItem.id Sample.bare))) (Ok (Some Sample.bare))]
    ∧ VecDBItem.payload Sample.bare = None
    ∧ MilvusVecDBItem.payload m = Some ∅
    ∧ MilvusVecDBItem.payload m ≠ VecDBItem.payload Sample.bare.
Proof.
  eexists _, _, _. split; [vm_compute; reflexivity|].
  split; [reflexivity|]. split; [reflexivity|]. split; [reflexivity|]. discriminate.
Qed.

Lemma filters_reach_backend_unchecked_witness :
  OrdDict.get "explicit_preference" (_instances Sample.router) = Some 0%nat
  ∧ run RefBackend.handler
      (search Sample.router [] "tea" "explicit_preference" 5 (Some Sample.or_filter) "dense")
      Sample.world
    = run_invoke RefBackend.handler 0%nat
        (q_search [] 5 (_flatten_milvus_filter (Some Sample.or_filter)))
        (map _to_milvus_item) Sample.world.
Proof.
  pose proof (filters_reach_backend_unchecked RefBackend.handler Sample.router
                "explicit_preference" 0%nat Sample.world eq_refl) as (Hsearch & _).
  split; [reflexivity|apply Hsearch].
Defined.

(** C1, as first stated, fails: a search with an OR clause on a known
    collection raises nothing; the clause is handed to the instance as
    it came, and the caller gets the instance's answer. *)
Lemma or_filter_reaches_backend :
  run RefBackend.handler
    (search Sample.router [] "tea" "explicit_preference" 5 (Some Sample.or_filter) "dense")
    Sample.world
  = ([obs (ev_call 0%nat (q_search [] 5 (Some Sample.or_filter))) (Ok [])], Ok [], Sample.world).
Proof. vm_compute. reflexivity. Qed.

Lemma delete_by_filter_scans_then_deletes_witness :
  OrdDict.get "explicit_preference" (_instances Sample.router) = Some 0%nat
  ∧ run RefBackend.handler
      (delete_by_filter Sample.router "explicit_preference"
         (Some {[ "and" := PList [PDict {[ "user_id" := PStr "u1" ]}; PNone] ]}))
      Sample.world
    = scan_then_delete RefBackend.handler 0%nat
        (dict_or_empty (_flatten_milvus_filter
           (Some {[ "and" := PList [PDict {[ "user_id" := PStr "u1" ]}; PNone] ]})))
        "explicit_preference" Sample.world.
Proof.
  split; [reflexivity|].
  apply (delete_by_filter_scans_then_deletes RefBackend.handler Sample.router
           "explicit_preference" 0%nat _ Sample.world eq_refl).
Defined.

Example delete_by_filter_sample :
  run RefBackend.handler
    (delete_by_filter Sample.router "explicit_preference"
       (Some {[ "and" := PList [PDict {[ "user_id" := PStr "u1" ]}; PNone] ]}))
    Sample.world
  = ([obs (ev_call 0%nat (q_get_by_filter {[ "user_id" := PStr "u1" ]} None)) (Ok [Sample.tea]);
      obs (ev_call 0%nat (q_delete ["00000000-0000-0000-0000-000000000001"])) (Ok ());
      obs (ev_log_info "[QdrantMulti] Deleted 1 items from 'explicit_preference' by filter")
          (Ok ())],
     Ok (),
     RefBackend.mk [[Sample.jazz; Sample.bare]; []]
       ["[QdrantMulti] Deleted 1 items from 'explicit_preference' by filter"]).
Proof. vm_compute. reflexivity. Qed.

Example delete_by_filter_no_match :
  run RefBackend.handler
    (delete_by_filter Sample.router "explicit_preference" (Some {[ "user_id" := PStr "u9" ]}))
    Sample.world
  = ([obs (ev_call 0%nat (q_get_by_filter {[ "user_id" := PStr "u9" ]} None)) (Ok [])],
     Ok (), Sample.world).
Proof. vm_compute. reflexivity. Qed.
End RouterWitnesses.

(** ** Payload indexes *)

Section EnsurePayloadIndexes.
Import QdrantMultiCollectionVecDB.

Lemma run_ensure_loop {W : Type} (hd : Handler RouterReply W) (fields : list string)
    (insts : list Handle) (w : W) :
  let out := run hd (for_each (λ inst, invoke inst (q_ensure_payload_indexes fields)) insts) w in
  let call := λ inst, ev_call inst (q_ensure_payload_indexes fields) in
  (out.1.2 = Ok ()
   ∧ out.1.1 = map (λ inst, obs (call inst) (Ok ())) insts)
  ∨ (∃ (before : list Handle) (inst : Handle) (after : list Handle) (e : PyExn),
       insts = (before ++ inst :: after)%list
       ∧ out.1.1 = (map (λ i, obs (call i) (Ok ())) before ++ [obs (call inst) (Err e)])%list
       ∧ out.1.2 = Err e).
Proof.
  revert w. induction insts as [|inst insts IH]; intros w; simpl.
  - left. done.
  - destruct (hd (ev_call inst (q_ensure_payload_indexes fields)) w) as [[[]|e] w1]; simpl.
    + specialize (IH w1). simpl in IH.
      destruct (run hd (for_each _ insts) w1) as [[tr res] w2]. simpl in *.
      destruct IH as [[Hres Htr]|(before & i & after & e & Hsplit & Htr & Hres)].
      * left. by rewrite Hres, Htr.
      * right. exists (inst :: before), i, after, e. by rewrite Hsplit, Htr, Hres.
    + right. exists [], inst, insts, e. done.
Qed.

(** C6 (amended). [ensure_payload_indexes] takes no collection name:
    it calls [ensure_payload_indexes(fields)] on the instance of every
    collection, in the order of the router's dictionary, stopping at
    the first call that fails. Either every call succeeded, and then the
    calls made are exactly one per instance, in that order, and the
    method returns; or the instances split into those before the first
    failing call, all called with success, the one whose call raised,
    called last, and those after it, not called at all, and the method
    raises that call's exception. *)
Theorem ensure_payload_indexes_reaches_every_instance {W : Type}
    (hd : Handler RouterReply W) (self : t) (fields : list string) (w : W) :
  let out := run hd (ensure_payload_indexes self fields) w in
  let insts := OrdDict.values (_instances self) in
  let call := λ inst, ev_call inst (q_ensure_payload_indexes fields) in
  (out.1.2 = Ok ()
   ∧ out.1.1 = map (λ inst, obs (call inst) (Ok ())) insts)
  ∨ (∃ (before : list Handle) (inst : Handle) (after : list Handle) (e : PyExn),
       insts = (before ++ inst :: after)%list
       ∧ out.1.1 = (map (λ i, obs (call i) (Ok ())) before ++ [obs (call inst) (Err e)])%list
       ∧ out.1.2 = Err e).
Proof. apply run_ensure_loop. Qed.

(** C6, as first stated, fails: with two collections configured, both
    instances receive the call, so no single addressed instance exists
    that is the only one touched. *)
Lemma ensure_payload_indexes_touches_all :
  let tr := (run RefBackend.handler (ensure_payload_indexes Sample.router ["user_id"])
               Sample.world).1.1 in
  map obs_event tr = [ev_call 0%nat (q_ensure_payload_indexes ["user_id"]);
                      ev_call 1%nat (q_ensure_payload_indexes ["user_id"])]
  ∧ ¬ ∃ inst : Handle, Forall (λ o, ∃ c, obs_event o = ev_call inst c) tr.
Proof.
  split; [vm_compute; reflexivity|].
  intros [inst Hall]. vm_compute in Hall.
  inversion Hall as [|o1 tr1 [c1 H1] Hrest]; subst.
  inversion Hrest as [|o2 tr2 [c2 H2] _]; subst.
  simpl in H1, H2. congruence.
Qed.
End EnsurePayloadIndexes.

(** ** Vacuous filters *)


Section RefBackendFacts.
Import RefBackend.





Lemma deleted_are_gone (ids : list string) (s : list VecDBItem.t) (x : VecDBItem.t) :
  has_id ids x = true → x ∉ List.filter (λ y, negb (has_id ids y)) s.
Proof.
  intros Hx Hin. apply list_elem_of_In, filter_In in Hin as [_ Hneg].
  by rewrite Hx in Hneg.
Qed.

End RefBackendFacts.

Section VacuousFilter.
Import QdrantMultiCollectionVecDB.

End VacuousFilter.




(** ** The SearXNG retriever *)

Example rstrip_slash_sample : rstrip_slash "http://searxng:8080//" = "http://searxng:8080".
Proof. reflexivity. Qed.

Example slice_to_negative : slice_to (-1) [1; 2; 3] = [1; 2].
Proof. reflexivity. Qed.

Lemma lookup_of_zip {A B C} (g : C → A * B) (xs : list A) (ys : list B) (cs : list C) :
  map g cs = zip xs ys →
  ∀ (i : nat) (c : C), cs !! i = Some c → xs !! i = Some (g c).1 ∧ ys !! i = Some (g c).2.
Proof.
  revert xs ys. induction cs as [|c0 cs IH]; intros xs ys Hzip i c Hi; [done|].
  destruct xs as [|x xs]; [done|]. destruct ys as [|y ys]; [done|].
  simpl in Hzip. injection Hzip as Hc Hrest.
  destruct i as [|i]; simpl in *.
  - injection Hi as <-. by rewrite Hc.
  - by apply (IH xs ys).
Qed.

Section Retrieve.
Import SearxngSearchRetriever.
Variable py_str : PyVal → string.
Context {W : Type} (hd : Handler WebReply W).

Lemma search_no_embed (api : SearxngSearchAPI.t) (query : string) (mr : option Z) (w : W) :
  List.filter is_embed (run hd (SearxngSearchAPI.search api query mr) w).1.1 = [].
Proof.
  unfold SearxngSearchAPI.search. simpl.
  destruct (hd (ev_http_get _ _ _) w) as [[[e|data]|ex] w1]; simpl; [| |done].
  - by destruct (hd (ev_log_error _) w1) as [[[]|ex] w2].
  - by destruct (SearxngSearchAPI.results_of data _).
Qed.

Lemma entries_of_dicts (parsed_goal : option ParsedGoal) (rs : list PyDict) :
  entries_of_list py_str parsed_goal (map PDict rs) = Ok (map (entry_of py_str parsed_goal) rs).
Proof. induction rs as [|r rs IH]; simpl; [done|]. by rewrite IH. Qed.

Lemma items_of_run (uid sid : PyVal) (ns ni : string) (pairs : list (Entry * list float))
    (w : W) :
  let out := run hd (items_of uid sid ns ni pairs) w in
  List.filter is_embed out.1.1 = []
  ∧ ∀ items, out.1.2 = Ok items →
      map (λ it, (TextualMemoryItem.memory it,
                  TreeNodeTextualMemoryMetadata.embedding (TextualMemoryItem.metadata it)))
          items
      = map (λ p, (content p.1, p.2)) pairs.
Proof.
  revert w. induction pairs as [|[entry emb] pairs IH]; intros w; simpl.
  - split; [done|]. by intros items [= <-].
  - destruct (hd ev_uuid4 w) as [[id|ex] w1]; simpl; [|by split].
    change (prog_bind ?f ?m) with (m ≫= f). rewrite run_bind.
    specialize (IH w1). simpl in IH.
    destruct (run hd (items_of uid sid ns ni pairs) w1) as [[tr [items|ex]] w2];
      simpl in *; destruct IH as [Hne Hitems].
    + rewrite app_nil_r. split; [done|].
      intros items' [= <-]. simpl. by rewrite (Hitems items eq_refl).
    + by split.
Qed.
End Retrieve.

Section RetrieveClaim.
Import SearxngSearchRetriever.
Variable py_str : PyVal → string.
Context {W : Type} (hd : Handler WebReply W).

(** C7. When the search returns a non-empty list of result
    dictionaries, [retrieve_from_internet] calls the embedder exactly
    once, with the list of the memory texts built from all the results,
    one text per result and in their order; and when it returns, the
    i-th item carries the i-th text as its [memory] and the i-th vector
    of the embedder's answer as its [embedding]. *)
Theorem embed_called_once_with_all_texts (self : t) (query : string) (top_k : Z)
    (parsed_goal : option ParsedGoal) (info : option PyDict) (mode : string)
    (w w1 : W) (tr1 : list (Obs WebReply)) (rs : list PyDict) :
  run hd (SearxngSearchAPI.search (searxng_api self) query (Some top_k)) w
    = (tr1, Ok (PList (map PDict rs)), w1) →
  rs ≠ [] →
  let texts := map (λ r, content (entry_of py_str parsed_goal r)) rs in
  let out := run hd (retrieve_from_internet py_str self query top_k parsed_goal info mode) w in
  length texts = length rs
  ∧ ∃ reply : Result (list (list float)),
      List.filter is_embed out.1.1 = [obs (ev_embed texts) reply]
      ∧ ∀ items, out.1.2 = Ok items →
          ∃ embs, reply = Ok embs
            ∧ map (λ it, (TextualMemoryItem.memory it,
                          TreeNodeTextualMemoryMetadata.embedding
                            (TextualMemoryItem.metadata it))) items
              = zip texts embs
            ∧ ∀ (i : nat) it, items !! i = Some it →
                texts !! i = Some (TextualMemoryItem.memory it)
                ∧ embs !! i = Some (TreeNodeTextualMemoryMetadata.embedding
                                      (TextualMemoryItem.metadata it)).
Proof.
  intros Hsearch Hne texts out.
  split; [unfold texts; by rewrite length_map|].
  pose proof (search_no_embed hd (searxng_api self) query (Some top_k) w) as Hno.
  rewrite Hsearch in Hno. simpl in Hno.
  subst out. unfold retrieve_from_internet. rewrite run_bind, Hsearch.
  set (info' := match info with Some d => if dict_truthy d then d else default_info
                           | None => default_info end).
  unfold after_search.
  assert (Htruthy : py_truthy (PList (map PDict rs)) = true) by (by destruct rs).
  rewrite Htruthy. cbn [negb entries_of]. rewrite entries_of_dicts.
  rewrite map_map. fold texts.
  unfold embed. rewrite run_bind. cbn [run].
  destruct (hd (ev_embed texts) w1) as [[embs|ex] w2]; cbn beta iota.
  2:{ exists (Err ex). cbn [fst snd]. rewrite List.filter_app, Hno. split; [done|].
      by intros items. }
  unfold datetime_now. rewrite run_bind. cbn [run].
  destruct (hd ev_now w2) as [[now1|ex] w3]; cbn beta iota.
  2:{ exists (Ok embs). cbn [fst snd]. rewrite List.filter_app, Hno. split; [done|].
      by intros items. }
  rewrite run_bind. cbn [run].
  destruct (hd ev_now w3) as [[now2|ex] w4]; cbn beta iota.
  2:{ exists (Ok embs). cbn [fst snd]. rewrite List.filter_app, Hno. split; [done|].
      by intros items. }
  pose proof (items_of_run hd (dict_get_default info' "user_id" (PStr EmptyString))
                (dict_get_default info' "session_id" (PStr EmptyString))
                (strftime_ymd now1) (isoformat now2)
                (zip (map (entry_of py_str parsed_goal) rs) embs) w4) as [Hnone Hitems].
  destruct (run hd (items_of _ _ _ _ _) w4) as [[tr4 res4] w5]. cbn [fst snd] in *.
  exists (Ok embs). rewrite List.filter_app, Hno. cbn [app].
  cbn [List.filter is_embed obs_event]. rewrite Hnone. split; [done|].
  intros items ->. exists embs. split; [done|].
  assert (Hzip : map (λ it, (TextualMemoryItem.memory it,
                             TreeNodeTextualMemoryMetadata.embedding
                               (TextualMemoryItem.metadata it))) items
                 = zip texts embs).
  { rewrite (Hitems items eq_refl). unfold texts. clear.
    revert embs. induction rs as [|r rs IH]; intros [|e embs]; simpl; try done.
    by rewrite IH. }
  split; [exact Hzip|]. intros i it Hi.
  exact (lookup_of_zip _ texts embs items Hzip i it Hi).
Qed.
End RetrieveClaim.

Section RetrieveWitness.
Import SearxngSearchRetriever.

Example retrieve_sample_calls :
  map obs_event
    (run Sample.web
       (retrieve_from_internet Sample.str_of Sample.retriever "tea" 10 None None "fast")
       0%nat).1.1
  = [ev_http_get "http://searxng:8080/search"
       [("q", "tea"); ("format", "json"); ("categories", "general")] 10;
     ev_embed
       ["Title: Tea" +:+ newline +:+ "Summary: About tea" +:+ newline +:+
        "Source: http://t.example";
        "Title: Jazz" +:+ newline +:+ "Summary: About jazz" +:+ newline +:+
        "Source: http://j.example"];
     ev_now; ev_now; ev_uuid4; ev_uuid4].
Proof. vm_compute. reflexivity. Qed.

Lemma embed_called_once_with_all_texts_witness :
  let texts := map (λ r, content (entry_of Sample.str_of None r)) Sample.hits in
  let out := run Sample.web
               (retrieve_from_internet Sample.str_of Sample.retriever "tea" 10 None None "fast")
               0%nat in
  length texts = length Sample.hits
  ∧ ∃ reply : Result (list (list float)),
      List.filter is_embed out.1.1 = [obs (ev_embed texts) reply]
      ∧ ∀ items, out.1.2 = Ok items →
          ∃ embs, reply = Ok embs
            ∧ map (λ it, (TextualMemoryItem.memory it,
                          TreeNodeTextualMemoryMetadata.embedding
                            (TextualMemoryItem.metadata it))) items
              = zip texts embs
            ∧ ∀ (i : nat) it, items !! i = Some it →
                texts !! i = Some (TextualMemoryItem.memory it)
                ∧ embs !! i = Some (TreeNodeTextualMemoryMetadata.embedding
                                      (TextualMemoryItem.metadata it)).
Proof.
  eapply (embed_called_once_with_all_texts Sample.str_of Sample.web Sample.retriever
            "tea" 10 None None "fast" 0%nat _ _ Sample.hits).
  - vm_compute. reflexivity.
  - discriminate.
Defined.
End RetrieveWitness.

(** ** The graph-store base class *)

(** C9. The three optional search methods of [BaseGraphDB] return the
    empty list for every input, and so does the method found on a
    concrete backend that does not override it; none raises. *)
Theorem optional_searches_default_to_empty :
  (∀ query_words top_k kwargs,
     BaseGraphDB.search_by_fulltext query_words top_k kwargs = Ok [])
  ∧ (∀ query_word kwargs, BaseGraphDB.search_by_keywords_like query_word kwargs = Ok [])
  ∧ (∀ query_words kwargs, BaseGraphDB.search_by_keywords_tfidf query_words kwargs = Ok [])
  ∧ (∀ c, BaseGraphDB.override_search_by_fulltext c = None →
       ∀ query_words top_k kwargs,
         BaseGraphDB.resolve_search_by_fulltext c query_words top_k kwargs = Ok [])
  ∧ (∀ c, BaseGraphDB.override_search_by_keywords_like c = None →
       ∀ query_word kwargs,
         BaseGraphDB.resolve_search_by_keywords_like c query_word kwargs = Ok [])
  ∧ (∀ c, BaseGraphDB.override_search_by_keywords_tfidf c = None →
       ∀ query_words kwargs,
         BaseGraphDB.resolve_search_by_keywords_tfidf c query_words kwargs = Ok []).
Proof.
  repeat split; try done.
  - intros c Hc ???. unfold BaseGraphDB.resolve_search_by_fulltext. by rewrite Hc.
  - intros c Hc ??. unfold BaseGraphDB.resolve_search_by_keywords_like. by rewrite Hc.
  - intros c Hc ??. unfold BaseGraphDB.resolve_search_by_keywords_tfidf. by rewrite Hc.
Qed.

Example backend_without_overrides :
  BaseGraphDB.resolve_search_by_fulltext
    {| BaseGraphDB.override_search_by_fulltext := None;
       BaseGraphDB.override_search_by_keywords_like := None;
       BaseGraphDB.override_search_by_keywords_tfidf := None |}
    ["tea"; "jazz"] 10 ∅ = Ok [].
Proof. reflexivity. Qed.

(** * Further properties *)

(** ** Construction of the router *)

Lemma OrdDict_keys_set {V} (k : string) (v : V) (d : list (string * V)) :
  OrdDict.keys (OrdDict.set k v d) = add_name (OrdDict.keys d) k.
Proof.
  unfold add_name, OrdDict.keys. induction d as [|[k' v'] d IH].
  - cbn [OrdDict.set map fst app].
    rewrite bool_decide_eq_false_2 by apply not_elem_of_nil. done.
  - cbn [OrdDict.set]. destruct (String.eqb k k') eqn:Hk.
    + apply String.eqb_eq in Hk as ->. cbn [map fst].
      rewrite bool_decide_eq_true_2 by apply list_elem_of_here. done.
    + apply String.eqb_neq in Hk. cbn [map fst]. rewrite IH.
      destruct (decide (k ∈ map fst d)) as [Hin|Hin].
      * rewrite !bool_decide_eq_true_2; [done| |done]. by apply list_elem_of_further.
      * rewrite !bool_decide_eq_false_2; [done| |done].
        rewrite not_elem_of_cons. done.
Qed.

Lemma add_name_NoDup (acc : list string) (name : string) :
  NoDup acc → NoDup (add_name acc name).
Proof.
  intros Hacc. unfold add_name. case_bool_decide; [done|].
  apply NoDup_app. split; [done|]. split.
  - intros x Hx Hx'. apply list_elem_of_singleton in Hx' as ->. done.
  - apply NoDup_singleton.
Qed.

Lemma foldl_add_name_NoDup (names acc : list string) :
  NoDup acc → NoDup (foldl add_name acc names).
Proof.
  revert acc. induction names as [|n names IH]; intros acc Hacc; simpl; [done|].
  by apply IH, add_name_NoDup.
Qed.

Section InitTrace.
Import QdrantMultiCollectionVecDB.
Context {W : Type} (hd : Handler RouterReply W).

Lemma init_loop_trace (cfg : QdrantMultiCollectionConfig) (names : list string) :
  ∀ (acc : list (string * Handle)) (w : W) tr insts w',
    run hd (init_loop cfg names acc) w = (tr, Ok insts, w') →
    map obs_event tr = flat_map (init_events cfg) names
    ∧ OrdDict.keys insts = foldl add_name (OrdDict.keys acc) names
    ∧ ∀ n h, OrdDict.get n insts = Some h →
        OrdDict.get n acc = Some h ∨ obs (ev_new (single_cfg cfg n)) (Ok h) ∈ tr.
Proof.
  induction names as [|name names IH]; intros acc w tr insts w' Hrun.
  - simpl in Hrun. injection Hrun as <- <- _. split; [done|]. split; [done|]. by left.
  - simpl in Hrun.
    destruct (hd (ev_new (single_cfg cfg name)) w) as [[h0|e] w1]; [|done].
    destruct (hd (ev_log_info _) w1) as [[u|e] w2]; [|done].
    destruct (run hd _ w2) as [[tr2 res2] w3] eqn:Hrest.
    injection Hrun as <- -> _.
    destruct (IH _ _ _ _ _ Hrest) as (Hev & Hkeys & Hget).
    split; [simpl; by rewrite Hev|]. split; [by rewrite Hkeys, OrdDict_keys_set|].
    intros n h Hn. destruct (Hget n h Hn) as [Hacc|Hin].
    + rewrite OrdDict_get_set in Hacc. destruct (String.eqb n name) eqn:Heq.
      * apply String.eqb_eq in Heq as ->. injection Hacc as <-.
        right. apply list_elem_of_here.
      * by left.
    + right. by do 2 apply list_elem_of_further.
Qed.
End InitTrace.

Section RouterExtras.
Import QdrantMultiCollectionVecDB.

(** X1. When [__init__] returns, it has constructed one [QdrantVecDB]
    per entry of the configured name list, in order, each from the shared
    configuration with that entry as its collection name and each
    followed by its log line; the router keeps the configuration, knows
    the configured names once each in the order of their first
    appearance, and every instance it holds was returned by a
    construction for that very name. *)
Theorem init_builds_one_instance_per_name {W : Type} (hd : Handler RouterReply W)
    (cfg : QdrantMultiCollectionConfig) (w w' : W) (tr : list (Obs RouterReply)) (self : t) :
  run hd (__init__ cfg) w = (tr, Ok self, w') →
  config self = cfg
  ∧ map obs_event tr = flat_map (init_events cfg) (collection_name cfg)
  ∧ list_collections self = distinct_names (collection_name cfg)
  ∧ NoDup (list_collections self)
  ∧ ∀ n h, OrdDict.get n (_instances self) = Some h →
      obs (ev_new (single_cfg cfg n)) (Ok h) ∈ tr.
Proof.
  unfold __init__. intros Hrun. rewrite run_bind in Hrun.
  destruct (run hd (init_loop cfg (collection_name cfg) []) w)
    as [[tr0 [insts|e]] w0] eqn:Hloop; [|done].
  simpl in Hrun. injection Hrun as <- <- _. rewrite app_nil_r.
  destruct (init_loop_trace hd cfg _ _ _ _ _ _ Hloop) as (Hev & Hkeys & Hget).
  split; [done|]. split; [done|].
  unfold list_collections. cbn [_instances].
  split; [exact Hkeys|]. split.
  - rewrite Hkeys. apply foldl_add_name_NoDup, NoDup_nil_2.
  - intros n h Hn. by destruct (Hget n h Hn).
Qed.

Lemma init_builds_one_instance_per_name_witness :
  list_collections Sample2.dup_router = ["explicit_preference"; "implicit_preference"]
  ∧ ∀ n h, OrdDict.get n (_instances Sample2.dup_router) = Some h →
      obs (ev_new (single_cfg Sample2.dup_cfg n)) (Ok h)
      ∈ (run RefBackend.handler (__init__ Sample2.dup_cfg) RefBackend.empty).1.1.
Proof.
  destruct (run RefBackend.handler (__init__ Sample2.dup_cfg) RefBackend.empty)
    as [[tr res] w'] eqn:Hrun.
  assert (Hres : res = Ok Sample2.dup_router).
  { apply (f_equal (λ x, x.1.2)) in Hrun. vm_compute in Hrun. by rewrite <- Hrun. }
  subst res.
  pose proof (init_builds_one_instance_per_name RefBackend.handler Sample2.dup_cfg
                RefBackend.empty w' tr Sample2.dup_router Hrun) as (_ & _ & Hnames & _ & Hget).
  split; [exact Hnames|exact Hget].
Defined.

(** X2. [collection_exists] is the one lookup that never raises on an
    unknown name: it answers [False] without calling any instance, and
    for a known name it forwards the question to that collection's
    instance. *)
Theorem collection_exists_unknown_is_false {W : Type} (hd : Handler RouterReply W)
    (self : t) (name : string) (w : W) :
  run hd (collection_exists self name) w =
    match OrdDict.get name (_instances self) with
    | Some inst => run_invoke hd inst (q_collection_exists name) id w
    | None => ([], Ok false, w)
    end
  ∧ (name ∉ list_collections self → run hd (collection_exists self name) w = ([], Ok false, w)).
Proof.
  assert (Heq : run hd (collection_exists self name) w =
                match OrdDict.get name (_instances self) with
                | Some inst => run_invoke hd inst (q_collection_exists name) id w
                | None => ([], Ok false, w)
                end).
  { unfold collection_exists. destruct (OrdDict.get name (_instances self)) as [inst|]; [|done].
    exact (run_invoke_id hd inst (q_collection_exists name) w). }
  split; [exact Heq|]. intros Hname. rewrite Heq.
  apply OrdDict_get_None in Hname. by rewrite Hname.
Qed.

(** X3. [create_collection] asks every instance, in the order of the
    router's dictionary, to create its collection, and stops at the first
    instance that fails: either every call succeeded, the calls made are
    exactly one per instance in that order and the method returns, or the
    instances before the first failing one were asked with success, the
    failing one was asked last, those after it were not asked, and the
    method raises that call's exception. *)
Theorem create_collection_reaches_every_instance {W : Type} (hd : Handler RouterReply W)
    (self : t) (w : W) :
  let out := run hd (create_collection self) w in
  let insts := OrdDict.values (_instances self) in
  (out.1.2 = Ok ()
   ∧ out.1.1 = map (λ inst, obs (ev_call inst q_create_collection) (Ok ())) insts)
  ∨ (∃ (before : list Handle) (inst : Handle) (after : list Handle) (e : PyExn),
       insts = (before ++ inst :: after)%list
       ∧ out.1.1 = (map (λ i, obs (ev_call i q_create_collection) (Ok ())) before
                      ++ [obs (ev_call inst q_create_collection) (Err e)])%list
       ∧ out.1.2 = Err e).
Proof.
  unfold create_collection. generalize (OrdDict.values (_instances self)). intros insts.
  revert w. induction insts as [|inst insts IH]; intros w; simpl.
  - left. done.
  - destruct (hd (ev_call inst q_create_collection) w) as [[[]|e] w1]; simpl.
    + specialize (IH w1). simpl in IH.
      destruct (run hd (for_each _ insts) w1) as [[tr res] w2]. simpl in *.
      destruct IH as [[Hres Htr]|(before & i & after & e & Hsplit & Htr & Hres)].
      * left. by rewrite Hres, Htr.
      * right. exists (inst :: before), i, after, e. by rewrite Hsplit, Htr, Hres.
    + right. exists [], inst, insts, e. done.
Qed.
End RouterExtras.

(** ** Writing items *)

(** The payload [_prepare_for_qdrant] hands on for a canonical item: the
    item's payload with [memory] and [original_text] written over their
    keys when they are truthy, and every other key as it was. *)
Lemma prepare_payload (m : MilvusVecDBItem.t) :
  ∃ pv : PyDict,
    _prepare_for_qdrant (ItemMilvus m)
    = ItemVec (VecDBItem.mk (MilvusVecDBItem.id m) (MilvusVecDBItem.vector m) (Some pv)
                 (MilvusVecDBItem.score m))
    ∧ pv !! "memory" =
        (if py_truthy (MilvusVecDBItem.memory m) then Some (MilvusVecDBItem.memory m)
         else default ∅ (MilvusVecDBItem.payload m) !! "memory")
    ∧ pv !! "original_text" =
        (if py_truthy (MilvusVecDBItem.original_text m)
         then Some (MilvusVecDBItem.original_text m)
         else default ∅ (MilvusVecDBItem.payload m) !! "original_text")
    ∧ ∀ k, k ≠ "memory" → k ≠ "original_text" →
        pv !! k = default ∅ (MilvusVecDBItem.payload m) !! k.
Proof.
  eexists. split; [reflexivity|]. rewrite dict_or_empty_default.
  destruct (py_truthy (MilvusVecDBItem.memory m));
    destruct (py_truthy (MilvusVecDBItem.original_text m)).
  - split; [by rewrite lookup_insert_ne, lookup_insert_eq|].
    split; [by rewrite lookup_insert_eq|].
    intros k H1 H2. by rewrite !lookup_insert_ne.
  - split; [by rewrite lookup_insert_eq|]. split; [by rewrite lookup_insert_ne|].
    intros k H1 H2. by rewrite lookup_insert_ne.
  - split; [by rewrite lookup_insert_ne|]. split; [by rewrite lookup_insert_eq|].
    intros k H1 H2. by rewrite lookup_insert_ne.
  - done.
Qed.

Lemma prepare_not_milvus (item : AnyItem) : is_milvus (_prepare_for_qdrant item) = false.
Proof. by destruct item. Qed.

Section WriteExtras.
Import QdrantMultiCollectionVecDB.

(** X4. For a known collection, [add], [upsert] and [update] make one
    call on the addressed instance with every item passed through
    [_prepare_for_qdrant], and [delete] one call with the ids as given.
    What reaches the instance is never a [MilvusVecDBItem]: a
    [VecDBItem] or a dictionary goes through unchanged, and preparing an
    item twice is preparing it once. *)
Theorem writes_send_prepared_items {W : Type} (hd : Handler RouterReply W)
    (self : t) (name : string) (inst : Handle) (w : W) :
  OrdDict.get name (_instances self) = Some inst →
  (∀ data, run hd (add self name data) w =
           run_invoke hd inst (q_add (map _prepare_for_qdrant data)) id w)
  ∧ (∀ data, run hd (upsert self name data) w =
             run_invoke hd inst (q_upsert (map _prepare_for_qdrant data)) id w)
  ∧ (∀ i data, run hd (update self name i data) w =
               run_invoke hd inst (q_update i (_prepare_for_qdrant data)) id w)
  ∧ (∀ ids, run hd (delete self name ids) w = run_invoke hd inst (q_delete ids) id w)
  ∧ (∀ data, Forall (λ item, is_milvus item = false) (map _prepare_for_qdrant data))
  ∧ (∀ item, is_milvus item = false → _prepare_for_qdrant item = item)
  ∧ (∀ item, _prepare_for_qdrant (_prepare_for_qdrant item) = _prepare_for_qdrant item).
Proof.
  intros Hknown.
  split; [intros data; unfold add; rewrite (get_known self name inst Hknown);
          exact (run_invoke_id hd inst (q_add (map _prepare_for_qdrant data)) w)|].
  split; [intros data; unfold upsert; rewrite (get_known self name inst Hknown);
          exact (run_invoke_id hd inst (q_upsert (map _prepare_for_qdrant data)) w)|].
  split; [intros i data; unfold update; rewrite (get_known self name inst Hknown);
          exact (run_invoke_id hd inst (q_update i (_prepare_for_qdrant data)) w)|].
  split; [intros ids; unfold delete; rewrite (get_known self name inst Hknown);
          exact (run_invoke_id hd inst (q_delete ids) w)|].
  split; [intros data; apply Forall_map, Forall_forall; intros item _;
          apply prepare_not_milvus|].
  split; [by intros [] |]. by intros [].
Qed.

Lemma writes_send_prepared_items_witness :
  OrdDict.get "explicit_preference" (_instances Sample.router) = Some 0%nat
  ∧ run RefBackend.handler
      (add Sample.router "explicit_preference" [ItemMilvus Sample2.stale]) Sample.world
    = run_invoke RefBackend.handler 0%nat
        (q_add (map _prepare_for_qdrant [ItemMilvus Sample2.stale])) id Sample.world.
Proof.
  pose proof (writes_send_prepared_items RefBackend.handler Sample.router
                "explicit_preference" 0%nat Sample.world eq_refl) as (Hadd & _).
  split; [reflexivity|apply Hadd].
Defined.
End WriteExtras.

(** X5. Reading a record and writing the item back keeps what a caller
    sees of it: whatever the record's payload, the item obtained from the
    written-back record has the same [id], [vector], [score], [memory]
    and [original_text] as the item first read, and the payload written
    back differs from the record's only, if at all, under the keys
    [memory] and [original_text]. *)
Theorem read_then_write_keeps_canonical_view (r : VecDBItem.t) :
  ∃ v : VecDBItem.t,
    _prepare_for_qdrant (ItemMilvus (_to_milvus_item r)) = ItemVec v
    ∧ MilvusVecDBItem.id (_to_milvus_item v) = MilvusVecDBItem.id (_to_milvus_item r)
    ∧ MilvusVecDBItem.vector (_to_milvus_item v) = MilvusVecDBItem.vector (_to_milvus_item r)
    ∧ MilvusVecDBItem.score (_to_milvus_item v) = MilvusVecDBItem.score (_to_milvus_item r)
    ∧ MilvusVecDBItem.memory (_to_milvus_item v) = MilvusVecDBItem.memory (_to_milvus_item r)
    ∧ MilvusVecDBItem.original_text (_to_milvus_item v)
      = MilvusVecDBItem.original_text (_to_milvus_item r)
    ∧ ∀ k, k ≠ "memory" → k ≠ "original_text" →
        default ∅ (VecDBItem.payload v) !! k = default ∅ (VecDBItem.payload r) !! k.
Proof.
  destruct (prepare_payload (_to_milvus_item r)) as (pv & Hprep & Hmem & Htxt & Hother).
  eexists. split; [exact Hprep|].
  set (p := default ∅ (VecDBItem.payload r)).
  assert (Hp : default ∅ (MilvusVecDBItem.payload (_to_milvus_item r)) = p).
  { unfold _to_milvus_item. simpl. by rewrite dict_or_empty_default. }
  rewrite Hp in Hmem, Htxt, Hother.
  assert (Hm : MilvusVecDBItem.memory (_to_milvus_item r) =
               dict_get_default p "memory" (dict_get_default p "preference" (PStr EmptyString))).
  { unfold _to_milvus_item. simpl. by rewrite dict_or_empty_default. }
  assert (Ht : MilvusVecDBItem.original_text (_to_milvus_item r) =
               dict_get_default p "original_text" (PStr EmptyString)).
  { unfold _to_milvus_item. simpl. by rewrite dict_or_empty_default. }
  split; [done|]. split; [done|]. split; [done|].
  split; [|split; [|exact Hother]].
  - unfold _to_milvus_item at 1. cbn [MilvusVecDBItem.memory VecDBItem.payload].
    rewrite dict_or_empty_default. change (default ∅ (Some pv)) with pv.
    unfold dict_get_default at 1 2.
    rewrite Hmem, (Hother "preference") by done.
    destruct (py_truthy (MilvusVecDBItem.memory (_to_milvus_item r))); [done|].
    by rewrite Hm.
  - unfold _to_milvus_item at 1.
    cbn [MilvusVecDBItem.original_text VecDBItem.payload].
    rewrite dict_or_empty_default. change (default ∅ (Some pv)) with pv.
    unfold dict_get_default at 1. rewrite Htxt.
    destruct (py_truthy (MilvusVecDBItem.original_text (_to_milvus_item r))); [done|].
    by rewrite Ht.
Qed.

(** X6. An item whose own [memory] is falsy (the empty string, [None])
    does not clear the stored text: the payload written keeps its
    [memory] entry, so the item read back shows what the payload alone
    says, its [memory] entry, else its [preference] entry, else the empty
    string. *)
Theorem falsy_memory_is_not_written (m : MilvusVecDBItem.t) :
  py_truthy (MilvusVecDBItem.memory m) = false →
  ∃ v : VecDBItem.t,
    _prepare_for_qdrant (ItemMilvus m) = ItemVec v
    ∧ default ∅ (VecDBItem.payload v) !! "memory"
      = default ∅ (MilvusVecDBItem.payload m) !! "memory"
    ∧ MilvusVecDBItem.memory (_to_milvus_item v)
      = dict_get_default (default ∅ (MilvusVecDBItem.payload m)) "memory"
          (dict_get_default (default ∅ (MilvusVecDBItem.payload m)) "preference"
             (PStr EmptyString)).
Proof.
  intros Hfalsy.
  destruct (prepare_payload m) as (pv & Hprep & Hmem & _ & Hother).
  rewrite Hfalsy in Hmem.
  eexists. split; [exact Hprep|]. split; [exact Hmem|].
  unfold _to_milvus_item. cbn [MilvusVecDBItem.memory VecDBItem.payload].
  rewrite dict_or_empty_default. change (default ∅ (Some pv)) with pv.
  unfold dict_get_default.
  by rewrite Hmem, (Hother "preference").
Qed.

Lemma falsy_memory_is_not_written_witness :
  ∃ v : VecDBItem.t,
    _prepare_for_qdrant (ItemMilvus Sample2.stale) = ItemVec v
    ∧ default ∅ (VecDBItem.payload v) !! "memory" = Some (PStr "old text")
    ∧ MilvusVecDBItem.memory (_to_milvus_item v) = PStr "old text".
Proof.
  destruct (falsy_memory_is_not_written Sample2.stale eq_refl) as (v & Hv & Hp & Hm).
  exists v. split; [exact Hv|]. split; [exact Hp|exact Hm].
Defined.

(** X7. When a filter has an ["and"] list, only that list counts: the
    other top-level keys of the filter are dropped without a word, and
    the flattening is that of the ["and"] list alone. *)
Theorem flatten_ignores_keys_beside_and (f : PyDict) (cs : list PyVal) :
  f !! "and" = Some (PList cs) →
  _flatten_milvus_filter (Some f) = _flatten_milvus_filter (Some {[ "and" := PList cs ]})
  ∧ ∀ flat k, _flatten_milvus_filter (Some f) = Some flat →
      is_Some (flat !! k) → ∃ (i : nat) (d : PyDict), cs !! i = Some (PDict d) ∧ is_Some (d !! k).
Proof.
  intros Hf. split.
  - rewrite (flatten_and f cs Hf). symmetry. apply flatten_and, lookup_singleton_eq.
  - intros flat k Hflat [v Hv]. rewrite (flatten_and f cs Hf) in Hflat.
    destruct (dict_truthy (merge_clauses cs)); [|done]. injection Hflat as <-.
    apply merge_clauses_lookup in Hv as (i & d & Hi & Hd & _). by exists i, d.
Qed.

Lemma flatten_ignores_keys_beside_and_witness :
  _flatten_milvus_filter (Some Sample2.and_with_sibling) = Some {[ "kind" := PStr "a" ]}.
Proof.
  destruct (flatten_ignores_keys_beside_and Sample2.and_with_sibling
              [PDict {[ "kind" := PStr "a" ]}] eq_refl) as [Heq _].
  rewrite Heq. vm_compute. reflexivity.
Defined.

(** ** The SearXNG client *)

Lemma string_of_list_of_string (s : string) : string_of_list (list_ascii_of_string s) = s.
Proof. induction s as [|c s IH]; simpl; [done|]. by rewrite IH. Qed.

Lemma list_of_string_of_list (l : list ascii) : list_ascii_of_string (string_of_list l) = l.
Proof. induction l as [|c l IH]; simpl; [done|]. by rewrite IH. Qed.

Lemma string_of_list_app (a b : list ascii) :
  string_of_list (a ++ b) = string_of_list a +:+ string_of_list b.
Proof. induction a as [|c a IH]; simpl; [done|]. by rewrite IH. Qed.

Lemma drop_leading_split (c : ascii) (l : list ascii) :
  ∃ n : nat, l = (repeat c n ++ drop_leading c l)%list.
Proof.
  induction l as [|x l [n IH]]; simpl.
  - by exists 0%nat.
  - destruct (Ascii.eqb x c) eqn:Hx.
    + apply Ascii.eqb_eq in Hx as ->. exists (S n). simpl. by rewrite <- IH.
    + by exists 0%nat.
Qed.

Lemma drop_leading_head (c : ascii) (l rest : list ascii) :
  drop_leading c l ≠ c :: rest.
Proof.
  induction l as [|x l IH]; simpl; [done|].
  destruct (Ascii.eqb x c) eqn:Hx; [done|].
  apply Ascii.eqb_neq in Hx. congruence.
Qed.

Lemma drop_leading_fixed (c : ascii) (l : list ascii) :
  drop_leading c (drop_leading c l) = drop_leading c l.
Proof.
  induction l as [|x l IH]; simpl; [done|].
  destruct (Ascii.eqb x c) eqn:Hx; [done|]. simpl. by rewrite Hx.
Qed.

Lemma repeat_rev {A} (x : A) (n : nat) : rev (repeat x n) = repeat x n.
Proof.
  induction n as [|n IH]; simpl; [done|]. rewrite IH.
  clear IH. induction n as [|n IH]; simpl; [done|]. by rewrite IH.
Qed.

(** X8. The client keeps its base URL without trailing slashes: the URL
    given is the one kept followed by slashes only, the one kept does not
    end in a slash, and normalising it again changes nothing; so the
    request goes to [<kept>/search] with a single slash. *)
Theorem api_base_url_has_no_trailing_slash (url : string) (n : Z) :
  let api := SearxngSearchAPI.__init__ url n in
  (∃ k : nat, url = SearxngSearchAPI.base_url api +:+ string_of_list (repeat "/"%char k))
  ∧ (∀ s : string, SearxngSearchAPI.base_url api ≠ s +:+ "/")
  ∧ SearxngSearchAPI.__init__ (SearxngSearchAPI.base_url api) n = api
  ∧ SearxngSearchAPI.max_results api = n.
Proof.
  unfold SearxngSearchAPI.__init__, rstrip_slash. cbn [SearxngSearchAPI.base_url
    SearxngSearchAPI.max_results].
  set (l := list_ascii_of_string url).
  destruct (drop_leading_split "/"%char (rev l)) as [k Hk].
  split; [|split; [|split; [|done]]].
  - exists k. rewrite <- string_of_list_app, <- (repeat_rev "/"%char k), <- rev_app_distr, <- Hk.
    subst l. by rewrite rev_involutive, string_of_list_of_string.
  - intros s Hs. apply (f_equal list_ascii_of_string) in Hs.
    rewrite list_of_string_of_list in Hs.
    assert (Hs' : list_ascii_of_string (s +:+ "/") = (list_ascii_of_string s ++ ["/"%char])%list).
    { clear. induction s as [|c s IH]; simpl; [done|]. by rewrite IH. }
    rewrite Hs' in Hs. apply (f_equal (@rev ascii)) in Hs.
    rewrite rev_involutive, rev_app_distr in Hs. simpl in Hs.
    by apply drop_leading_head in Hs.
  - f_equal. rewrite list_of_string_of_list, rev_involutive, drop_leading_fixed. done.
Qed.

Lemma slice_to_prefix {A} (n : Z) (l : list A) : slice_to n l `prefix_of` l.
Proof. unfold slice_to. destruct (Z.ltb n 0); apply prefix_take. Qed.

Lemma slice_to_length {A} (n : Z) (l : list A) :
  (0 ≤ n)%Z → length (slice_to n l) = Nat.min (Z.to_nat n) (length l).
Proof.
  intros Hn. unfold slice_to.
  destruct (Z.ltb n 0) eqn:Hlt; [apply Z.ltb_lt in Hlt; lia|]. apply length_take.
Qed.

Lemma slice_to_negative_length {A} (n : Z) (l : list A) :
  (n < 0)%Z → length (slice_to n l) = (length l - Z.to_nat (- n))%nat.
Proof.
  intros Hn. unfold slice_to.
  destruct (Z.ltb n 0) eqn:Hlt; [|apply Z.ltb_ge in Hlt; lia].
  rewrite length_take. lia.
Qed.

Section SearchExtras.
Context {W : Type} (hd : Handler WebReply W).

(** X9. A request that fails with a [RequestException] does not fail the
    search: after the one request, one error line with the exception's
    text is logged and the search returns the empty list. *)
Theorem search_request_failure_gives_empty (api : SearxngSearchAPI.t) (query : string)
    (mr : option Z) (w w1 : W) (e : string) :
  hd (search_request api query) w = (Ok (RequestFailed e), w1) →
  run hd (SearxngSearchAPI.search api query mr) w =
    match hd (ev_log_error ("SearXNG search request failed: " +:+ e)) w1 with
    | (Ok u, w2) =>
        ([obs (search_request api query) (Ok (RequestFailed e));
          obs (ev_log_error ("SearXNG search request failed: " +:+ e)) (Ok u)],
         Ok (PList []), w2)
    | (Err ex, w2) =>
        ([obs (search_request api query) (Ok (RequestFailed e));
          obs (ev_log_error ("SearXNG search request failed: " +:+ e)) (Err ex)],
         Err ex, w2)
    end.
Proof.
  intros Hreq. unfold SearxngSearchAPI.search, search_request in *. simpl.
  rewrite Hreq. simpl. by destruct (hd (ev_log_error _) w1) as [[[]|ex] w2].
Qed.

(** X10. When the body of the reply is a JSON object, the search makes
    that one request and returns [results[:max_results]], with the
    client's own [max_results] where the caller gives none: a prefix of
    the reported results, [min max_results (len results)] of them for a
    non-negative bound, all but the last [-max_results] for a negative
    one, and the empty list when the object has no [results] entry. *)
Theorem search_returns_bounded_prefix (api : SearxngSearchAPI.t) (query : string)
    (mr : option Z) (w w1 : W) (d : PyDict) :
  hd (search_request api query) w = (Ok (JsonBody (PDict d)), w1) →
  let n := default (SearxngSearchAPI.max_results api) mr in
  (d !! "results" = None →
     run hd (SearxngSearchAPI.search api query mr) w
     = ([obs (search_request api query) (Ok (JsonBody (PDict d)))], Ok (PList []), w1))
  ∧ (∀ l : list PyVal, d !! "results" = Some (PList l) →
       run hd (SearxngSearchAPI.search api query mr) w
       = ([obs (search_request api query) (Ok (JsonBody (PDict d)))],
          Ok (PList (slice_to n l)), w1)
       ∧ slice_to n l `prefix_of` l
       ∧ ((0 ≤ n)%Z → length (slice_to n l) = Nat.min (Z.to_nat n) (length l))
       ∧ ((n < 0)%Z → length (slice_to n l) = (length l - Z.to_nat (- n))%nat)).
Proof.
  intros Hreq n. split.
  - intros Hnone. unfold SearxngSearchAPI.search, search_request in *. simpl.
    rewrite Hreq. simpl. unfold dict_get_default. rewrite Hnone. simpl.
    unfold slice_to. destruct (Z.ltb _ 0); by rewrite take_nil.
  - intros l Hl. split; [|split; [apply slice_to_prefix|split;
      [apply slice_to_length|apply slice_to_negative_length]]].
    unfold SearxngSearchAPI.search, search_request in *. simpl.
    rewrite Hreq. simpl. unfold dict_get_default. by rewrite Hl.
Qed.
End SearchExtras.

Lemma search_request_failure_gives_empty_witness :
  run (λ ev (n : nat),
         match ev return Result (WebReply ev) * nat with
         | ev_http_get _ _ _ => (Ok (RequestFailed "timed out"), n)
         | other => Sample.web other n
         end)
      (SearxngSearchAPI.search (SearxngSearchAPI.__init__ "http://searxng:8080/" 20) "tea" None)
      0%nat
  = ([obs (ev_http_get "http://searxng:8080/search"
             [("q", "tea"); ("format", "json"); ("categories", "general")] 10)
          (Ok (RequestFailed "timed out"));
      obs (ev_log_error "SearXNG search request failed: timed out") (Ok ())],
     Ok (PList []), 0%nat).
Proof.
  exact (search_request_failure_gives_empty _
           (SearxngSearchAPI.__init__ "http://searxng:8080/" 20) "tea" None
           0%nat 0%nat "timed out" eq_refl).
Defined.

Lemma search_returns_bounded_prefix_witness :
  run Sample.web
    (SearxngSearchAPI.search (SearxngSearchAPI.__init__ "http://searxng:8080/" 20) "tea" (Some 1))
    0%nat
  = ([obs (ev_http_get "http://searxng:8080/search"
             [("q", "tea"); ("format", "json"); ("categories", "general")] 10)
          (Ok (JsonBody Sample.body))],
     Ok (PList [PDict (Sample.hit "Tea" "About tea" "http://t.example")]), 0%nat).
Proof.
  pose proof (search_returns_bounded_prefix Sample.web
                (SearxngSearchAPI.__init__ "http://searxng:8080/" 20) "tea" (Some 1)
                0%nat 0%nat {[ "results" := PList (map PDict Sample.hits) ]} eq_refl)
    as [_ Hsome].
  destruct (Hsome (map PDict Sample.hits) eq_refl) as [Hrun _].
  exact Hrun.
Defined.

(** ** The retriever *)

Section RetrieveExtras.
Import SearxngSearchRetriever.
Variable py_str : PyVal → string.
Context {W : Type} (hd : Handler WebReply W).

Lemma items_of_shape (uid sid : PyVal) (ns ni : string) (pairs : list (Entry * list float)) :
  ∀ (w w' : W) tr items,
    run hd (items_of uid sid ns ni pairs) w = (tr, Ok items, w') →
    tr = map (λ it, obs ev_uuid4 (Ok (TextualMemoryItem.id it))) items
    ∧ Forall2 (λ p it, TextualMemoryItem.memory it = content p.1
                       ∧ TextualMemoryItem.metadata it = metadata_of uid sid ns ni p.1 p.2)
        pairs items.
Proof.
  induction pairs as [|[entry emb] pairs IH]; intros w w' tr items Hrun.
  - simpl in Hrun. injection Hrun as <- <- _. split; [done|constructor].
  - cbn [items_of] in Hrun. rewrite run_bind in Hrun. unfold uuid4_str in Hrun.
    cbn [run] in Hrun.
    destruct (hd ev_uuid4 w) as [[uid0|ex] w1]; cbn beta iota in Hrun; [|done].
    rewrite run_bind in Hrun.
    destruct (run hd (items_of uid sid ns ni pairs) w1) as [[tr2 [items2|ex]] w2] eqn:Hrest;
      cbn beta iota in Hrun; [|done].
    cbn [run] in Hrun. injection Hrun as <- <- _.
    destruct (IH _ _ _ _ Hrest) as [-> Hall].
    split; [by rewrite app_nil_r|]. constructor; [done|exact Hall].
Qed.

Lemma retrieve_shape (self : t) (query : string) (top_k : Z)
    (parsed_goal : option ParsedGoal) (info : option PyDict) (mode : string)
    (w w1 w' : W) (tr1 tr : list (Obs WebReply)) (rs : list PyDict)
    (items : list TextualMemoryItem.t) :
  run hd (SearxngSearchAPI.search (searxng_api self) query (Some top_k)) w
    = (tr1, Ok (PList (map PDict rs)), w1) →
  rs ≠ [] →
  run hd (retrieve_from_internet py_str self query top_k parsed_goal info mode) w
    = (tr, Ok items, w') →
  ∃ (embs : list (list float)) (now1 now2 : DateTime),
    tr = (tr1 ++ [obs (ev_embed (map (λ r, content (entry_of py_str parsed_goal r)) rs)) (Ok embs);
                  obs ev_now (Ok now1); obs ev_now (Ok now2)]
              ++ map (λ it, obs ev_uuid4 (Ok (TextualMemoryItem.id it))) items)%list
    ∧ Forall2 (λ p it,
         TextualMemoryItem.memory it = content p.1
         ∧ TextualMemoryItem.metadata it =
             metadata_of
               (dict_get_default (effective_info info) "user_id" (PStr EmptyString))
               (dict_get_default (effective_info info) "session_id" (PStr EmptyString))
               (strftime_ymd now1) (isoformat now2) p.1 p.2)
        (zip (map (entry_of py_str parsed_goal) rs) embs) items.
Proof.
  intros Hsearch Hne Hrun.
  unfold retrieve_from_internet in Hrun. rewrite run_bind, Hsearch in Hrun.
  fold (effective_info info) in Hrun. unfold after_search in Hrun.
  assert (Htruthy : py_truthy (PList (map PDict rs)) = true) by (by destruct rs).
  rewrite Htruthy in Hrun. cbn [negb entries_of] in Hrun.
  rewrite entries_of_dicts, map_map in Hrun.
  unfold embed in Hrun. rewrite run_bind in Hrun. cbn [run] in Hrun.
  destruct (hd (ev_embed _) w1) as [[embs|ex] w2]; cbn beta iota in Hrun; [|done].
  unfold datetime_now in Hrun. rewrite run_bind in Hrun. cbn [run] in Hrun.
  destruct (hd ev_now w2) as [[now1|ex] w3]; cbn beta iota in Hrun; [|done].
  rewrite run_bind in Hrun. cbn [run] in Hrun.
  destruct (hd ev_now w3) as [[now2|ex] w4]; cbn beta iota in Hrun; [|done].
  destruct (run hd (items_of _ _ _ _ _) w4) as [[tr4 [items4|ex]] w5] eqn:Hitems;
    cbn beta iota in Hrun; [|done].
  injection Hrun as <- <- _.
  destruct (items_of_shape _ _ _ _ _ _ _ _ _ Hitems) as [-> Hall].
  exists embs, now1, now2. split; [|exact Hall].
  reflexivity.
Qed.

(** X11. When the search finds nothing, or is cut short, nothing else
    happens: [retrieve_from_internet] returns the empty list, or the
    search's exception, having made the calls of the search and no other,
    so neither the embedder nor the clock nor the UUID generator is
    used. *)
Theorem nothing_found_calls_nothing (self : t) (query : string) (top_k : Z)
    (parsed_goal : option ParsedGoal) (info : option PyDict) (mode : string) (w : W) :
  let found := run hd (SearxngSearchAPI.search (searxng_api self) query (Some top_k)) w in
  let out := run hd (retrieve_from_internet py_str self query top_k parsed_goal info mode) w in
  (∀ v, found.1.2 = Ok v → py_truthy v = false → out = (found.1.1, Ok [], found.2))
  ∧ (∀ e, found.1.2 = Err e → out = (found.1.1, Err e, found.2)).
Proof.
  cbn zeta. unfold retrieve_from_internet. rewrite run_bind.
  destruct (run hd (SearxngSearchAPI.search _ _ _) w) as [[tr1 [v|e]] w1]; cbn [fst snd].
  - split; [|done]. intros v' [= <-] Hfalsy. unfold after_search. rewrite Hfalsy.
    simpl. by rewrite app_nil_r.
  - split; [done|]. by intros e' [= <-].
Qed.

(** X12. After a search that returned a non-empty list of result
    dictionaries, a call that returns has made, in this order, one
    embedder call, two clock readings and one UUID draw per returned
    item, whose reply is that item's [id]; the items are as many as the
    shorter of the results and the embedder's vectors, so results beyond
    the vectors returned are dropped without a word. *)
Theorem retrieve_calls_and_item_count (self : t) (query : string) (top_k : Z)
    (parsed_goal : option ParsedGoal) (info : option PyDict) (mode : string)
    (w w1 w' : W) (tr1 tr : list (Obs WebReply)) (rs : list PyDict)
    (items : list TextualMemoryItem.t) :
  run hd (SearxngSearchAPI.search (searxng_api self) query (Some top_k)) w
    = (tr1, Ok (PList (map PDict rs)), w1) →
  rs ≠ [] →
  run hd (retrieve_from_internet py_str self query top_k parsed_goal info mode) w
    = (tr, Ok items, w') →
  ∃ (embs : list (list float)) (now1 now2 : DateTime),
    tr = (tr1 ++ [obs (ev_embed (map (λ r, content (entry_of py_str parsed_goal r)) rs)) (Ok embs);
                  obs ev_now (Ok now1); obs ev_now (Ok now2)]
              ++ map (λ it, obs ev_uuid4 (Ok (TextualMemoryItem.id it))) items)%list
    ∧ length items = Nat.min (length rs) (length embs).
Proof.
  intros Hsearch Hne Hrun.
  destruct (retrieve_shape self query top_k parsed_goal info mode w w1 w' tr1 tr rs items
              Hsearch Hne Hrun) as (embs & now1 & now2 & Htr & Hall).
  exists embs, now1, now2. split; [exact Htr|].
  apply Forall2_length in Hall. rewrite <- Hall, length_zip, length_map. done.
Qed.

(** X13. Every item of one call is stamped alike: [memory_time] is the
    day of the first clock reading and [created_at] the ISO text of the
    second, [user_id] and [session_id] are those of [info] (the empty
    string for a key [info] lacks, and for both when [info] is missing or
    empty), the status is [activated], the memory type [LongTermMemory],
    the source [web]; [key] is the result's title, the tags begin with
    [web_search] and are the same for all items, and [sources] names the
    result's URL exactly when that URL is truthy. *)
Theorem retrieved_items_metadata (self : t) (query : string) (top_k : Z)
    (parsed_goal : option ParsedGoal) (info : option PyDict) (mode : string)
    (w w1 w' : W) (tr1 tr : list (Obs WebReply)) (rs : list PyDict)
    (items : list TextualMemoryItem.t) :
  run hd (SearxngSearchAPI.search (searxng_api self) query (Some top_k)) w
    = (tr1, Ok (PList (map PDict rs)), w1) →
  rs ≠ [] →
  run hd (retrieve_from_internet py_str self query top_k parsed_goal info mode) w
    = (tr, Ok items, w') →
  ∃ now1 now2 : DateTime,
    List.filter is_now tr = (List.filter is_now tr1 ++ [obs ev_now (Ok now1); obs ev_now (Ok now2)])%list
    ∧ (∃ rest, goal_tags parsed_goal = PStr "web_search" :: rest)
    ∧ ∀ (i : nat) it, items !! i = Some it →
        ∃ r, rs !! i = Some r
          ∧ let md := TextualMemoryItem.metadata it in
            TreeNodeTextualMemoryMetadata.memory_time md = strftime_ymd now1
            ∧ TreeNodeTextualMemoryMetadata.created_at md = isoformat now2
            ∧ TreeNodeTextualMemoryMetadata.user_id md
              = dict_get_default (effective_info info) "user_id" (PStr EmptyString)
            ∧ TreeNodeTextualMemoryMetadata.session_id md
              = dict_get_default (effective_info info) "session_id" (PStr EmptyString)
            ∧ TreeNodeTextualMemoryMetadata.status md = "activated"
            ∧ TreeNodeTextualMemoryMetadata.memory_type md = "LongTermMemory"
            ∧ TreeNodeTextualMemoryMetadata.source md = "web"
            ∧ TreeNodeTextualMemoryMetadata.key md
              = dict_get_default r "title" (PStr EmptyString)
            ∧ TreeNodeTextualMemoryMetadata.tags md = goal_tags parsed_goal
            ∧ TreeNodeTextualMemoryMetadata.sources md
              = (if py_truthy (dict_get_default r "url" (PStr EmptyString))
                 then [{| sm_type := "web";
                          sm_url := dict_get_default r "url" (PStr EmptyString) |}]
                 else []).
Proof.
  intros Hsearch Hne Hrun.
  destruct (retrieve_shape self query top_k parsed_goal info mode w w1 w' tr1 tr rs items
              Hsearch Hne Hrun) as (embs & now1 & now2 & Htr & Hall).
  exists now1, now2. split; [|split].
  - rewrite Htr, !List.filter_app. cbn [List.filter is_now obs_event].
    assert (Hu : List.filter is_now
                   (map (λ it, obs (Reply:=WebReply) ev_uuid4 (Ok (TextualMemoryItem.id it))) items)
                 = []).
    { clear. induction items as [|it items IH]; simpl; [done|exact IH]. }
    rewrite Hu. by rewrite app_nil_r.
  - unfold goal_tags. destruct parsed_goal as [[[t|] [c|]]|]; simpl;
      repeat (destruct (py_truthy _)); simpl; eauto.
  - intros i it Hi.
    destruct (Forall2_lookup_r _ _ _ _ _ Hall Hi) as ([entry emb] & Hp & _ & Hmd).
    apply lookup_zip_with_Some in Hp as (entry' & emb' & [= <- <-] & Hentry & _).
    rewrite list_lookup_fmap in Hentry.
    destruct (rs !! i) as [r|] eqn:Hr; [|done]. injection Hentry as <-.
    exists r. split; [done|]. cbn zeta. rewrite Hmd. simpl. done.
Qed.
End RetrieveExtras.

Section RetrieveExtrasWitnesses.
Import SearxngSearchRetriever.

Lemma sample_retrieve_runs :
  ∃ tr1 w1 tr items w',
    run Sample.web
      (SearxngSearchAPI.search (searxng_api Sample.retriever) "tea" (Some 10)) 0%nat
    = (tr1, Ok (PList (map PDict Sample.hits)), w1)
    ∧ run Sample.web
        (retrieve_from_internet Sample.str_of Sample.retriever "tea" 10 None None "fast") 0%nat
      = (tr, Ok items, w').
Proof.
  eexists _, _, _, _, _. split; vm_compute; reflexivity.
Defined.

Lemma retrieve_calls_and_item_count_witness :
  ∃ tr1 tr items (embs : list (list float)) (now1 now2 : DateTime),
    (run Sample.web
       (retrieve_from_internet Sample.str_of Sample.retriever "tea" 10 None None "fast")
       0%nat).1.1 = tr
    ∧ tr = (tr1 ++ [obs (ev_embed (map (λ r, content (entry_of Sample.str_of None r))
                                        Sample.hits)) (Ok embs);
                    obs ev_now (Ok now1); obs ev_now (Ok now2)]
                ++ map (λ it, obs ev_uuid4 (Ok (TextualMemoryItem.id it))) items)%list
    ∧ length items = Nat.min (length Sample.hits) (length embs).
Proof.
  destruct sample_retrieve_runs as (tr1 & w1 & tr & items & w' & Hsearch & Hrun).
  destruct (retrieve_calls_and_item_count Sample.str_of Sample.web Sample.retriever "tea" 10
              None None "fast" 0%nat w1 w' tr1 tr Sample.hits items Hsearch
              ltac:(discriminate) Hrun) as (embs & now1 & now2 & Htr & Hlen).
  exists tr1, tr, items, embs, now1, now2.
  split; [by rewrite Hrun|]. split; [exact Htr|exact Hlen].
Defined.

Lemma retrieved_items_metadata_witness :
  ∃ items (now1 now2 : DateTime),
    (run Sample.web
       (retrieve_from_internet Sample.str_of Sample.retriever "tea" 10 None None "fast")
       0%nat).1.2 = Ok items
    ∧ ∀ (i : nat) it, items !! i = Some it →
        ∃ r, Sample.hits !! i = Some r
          ∧ TreeNodeTextualMemoryMetadata.memory_time (TextualMemoryItem.metadata it)
            = strftime_ymd now1
          ∧ TreeNodeTextualMemoryMetadata.created_at (TextualMemoryItem.metadata it)
            = isoformat now2
          ∧ TreeNodeTextualMemoryMetadata.user_id (TextualMemoryItem.metadata it)
            = PStr EmptyString
          ∧ TreeNodeTextualMemoryMetadata.key (TextualMemoryItem.metadata it)
            = dict_get_default r "title" (PStr EmptyString).
Proof.
  destruct sample_retrieve_runs as (tr1 & w1 & tr & items & w' & Hsearch & Hrun).
  destruct (retrieved_items_metadata Sample.str_of Sample.web Sample.retriever "tea" 10
              None None "fast" 0%nat w1 w' tr1 tr Sample.hits items Hsearch
              ltac:(discriminate) Hrun) as (now1 & now2 & _ & _ & Hmd).
  exists items, now1, now2. split; [by rewrite Hrun|].
  intros i it Hi. destruct (Hmd i it Hi) as (r & Hr & Ht & Hc & Hu & _ & _ & _ & _ & Hk & _).
  exists r. split; [exact Hr|]. split; [exact Ht|]. split; [exact Hc|].
  split; [exact Hu|exact Hk].
Defined.
End RetrieveExtrasWitnesses.
(** ** Extras: the schema methods of [SchemaMixin] *)

Section PoolFree.
Context {W : Type}.
Implicit Types hd : Handler DbReply W.

Lemma pool_free_ret {A} (a : A) : pool_free (W:=W) (x_ret a).
Proof. intros hd l w. split; [constructor|done]. Qed.

Lemma pool_free_raise {A} (e : PyExn) : pool_free (W:=W) (A:=A) (x_raise e).
Proof. intros hd l w. split; [constructor|done]. Qed.

Lemma pool_free_call (ev : DbEvent) :
  is_pool_call (obs ev (Err TypeError)) = false → pool_free (W:=W) (x_call ev).
Proof.
  intros Hev hd l w. unfold x_call. destruct (hd ev w) as [r w1].
  split; [|done]. repeat constructor. exact Hev.
Qed.

Lemma pool_free_bind {A B} (m : Exec DbReply W (option nat) A)
    (f : A → Exec DbReply W (option nat) B) :
  pool_free m → (∀ a, pool_free (f a)) → pool_free (x_bind m f).
Proof.
  intros Hm Hf hd l w. unfold x_bind. destruct (Hm hd l w) as [Ht Hl].
  destruct (m hd l w) as [[[tr [a|e]] l1] w1]; [|done].
  unfold x_trace, x_local in Ht, Hl. simpl in Ht, Hl. subst l1.
  destruct (Hf a hd l w1) as [Ht2 Hl2].
  destruct (f a hd l w1) as [[[tr2 r2] l2] w2].
  unfold x_trace, x_local in *. simpl in *. split; [|done].
  apply Forall_app. done.
Qed.

Lemma pool_free_catch {A} (m : Exec DbReply W (option nat) A) :
  pool_free m → pool_free (x_catch m).
Proof.
  intros Hm hd l w. unfold x_catch. destruct (Hm hd l w) as [Ht Hl].
  destruct (m hd l w) as [[[tr r] l1] w1]. done.
Qed.

Lemma pool_free_try {A} (body : Exec DbReply W (option nat) A) handler :
  pool_free body → (∀ e, pool_free (handler e)) → pool_free (x_try body handler).
Proof.
  intros Hb Hh. apply pool_free_bind; [by apply pool_free_catch|].
  intros [a|e]; [apply pool_free_ret|apply Hh].
Qed.

Lemma pool_free_with {M C} (open : Exec DbReply W (option nat) M) enter exit
    (body : C → Exec DbReply W (option nat) ()) :
  pool_free open → (∀ m, pool_free (enter m)) → (∀ m e, pool_free (exit m e)) →
  (∀ c, pool_free (body c)) → pool_free (x_with open enter exit body).
Proof.
  intros Ho He Hx Hb. apply pool_free_bind; [done|]. intros m.
  apply pool_free_bind; [done|]. intros c.
  apply pool_free_bind; [by apply pool_free_catch|].
  intros [a|e]; (apply pool_free_bind; [done|]).
  - intros _. apply pool_free_ret.
  - intros [|]; [apply pool_free_ret|apply pool_free_raise].
Qed.

Lemma pool_free_for_each {A} (body : A → Exec DbReply W (option nat) ()) xs :
  (∀ x, pool_free (body x)) → pool_free (SchemaMixin.x_for_each body xs).
Proof.
  intros Hb. induction xs as [|x xs IH]; simpl.
  - apply pool_free_ret.
  - apply pool_free_bind; [done|]. intros _. exact IH.
Qed.

(** A method of the shape
    [conn = None; try: conn = get(); body(conn) except: handler(e) finally: return(conn)]
    keeps the discipline of the pool, whatever its body and handler do
    short of calling the pool themselves. *)
Lemma pooled_discipline (body : nat → Exec DbReply W (option nat) ())
    (handler : PyExn → Exec DbReply W (option nat) ()) :
  (∀ conn, pool_free (body conn)) → (∀ e, pool_free (handler e)) →
  pool_discipline
    (x_bind (x_put None) (λ _,
       x_finally (x_try (x_bind SchemaMixin.get_conn body) handler) SchemaMixin.return_conn)).
Proof.
  intros Hb Hh hd l w.
  unfold x_finally, x_try, SchemaMixin.get_conn, SchemaMixin.return_conn, SchemaMixin.call,
    mbind, mret, Exec_bind, Exec_ret, x_bind, x_catch, x_put, x_get, x_call, x_ret, x_raise,
    x_trace.
  destruct (hd db_get_connection w) as [[conn|e] w1] eqn:Hget; cbn beta iota zeta;
    cbn [DbReply] in *.
  - destruct (Hb conn hd (Some conn) w1) as [Ht Hl].
    destruct (body conn hd (Some conn) w1) as [[[tr [[]|e]] l1] w2];
      unfold x_trace, x_local in Ht, Hl; simpl in Ht, Hl; subst l1; cbn beta iota zeta.
    + destruct (hd (db_return_connection (Some conn)) w2) as [[[]|e] w3]; simpl;
        eexists (Ok conn), tr, _; (split; [rewrite ?app_nil_r; reflexivity|done]).
    + destruct (Hh e hd (Some conn) w2) as [Ht2 Hl2].
      destruct (handler e hd (Some conn) w2) as [[[tr2 r2] l2] w3];
        unfold x_trace, x_local in Ht2, Hl2; simpl in Ht2, Hl2; subst l2.
      destruct r2 as [[]|e2]; cbn beta iota zeta;
        destruct (hd (db_return_connection (Some conn)) w3) as [[[]|e3] w4]; simpl;
        eexists (Ok conn), (tr ++ tr2)%list, _;
        (split; [rewrite ?app_nil_r, <- ?app_assoc; reflexivity|by apply Forall_app]).
  - destruct (Hh e hd None w1) as [Ht2 Hl2].
    destruct (handler e hd None w1) as [[[tr2 r2] l2] w3];
      unfold x_trace, x_local in Ht2, Hl2; simpl in Ht2, Hl2; subst l2.
    destruct r2 as [[]|e2]; cbn beta iota zeta;
      destruct (hd (db_return_connection None) w3) as [[[]|e3] w4]; simpl;
      eexists (Err e), tr2, _;
      (split; [rewrite ?app_nil_r, <- ?app_assoc; reflexivity|done]).
Qed.
End PoolFree.

Ltac x_methods :=
  unfold SchemaMixin._create_graph, SchemaMixin.create_index, SchemaMixin.create_extension,
    SchemaMixin.create_graph, SchemaMixin._ensure_database_exists,
    SchemaMixin.ensure_extension, SchemaMixin.with_cursor,
    SchemaMixin.execute, SchemaMixin.info, SchemaMixin.debug, SchemaMixin.warning,
    SchemaMixin.error, SchemaMixin.call, mbind, mret, Exec_bind, Exec_ret.

Ltac pool_free_tac :=
  repeat first
    [ match goal with |- ∀ _, _ => intro end
    | apply pool_free_ret
    | apply pool_free_raise
    | match goal with |- pool_free (x_call ?ev) => apply (pool_free_call ev); reflexivity end
    | apply pool_free_try
    | apply pool_free_with
    | apply pool_free_for_each
    | apply pool_free_bind
    | match goal with
      | |- pool_free (match ?x with _ => _ end) => destruct x
      | |- pool_free (let '(_, _) := ?x in _) => destruct x
      end ].

Section SchemaExtras.
Import SchemaMixin.
Context {W : Type}.
Variable exn_str : PyExn → string.
Variable py_str : PyVal → string.

(** X14. Each of the four methods that use the database asks the pool
    for a connection first thing and hands one back last thing, once
    each, whatever the calls in between answer or raise: the connection
    handed back is the one obtained, or [None] when [_get_connection]
    itself raised. *)
Theorem connection_is_always_returned (self : t) (label vector_property : string)
    (dimensions : Z) (index_name : string) :
  pool_discipline (W:=W) (_create_graph exn_str self)
  ∧ pool_discipline (W:=W) (create_index exn_str self label vector_property dimensions index_name)
  ∧ pool_discipline (W:=W) (create_extension exn_str py_str self)
  ∧ pool_discipline (W:=W) (create_graph exn_str self).
Proof.
  repeat split; x_methods; apply pooled_discipline; pool_free_tac.
Qed.
End SchemaExtras.

Section Swallow.
Context {W : Type}.
Implicit Types hd : Handler DbReply W.

Lemma log_result hd lvl msg exc_info (l : option nat) w :
  logger_ok hd →
  x_call (L:=option nat) (db_log lvl msg exc_info) hd l w
    = ([obs (db_log lvl msg exc_info) (Ok ())], Ok (), l, (hd (db_log lvl msg exc_info) w).2).
Proof.
  intros Hlog. unfold x_call. specialize (Hlog lvl msg exc_info w).
  destruct (hd (db_log lvl msg exc_info) w) as [r w1]. simpl in Hlog. by subst r.
Qed.

(** A method whose handler raises nothing raises nothing, when handing
    the connection back raises nothing. *)
Lemma swallowing (body : Exec DbReply W (option nat) ())
    (handler : PyExn → Exec DbReply W (option nat) ()) hd :
  return_ok hd →
  (∀ e l w, x_result (handler e hd l w) = Ok ()) →
  ∀ l w,
    x_result
      (x_bind (x_put None) (λ _, x_finally (x_try body handler) SchemaMixin.return_conn)
         hd l w) = Ok ().
Proof.
  intros Hret Hh l w.
  unfold x_finally, x_try, SchemaMixin.return_conn, SchemaMixin.call,
    mbind, mret, Exec_bind, Exec_ret, x_bind, x_catch, x_put, x_get, x_call, x_ret, x_raise,
    x_result.
  destruct (body hd None w) as [[[tr [[]|e]] l1] w1]; cbn beta iota zeta.
  - specialize (Hret l1 w1). destruct (hd (db_return_connection l1) w1) as [r w2].
    simpl in Hret. subst r. done.
  - specialize (Hh e l1 w1). destruct (handler e hd l1 w1) as [[[tr2 r2] l2] w2].
    unfold x_result in Hh. simpl in Hh. subst r2. cbn beta iota zeta.
    specialize (Hret l2 w2). destruct (hd (db_return_connection l2) w2) as [r w3].
    simpl in Hret. subst r. done.
Qed.
End Swallow.

Section SchemaExtras2.
Import SchemaMixin.
Context {W : Type}.
Variable exn_str : PyExn → string.
Variable py_str : PyVal → string.

(** X15. [create_index], [create_extension] and [create_graph] never
    raise on account of the database: when the logger and
    [_return_connection] raise nothing, each returns [None] whatever
    [_get_connection], the cursor and its statements answer or raise. *)
Theorem database_failures_are_swallowed (hd : Handler DbReply W) (self : t)
    (label vector_property : string) (dimensions : Z) (index_name : string)
    (l : option nat) (w : W) :
  logger_ok hd → return_ok hd →
  x_result (create_index exn_str self label vector_property dimensions index_name hd l w) = Ok ()
  ∧ x_result (create_extension exn_str py_str self hd l w) = Ok ()
  ∧ x_result (create_graph exn_str self hd l w) = Ok ().
Proof.
  intros Hlog Hret.
  repeat split; x_methods; apply swallowing; try done; intros e l' w'; cbn beta;
    unfold x_bind; by rewrite !log_result.
Qed.
End SchemaExtras2.

Section SchemaExtras2Witness.
Import SchemaMixin.

Lemma database_failures_are_swallowed_witness :
  x_result (create_index Sample3.exn_str Sample3.self "Memory" "embedding" 1024
              "memory_vector_index" Sample3.refusing None ()) = Ok ()
  ∧ x_result (create_extension Sample3.exn_str Sample.str_of Sample3.self
                Sample3.refusing None ()) = Ok ()
  ∧ x_result (create_graph Sample3.exn_str Sample3.self Sample3.refusing None ()) = Ok ().
Proof.
  apply (database_failures_are_swallowed Sample3.exn_str Sample.str_of Sample3.refusing
           Sample3.self "Memory" "embedding" 1024 "memory_vector_index" None ()).
  - intros lvl msg exc_info w. reflexivity.
  - intros conn w. reflexivity.
Defined.
End SchemaExtras2Witness.

(** ** Reading a successful run backwards *)

Section ExecFacts.
Context {E : Type} {Reply : E → Type} {W L : Type}.
Implicit Types hd : Handler Reply W.

Lemma x_bind_ok {A B} (m : Exec Reply W L A) (f : A → Exec Reply W L B) hd l w (b : B) :
  x_result (x_bind m f hd l w) = Ok b →
  ∃ tr a l1 w1,
    m hd l w = (tr, Ok a, l1, w1)
    ∧ x_result (f a hd l1 w1) = Ok b
    ∧ x_trace (x_bind m f hd l w) = (tr ++ x_trace (f a hd l1 w1))%list.
Proof.
  unfold x_bind, x_result, x_trace.
  destruct (m hd l w) as [[[tr [a|e]] l1] w1]; [|done].
  intros H. exists tr, a, l1, w1. split; [done|].
  by destruct (f a hd l1 w1) as [[[tr2 r2] l2] w2].
Qed.

Lemma x_call_ok (ev : E) hd (l l1 : L) w w1 tr (a : Reply ev) :
  x_call ev hd l w = (tr, Ok a, l1, w1) → tr = [obs ev (Ok a)].
Proof.
  unfold x_call. destruct (hd ev w) as [r w2]. by intros [= <- -> _ _].
Qed.

Lemma x_call_result_ok (ev : E) hd (l : L) w (a : Reply ev) :
  x_result (x_call ev hd l w) = Ok a → x_trace (x_call ev hd l w) = [obs ev (Ok a)].
Proof.
  unfold x_call, x_result, x_trace. destruct (hd ev w) as [r w2]. simpl. by intros ->.
Qed.

Lemma x_try_ok {A} (body : Exec Reply W L A) handler hd l w (a : A) :
  (∀ e l w, x_result (handler e hd l w) ≠ Ok a) →
  x_result (x_try body handler hd l w) = Ok a →
  x_result (body hd l w) = Ok a
  ∧ x_trace (x_try body handler hd l w) = x_trace (body hd l w).
Proof.
  intros Hh. unfold x_try, x_bind, x_catch, x_ret, x_result, x_trace.
  destruct (body hd l w) as [[[tr [a'|e]] l1] w1]; simpl.
  - intros [= ->]. by rewrite app_nil_r.
  - specialize (Hh e l1 w1). unfold x_result in Hh.
    by destruct (handler e hd l1 w1) as [[[tr2 r2] l2] w2].
Qed.

Lemma x_finally_ok {A} (body : Exec Reply W L A) fin hd l w (a : A) :
  x_result (x_finally body fin hd l w) = Ok a →
  x_result (body hd l w) = Ok a
  ∧ ∃ rest, x_trace (x_finally body fin hd l w) = (x_trace (body hd l w) ++ rest)%list.
Proof.
  unfold x_finally, x_bind, x_catch, x_ret, x_raise, x_result, x_trace.
  destruct (body hd l w) as [[[tr [a'|e]] l1] w1]; simpl;
    destruct (fin hd l1 w1) as [[[tr2 [[]|e2]] l2] w2]; simpl; try done.
  intros [= ->]. split; [done|]. by eexists.
Qed.

Lemma x_with_ok {M C} (open : Exec Reply W L M) (enter : M → Exec Reply W L C)
    exit (body : C → Exec Reply W L ()) hd l w :
  (∀ m e l w, x_result (exit m (Some e) hd l w) ≠ Ok true) →
  x_result (x_with open enter exit body hd l w) = Ok () →
  ∃ tr0 mgr l0 w0 tr1 c l1 w1 rest,
    open hd l w = (tr0, Ok mgr, l0, w0)
    ∧ enter mgr hd l0 w0 = (tr1, Ok c, l1, w1)
    ∧ x_result (body c hd l1 w1) = Ok ()
    ∧ x_trace (x_with open enter exit body hd l w)
      = (tr0 ++ tr1 ++ x_trace (body c hd l1 w1) ++ rest)%list.
Proof.
  intros Hexit. unfold x_with, x_bind, x_catch, x_ret, x_raise, x_result, x_trace.
  destruct (open hd l w) as [[[tr0 [mgr|e]] l0] w0]; [|done].
  destruct (enter mgr hd l0 w0) as [[[tr1 [c|e]] l1] w1] eqn:He; [|done].
  destruct (body c hd l1 w1) as [[[tr2 [[]|e]] l2] w2] eqn:Hb; simpl.
  - destruct (exit mgr None hd l2 w2) as [[[tr3 [b|e]] l3] w3]; simpl; [|done].
    intros _. exists tr0, mgr, l0, w0, tr1, c, l1, w1, tr3.
    rewrite Hb. simpl. by rewrite app_nil_r.
  - specialize (Hexit mgr e l2 w2). unfold x_result in Hexit.
    destruct (exit mgr (Some e) hd l2 w2) as [[[tr3 [[|]|e3]] l3] w3]; simpl; done.
Qed.
End ExecFacts.

Ltac x_call_inv Hm :=
  match type of Hm with
  | x_call ?ev _ _ _ = _ => apply (x_call_ok (Reply:=DbReply) ev) in Hm
  end.

Ltac x_bind_inv H :=
  let tr := fresh "tr" in
  let a := fresh "a" in
  let l1 := fresh "l" in
  let w1 := fresh "w" in
  let Hm := fresh "Hm" in
  let Htr := fresh "Htr" in
  apply x_bind_ok in H as (tr & a & l1 & w1 & Hm & H & Htr);
  rewrite Htr; clear Htr; cbn beta in H |- *;
  try (x_call_inv Hm; subst tr).

Section SchemaExtras3.
Import SchemaMixin.
Context {W : Type}.
Variable exn_str : PyExn → string.
Variable py_str : PyVal → string.

(** X16. [_create_graph] returns only after the statements outside its
    inner [try] blocks went through: when the cursor's [__exit__]
    swallows no exception and the method returns, a connection was
    obtained, a cursor opened on it and entered, and on that cursor the
    schema, the [Memory] table and the index on [properties] were each
    executed without an exception, in that order. *)
Theorem create_graph_schema_returns_after_required (hd : Handler DbReply W) (self : t)
    (l : option nat) (w : W) :
  exit_keeps_exception hd →
  x_result (_create_graph exn_str self hd l w) = Ok () →
  ∃ (conn mgr cursor : nat) (t1 t2 t3 t4 : list (Obs DbReply)),
    x_trace (_create_graph exn_str self hd l w)
    = ([obs db_get_connection (Ok conn); obs (db_cursor conn) (Ok mgr);
        obs (db_enter mgr) (Ok cursor);
        obs (db_execute cursor (sql_create_schema (db_name self))) (Ok ())]
       ++ t1
       ++ [obs (db_execute cursor (sql_create_memory_table (db_name self))) (Ok ())]
       ++ t2
       ++ [obs (db_execute cursor (sql_properties_index (db_name self))) (Ok ())]
       ++ t3
       ++ [obs (db_log LInfo "Indexes created for Memory table." false) (Ok ())]
       ++ t4)%list.
Proof.
  intros Hexit H. unfold _create_graph, mbind, Exec_bind in H |- *.
  x_bind_inv H. injection Hm as <- _ _ _. clear a.
  apply x_finally_ok in H as [H [t4 Htr]]. rewrite Htr. clear Htr.
  apply x_try_ok in H as [H Htr].
  2:{ intros e l' w'. unfold mbind, Exec_bind, x_bind, x_raise, x_result, error, x_call.
      by destruct (hd _ w') as [[[]|e'] w'']. }
  rewrite Htr. clear Htr.
  x_bind_inv H.
  assert (tr = [obs db_get_connection (Ok a)]) as ->.
  { revert Hm. unfold get_conn, call, mbind, mret, Exec_bind, Exec_ret, x_bind, x_call, x_put,
      x_ret.
    destruct (hd db_get_connection _) as [[c|e] w']; simpl; [|done]. by intros [= <- <- _ _]. }
  clear Hm. unfold with_cursor in H |- *.
  apply x_with_ok in H as (tro & mgr & lo & wo & tre & c & le & we & rest & Ho & He & H & Htr).
  2:{ intros m e l' w'. unfold call, x_call, x_result. specialize (Hexit m e w').
      by destruct (hd (db_exit m (Some e)) w') as [r w'']. }
  rewrite Htr. clear Htr.
  unfold call in Ho, He. x_call_inv Ho. x_call_inv He. subst tro tre.
  unfold execute, info, mbind, Exec_bind in H |- *.
  x_bind_inv H. x_bind_inv H. x_bind_inv H. x_bind_inv H. x_bind_inv H. x_bind_inv H.
  x_bind_inv H. x_bind_inv H.
  revert H. unfold x_call, x_result, x_trace.
  match goal with
  | |- context [hd ?ev ?w'] => destruct (hd ev w') as [[u|e] w'']; simpl; [intros _|done]
  end.
  cbn [DbReply] in *.
  repeat match goal with u : () |- _ => destruct u end.
  exists a, mgr, c. eexists [_], (_ :: tr), (tr0 ++ tr1)%list, (rest ++ t4)%list.
  simpl. rewrite <- !app_assoc. simpl. rewrite <- !app_assoc. reflexivity.
Qed.
End SchemaExtras3.

Section SchemaExtras3Witness.
Import SchemaMixin.

Lemma create_graph_schema_returns_after_required_witness :
  ∃ (conn mgr cursor : nat) (t1 t2 t3 t4 : list (Obs DbReply)),
    x_trace (_create_graph Sample3.exn_str Sample3.self Sample3.plain None ())
    = ([obs db_get_connection (Ok conn); obs (db_cursor conn) (Ok mgr);
        obs (db_enter mgr) (Ok cursor);
        obs (db_execute cursor (sql_create_schema "memos")) (Ok ())]
       ++ t1
       ++ [obs (db_execute cursor (sql_create_memory_table "memos")) (Ok ())]
       ++ t2
       ++ [obs (db_execute cursor (sql_properties_index "memos")) (Ok ())]
       ++ t3
       ++ [obs (db_log LInfo "Indexes created for Memory table." false) (Ok ())]
       ++ t4)%list.
Proof.
  apply (create_graph_schema_returns_after_required Sample3.exn_str Sample3.plain
           Sample3.self None ()).
  - intros mgr e w. simpl. discriminate.
  - vm_compute. reflexivity.
Defined.
End SchemaExtras3Witness.

(** ** Runs that raise nothing *)

Section Succeeds.
Context {E : Type} {Reply : E → Type} {W L : Type}.
Implicit Types hd : Handler Reply W.

Lemma succeeds_ret {A} hd (a : A) : succeeds (L:=L) hd (x_ret a).
Proof. intros l w. by exists a. Qed.

Lemma succeeds_get hd : succeeds (L:=L) hd x_get.
Proof. intros l w. by exists l. Qed.

Lemma succeeds_put hd (l' : L) : succeeds hd (x_put l').
Proof. intros l w. by exists (). Qed.

Lemma succeeds_call hd (ev : E) :
  (∀ w, ∃ v, (hd ev w).1 = Ok v) → succeeds (L:=L) hd (x_call ev).
Proof.
  intros Hev l w. destruct (Hev w) as [v Hv]. exists v.
  unfold x_call, x_result. destruct (hd ev w) as [r w1]. simpl in *. by subst r.
Qed.

Lemma succeeds_bind {A B} hd (m : Exec Reply W L A) (f : A → Exec Reply W L B) :
  succeeds hd m → (∀ a, succeeds hd (f a)) → succeeds hd (x_bind m f).
Proof.
  intros Hm Hf l w. destruct (Hm l w) as [a Ha]. unfold x_bind, x_result in *.
  destruct (m hd l w) as [[[tr r] l1] w1]. simpl in Ha. subst r.
  destruct (Hf a l1 w1) as [b Hb]. exists b.
  by destruct (f a hd l1 w1) as [[[tr2 r2] l2] w2].
Qed.

Lemma succeeds_try {A} hd (body : Exec Reply W L A) handler :
  (∀ e, succeeds hd (handler e)) → succeeds hd (x_try body handler).
Proof.
  intros Hh l w. unfold x_try, x_bind, x_catch, x_ret, x_result.
  destruct (body hd l w) as [[[tr [a|e]] l1] w1]; simpl; [by exists a|].
  destruct (Hh e l1 w1) as [a Ha]. exists a. unfold x_result in Ha.
  by destruct (handler e hd l1 w1) as [[[tr2 r2] l2] w2].
Qed.

Lemma succeeds_try_body {A} hd (body : Exec Reply W L A) handler :
  succeeds hd body → succeeds hd (x_try body handler).
Proof.
  intros Hb l w. unfold x_try, x_bind, x_catch, x_ret, x_result.
  destruct (Hb l w) as [a Ha]. unfold x_result in Ha.
  destruct (body hd l w) as [[[tr r] l1] w1]. simpl in Ha. subst r. simpl. by exists a.
Qed.

Lemma succeeds_finally {A} hd (body : Exec Reply W L A) fin :
  succeeds hd body → succeeds hd fin → succeeds hd (x_finally body fin).
Proof.
  intros Hb Hf l w. unfold x_finally, x_bind, x_catch, x_ret, x_raise, x_result.
  destruct (Hb l w) as [a Ha]. unfold x_result in Ha.
  destruct (body hd l w) as [[[tr r] l1] w1]. simpl in Ha. subst r. simpl.
  destruct (Hf l1 w1) as [u Hu]. unfold x_result in Hu.
  destruct (fin hd l1 w1) as [[[tr2 r2] l2] w2]. simpl in Hu. subst r2. simpl.
  by exists a.
Qed.

Lemma succeeds_with {M C} hd (open : Exec Reply W L M) (enter : M → Exec Reply W L C)
    exit (body : C → Exec Reply W L ()) :
  succeeds hd open → (∀ m, succeeds hd (enter m)) → (∀ m, succeeds hd (exit m None)) →
  (∀ c, succeeds hd (body c)) → succeeds hd (x_with open enter exit body).
Proof.
  intros Ho He Hx Hb. apply succeeds_bind; [done|]. intros m.
  apply succeeds_bind; [done|]. intros c. intros l w.
  unfold x_bind, x_catch, x_ret, x_result.
  destruct (Hb c l w) as [[] Ha]. unfold x_result in Ha.
  destruct (body c hd l w) as [[[tr r] l1] w1]. simpl in Ha. subst r. simpl.
  destruct (Hx m l1 w1) as [b Hb']. unfold x_result in Hb'.
  destruct (exit m None hd l1 w1) as [[[tr2 r2] l2] w2]. simpl in Hb'. subst r2. simpl.
  by exists ().
Qed.
End Succeeds.

Section SchemaExtras4.
Import SchemaMixin.
Context {W : Type}.
Variable exn_str : PyExn → string.
Variable py_str : PyVal → string.

(** X17. The embedding column, the vector index and the full-text
    setup of [_create_graph] are not fatal: when the three statements
    outside the inner [try] blocks succeed, as does every call that is
    not a statement (the pool, the cursor, the logger), [_create_graph]
    returns, whatever the other statements answer or raise. *)
Theorem optional_steps_are_not_fatal (hd : Handler DbReply W) (self : t)
    (l : option nat) (w : W) :
  (∀ ev w, (∀ cursor sql, ev ≠ db_execute cursor sql) → ∃ v, (hd ev w).1 = Ok v) →
  (∀ cursor sql w, sql ∈ required_statements (db_name self) →
                   (hd (db_execute cursor sql) w).1 = Ok ()) →
  x_result (_create_graph exn_str self hd l w) = Ok ().
Proof.
  intros Hother Hreq.
  assert (Hcall : ∀ ev, (∀ cursor sql, ev ≠ db_execute cursor sql) →
                        succeeds (L:=option nat) hd (x_call ev)).
  { intros ev Hev. apply succeeds_call. intros w'. by apply Hother. }
  assert (Hexec : ∀ cursor sql, sql ∈ required_statements (db_name self) →
                                succeeds (L:=option nat) hd (x_call (db_execute cursor sql))).
  { intros cursor sql Hsql. apply succeeds_call. intros w'. exists (). by apply Hreq. }
  assert (Hall : succeeds hd (_create_graph exn_str self)).
  { x_methods. unfold get_conn, return_conn, call, mbind, mret, Exec_bind, Exec_ret.
    unfold required_statements in Hexec.
    apply succeeds_bind; [apply succeeds_put|]. intros _.
    apply succeeds_finally; [apply succeeds_try_body|].
    all: repeat first
      [ match goal with |- ∀ _, _ => intro end
      | apply succeeds_put
      | apply succeeds_get
      | apply succeeds_ret
      | match goal with
        | |- succeeds _ (x_call (db_execute ?c ?sql)) => apply (Hexec c sql); set_solver
        | |- succeeds _ (x_call ?ev) => apply (Hcall ev); done
        end
      | apply succeeds_finally
      | apply succeeds_try
      | apply succeeds_with
      | apply succeeds_bind ]. }
  destruct (Hall l w) as [[] Hres]. exact Hres.
Qed.
End SchemaExtras4.

Section SchemaExtras4Witness.
Import SchemaMixin.

Lemma optional_steps_are_not_fatal_witness :
  x_result (_create_graph Sample3.exn_str Sample3.self Sample3.plain None ()) = Ok ()
  ∧ (Sample3.plain (db_execute 8%nat (sql_add_embedding_column "memos")) ()).1
    = Err (BackendError "type vector does not exist").
Proof.
  split; [|vm_compute; reflexivity].
  apply (optional_steps_are_not_fatal Sample3.exn_str Sample3.plain Sample3.self None ()).
  - intros ev w Hev. destruct ev; simpl; eauto. by destruct (Hev cursor sql).
  - intros cursor sql w Hsql. unfold required_statements in Hsql.
    apply elem_of_cons in Hsql as [->|Hsql]; [vm_compute; reflexivity|].
    apply elem_of_cons in Hsql as [->|Hsql]; [vm_compute; reflexivity|].
    apply list_elem_of_singleton in Hsql as ->. vm_compute. reflexivity.
Defined.
End SchemaExtras4Witness.

(** ** Runs followed call by call *)

Ltac x_combinators :=
  unfold x_finally, x_try, x_with, SchemaMixin.get_conn, SchemaMixin.return_conn,
    SchemaMixin.call, mbind, mret, Exec_bind, Exec_ret,
    x_catch, x_bind, x_call, x_ret, x_raise, x_get, x_put; cbn beta.

(** One call answered: both outcomes, the impossible ones closed by [prune]. *)
Ltac x_step hd prune :=
  match goal with
  | |- context [if ?b then _ else _] => is_var b; destruct b; cbn beta iota zeta
  | |- context [SchemaMixin.greater_than_zero ?v] =>
      let G := fresh "G" in
      destruct (SchemaMixin.greater_than_zero v) as [[|]|] eqn:G; cbn beta iota zeta
  | |- context [hd ?ev ?w] =>
      let r := fresh "r" in
      let w1 := fresh "w" in
      let E := fresh "E" in
      destruct (hd ev w) as [r w1] eqn:E; destruct r as [?|?];
      try (exfalso; prune ev w E); cbn beta iota zeta
  end.

Ltac no_prune ev w E := fail.

Ltac in_trace := simpl; repeat first [left; reflexivity | right].

Section SchemaExtras5.
Import SchemaMixin.
Context {W : Type}.
Variable exn_str : PyExn → string.
Variable py_str : PyVal → string.

(** X18. [create_graph] creates the graph only when the catalog counts
    none: if [select create_graph(...)] is executed at all, the count
    fetched on the same cursor was a number not greater than zero. *)
Theorem graph_is_created_only_when_absent (hd : Handler DbReply W) (self : t)
    (l : option nat) (w : W) (cursor : nat) :
  let tr := x_trace (create_graph exn_str self hd l w) in
  In (db_execute cursor (sql_select_create_graph (db_name self))) (map obs_event tr) →
  ∃ count : PyVal,
    In (obs (db_fetchone_0 cursor) (Ok count)) tr
    ∧ greater_than_zero count = Ok false.
Proof.
  cbn zeta. unfold x_trace. x_methods. x_combinators.
  repeat x_step hd no_prune; cbn [DbReply] in *; simpl; intros H;
    repeat match goal with
           | H : _ ∨ _ |- _ => destruct H as [H|H]
           | H : False |- _ => destruct H
           | H : db_execute _ _ = db_execute _ _ |- _ =>
               first [ exfalso; injection H; intros; congruence | injection H as <- ]
           | H : _ = _ :> DbEvent |- _ => discriminate H
           end;
    try (eexists; split; [in_trace|eassumption]).
Qed.
End SchemaExtras5.

Section SchemaExtras5Witness.
Import SchemaMixin.

Lemma graph_is_created_only_when_absent_witness :
  ∃ count : PyVal,
    In (obs (db_fetchone_0 8%nat) (Ok count))
       (x_trace (create_graph Sample3.exn_str Sample3.self Sample3.plain None ()))
    ∧ greater_than_zero count = Ok false.
Proof.
  apply (graph_is_created_only_when_absent Sample3.exn_str Sample3.plain Sample3.self
           None () 8%nat).
  vm_compute. in_trace.
Defined.
End SchemaExtras5Witness.

Ltac x_step_ext hd prune :=
  match goal with
  | |- context [if ?b then _ else _] => is_var b; destruct b; cbn beta iota zeta
  | |- context [str_contains ?a ?b] =>
      let S := fresh "S" in
      destruct (str_contains a b) eqn:S; cbn beta iota zeta
  | |- context [hd ?ev ?w] =>
      let r := fresh "r" in
      let w1 := fresh "w" in
      let E := fresh "E" in
      destruct (hd ev w) as [r w1] eqn:E; destruct r as [?|?];
      try (exfalso; prune ev w E); cbn beta iota zeta
  end.

Section SchemaExtras6.
Import SchemaMixin.
Context {W : Type}.
Variable exn_str : PyExn → string.
Variable py_str : PyVal → string.

(** X19. A failure on the first extension does not keep
    [create_extension] from the second: when the logger raises nothing
    and [create extension ... polar_age] was executed at all, whatever it
    answered, [create extension ... vector] is executed on the same
    cursor as well. *)
Theorem both_extensions_are_attempted (hd : Handler DbReply W) (self : t)
    (l : option nat) (w : W) (cursor : nat) :
  logger_ok hd →
  let evs := map obs_event (x_trace (create_extension exn_str py_str self hd l w)) in
  In (db_execute cursor (sql_create_extension "polar_age")) evs →
  In (db_execute cursor (sql_create_extension "vector")) evs.
Proof.
  intros Hlog. cbn zeta. unfold x_trace, create_extension, extensions.
  cbn [x_for_each]. x_methods. x_combinators.
  repeat x_step_ext hd ltac:(fun ev w E =>
    match ev with
    | db_log ?lvl ?msg ?ei =>
        let Hx := fresh in
        pose proof (Hlog lvl msg ei w) as Hx; rewrite E in Hx; discriminate Hx
    end);
  cbn [DbReply] in *; simpl; intros H;
    repeat match goal with
           | H : _ ∨ _ |- _ => destruct H as [H|H]
           | H : False |- _ => destruct H
           | H : db_execute _ _ = db_execute _ _ |- _ =>
               first [ exfalso; injection H; intros; congruence | injection H as <- ]
           | H : _ = _ :> DbEvent |- _ => discriminate H
           end;
    in_trace.
Qed.

(** X20. Extensions that are there already raise no alarm: when every
    call but the [create extension] statements succeeds and each of
    those either succeeds or raises an exception whose text contains
    [already exists], [create_extension] returns and logs nothing at
    [warning] or [error]. *)
Theorem installed_extensions_raise_no_alarm (hd : Handler DbReply W) (self : t)
    (l : option nat) (w : W) :
  (∀ ev w, is_create_extension ev = false → ∃ v, (hd ev w).1 = Ok v) →
  (∀ cursor sql w e, (hd (db_execute cursor sql) w).1 = Err e →
                     str_contains "already exists" (exn_str e) = true) →
  x_result (create_extension exn_str py_str self hd l w) = Ok ()
  ∧ Forall (λ o, is_alarm o = false) (x_trace (create_extension exn_str py_str self hd l w)).
Proof.
  intros Hother Hexists. unfold x_result, x_trace, create_extension, extensions.
  cbn [x_for_each]. x_methods. x_combinators.
  repeat x_step_ext hd ltac:(fun ev w E =>
    first
      [ let Hx := fresh in
        let Hv := fresh in
        assert (Hx : is_create_extension ev = false) by (vm_compute; reflexivity);
        destruct (Hother ev w Hx) as [? Hv]; rewrite E in Hv; discriminate Hv
      | match goal with
        | S : str_contains _ (exn_str ?e) = false, E' : hd (db_execute ?c ?sql) ?w' = (Err ?e, _)
          |- _ =>
            let Hx := fresh in
            pose proof (Hexists c sql w' e) as Hx; rewrite E' in Hx;
            specialize (Hx eq_refl); congruence
        end ]);
  simpl; (split; [reflexivity|repeat constructor]).
Qed.
End SchemaExtras6.

Section SchemaExtras6Witness.
Import SchemaMixin.

Lemma both_extensions_are_attempted_witness :
  (Sample3.no_age (db_execute 8%nat (sql_create_extension "polar_age")) ()).1
    = Err (BackendError "extension polar_age is not available")
  ∧ In (db_execute 8%nat (sql_create_extension "vector"))
       (map obs_event
          (x_trace (create_extension Sample3.exn_str Sample.str_of Sample3.self
                      Sample3.no_age None ()))).
Proof.
  split; [reflexivity|].
  apply (both_extensions_are_attempted Sample3.exn_str Sample.str_of Sample3.no_age
           Sample3.self None () 8%nat).
  - intros lvl msg exc_info w. reflexivity.
  - vm_compute. in_trace.
Defined.

Lemma installed_extensions_raise_no_alarm_witness :
  (Sample3.installed (db_execute 8%nat (sql_create_extension "vector")) ()).1
    = Err (BackendError "extension already exists")
  ∧ x_result (create_extension Sample3.exn_str Sample.str_of Sample3.self
                Sample3.installed None ()) = Ok ()
  ∧ Forall (λ o, is_alarm o = false)
      (x_trace (create_extension Sample3.exn_str Sample.str_of Sample3.self
                  Sample3.installed None ())).
Proof.
  split; [reflexivity|].
  apply (installed_extensions_raise_no_alarm Sample3.exn_str Sample.str_of Sample3.installed
           Sample3.self None ()).
  - intros ev w Hev. destruct ev; simpl; eauto.
    simpl in Hev. rewrite Hev. eauto.
  - intros cursor sql w e. simpl.
    destruct (bool_decide _); simpl; [|discriminate].
    intros [= <-]. vm_compute. reflexivity.
Defined.
End SchemaExtras6Witness.
